(** * DDS-Importer: a shallow embedding of [DDS-Importer.py]

    The plugin is orchestration code: it reads a two-key settings file with
    Python's [configparser], runs two external converters through
    [subprocess.run], splits the alpha channel of the produced PNG with
    Pillow and hands the files to the host's resource import.

    The embedding keeps that shape.  The file system is a finite map from
    paths to nodes, every externally visible action (log window, console,
    message box, subprocess, host import) is appended to an ordered trace,
    Python exceptions are results of a state-and-exception monad, and the
    external collaborators (the converters, the host, the permissions of the
    disk) are the methods of a type class. *)

From Stdlib Require Import String Ascii List ZArith Bool Lia.
From stdpp Require Import base option list gmap strings pretty.

Local Open Scope string_scope.
Local Open Scope Z_scope.
Local Open Scope list_scope.

(** ** Python [str] helpers

    Strings are sequences of code points below 256. *)

Module Str.

Definition code (c : ascii) : nat := nat_of_ascii c.

(** [str.isspace] on code points below 256. *)
Definition is_space (c : ascii) : bool :=
  let n := code c in
  ((9 <=? n) && (n <=? 13) || (28 <=? n) && (n <=? 32)
   || (n =? 133) || (n =? 160))%nat.

Definition eqc (a b : ascii) : bool := Ascii.eqb a b.

Fixpoint lstrip (s : string) : string :=
  match s with
  | String c r => if is_space c then lstrip r else s
  | EmptyString => EmptyString
  end.

Fixpoint rstrip (s : string) : string :=
  match s with
  | String c r =>
      match rstrip r with
      | EmptyString => if is_space c then EmptyString else String c EmptyString
      | r' => String c r'
      end
  | EmptyString => EmptyString
  end.

Definition strip (s : string) : string := rstrip (lstrip s).

(** [c in s] *)
Fixpoint contains (c : ascii) (s : string) : bool :=
  match s with
  | String d r => eqc c d || contains c r
  | EmptyString => false
  end.

(** [s.startswith(p)] *)
Fixpoint startswith (p s : string) {struct p} : bool :=
  match p with
  | String a p' =>
      match s with
      | String b s' => eqc a b && startswith p' s'
      | EmptyString => false
      end
  | EmptyString => true
  end.

(** [str.lower] on code points below 256: A-Z and the Latin-1 capitals. *)
Definition lower_char (c : ascii) : ascii :=
  let n := code c in
  if ((65 <=? n) && (n <=? 90)
      || (192 <=? n) && (n <=? 222) && negb (n =? 215))%nat
  then ascii_of_nat (n + 32) else c.

Fixpoint lower (s : string) : string :=
  match s with
  | String c r => String (lower_char c) (lower r)
  | EmptyString => EmptyString
  end.

(** [sep.join(l)] *)
Definition join (sep : string) (l : list string) : string :=
  String.concat sep l.

(** [s.replace("\n", "\n\t")] *)
Fixpoint indent_newlines (s : string) : string :=
  match s with
  | String c r =>
      if eqc c "010" then String "010" (String "009" (indent_newlines r))
      else String c (indent_newlines r)
  | EmptyString => EmptyString
  end.

(** [s.replace("%%", "")] *)
Fixpoint drop_escaped_percent (s : string) : string :=
  match s with
  | String a r =>
      match r with
      | String b r' =>
          if eqc a "%" && eqc b "%" then drop_escaped_percent r'
          else String a (drop_escaped_percent r)
      | EmptyString => s
      end
  | EmptyString => EmptyString
  end.

(** Index of the first character that is not white space; [_read] asks
    for it on lines that have one. *)
Fixpoint first_nonspace (s : string) : nat :=
  match s with
  | String c r => if is_space c then S (first_nonspace r) else O
  | EmptyString => O
  end.

(** Text-mode reading with universal newlines: CR LF and a lone CR are
    read as LF. *)
Fixpoint universal_newlines (s : string) : string :=
  match s with
  | String a r =>
      if eqc a "013" then
        match r with
        | String b r' =>
            if eqc b "010" then String "010" (universal_newlines r')
            else String "010" (universal_newlines r)
        | EmptyString => String "010" EmptyString
        end
      else String a (universal_newlines r)
  | EmptyString => EmptyString
  end.

(** The lines a text file yields when iterated, without their
    terminators. *)
Fixpoint split_lines (s : string) : list string :=
  match s with
  | String c r =>
      if eqc c "010" then EmptyString :: split_lines r
      else match split_lines r with
           | l :: ls => String c l :: ls
           | [] => [String c EmptyString]
           end
  | EmptyString => []
  end.

(** [str(n)] for an integer. *)
Definition of_Z (n : Z) : string := pretty n.

(** Python truthiness of a string. *)
Definition truthy (s : string) : bool :=
  match s with EmptyString => false | _ => true end.

End Str.

Arguments Str.startswith : simpl never.
Arguments Str.eqc : simpl never.

(** ** [os.path], as in [posixpath]

    Qt's file dialogs return paths with forward slashes on every platform. *)

Module OsPath.

(** Splits [p] at its last ['/']: the part up to and including it, and
    the rest. *)
Fixpoint split_last_sep (p : string) : string * string :=
  match p with
  | String c r =>
      let '(h, t) := split_last_sep r in
      if Str.contains "/" p
      then (String c h, t)
      else (EmptyString, p)
  | EmptyString => (EmptyString, EmptyString)
  end.

Definition basename (p : string) : string := snd (split_last_sep p).

Fixpoint all_slashes (s : string) : bool :=
  match s with
  | String c r => Str.eqc c "/" && all_slashes r
  | EmptyString => true
  end.

Fixpoint rstrip_slashes (s : string) : string :=
  match s with
  | String c r =>
      match rstrip_slashes r with
      | EmptyString =>
          if Str.eqc c "/" then EmptyString else String c EmptyString
      | r' => String c r'
      end
  | EmptyString => EmptyString
  end.

Definition dirname (p : string) : string :=
  let head := fst (split_last_sep p) in
  if Str.truthy head && negb (all_slashes head)
  then rstrip_slashes head else head.

(** [genericpath._splitext] on the last component: the extension starts
    at the last dot that is preceded by a character other than a dot. *)
Fixpoint splitext_name (seen_nondot : bool) (name : string)
  : string * string :=
  match name with
  | String c r =>
      let '(root, ext) := splitext_name (seen_nondot || negb (Str.eqc c ".")) r in
      match ext with
      | EmptyString =>
          if Str.eqc c "." && seen_nondot && negb (Str.contains "." r)
          then (EmptyString, name)
          else (String c root, EmptyString)
      | _ => (String c root, ext)
      end
  | EmptyString => (EmptyString, EmptyString)
  end.

Definition splitext (p : string) : string * string :=
  let '(h, t) := split_last_sep p in
  let '(root, ext) := splitext_name false t in
  (h +:+ root, ext).

End OsPath.

(** ** Python exceptions *)

Inductive ExnClass :=
| RuntimeError
| ValueError
| KeyError
| OSError
| FileNotFoundError
| PermissionError
| UnidentifiedImageError
| ConfigParserError
| OtherException.

(** An exception object: its class and what [str(e)] gives. *)
Record exn := Exn { exn_class : ExnClass; exn_str : string }.

Definition ExnClass_eqb (c d : ExnClass) : bool :=
  match c, d with
  | RuntimeError, RuntimeError | ValueError, ValueError
  | KeyError, KeyError | OSError, OSError
  | FileNotFoundError, FileNotFoundError
  | PermissionError, PermissionError
  | UnidentifiedImageError, UnidentifiedImageError
  | ConfigParserError, ConfigParserError
  | OtherException, OtherException => true
  | _, _ => false
  end.

(** [issubclass c d].  [IOError] is [OSError]; Pillow derives
    [UnidentifiedImageError] from [OSError]. *)
Definition subclass (c d : ExnClass) : bool :=
  ExnClass_eqb c d ||
  match c, d with
  | (FileNotFoundError | PermissionError | UnidentifiedImageError), OSError =>
      true
  | _, _ => false
  end.

Definition isinstance (e : exn) (c : ExnClass) : bool :=
  subclass (exn_class e) c.

Inductive Res (A : Type) :=
| Ok (a : A)
| Raise (e : exn).
Arguments Ok {A} a.
Arguments Raise {A} e.

Definition nl : string := String "010" EmptyString.
(** ** [configparser.ConfigParser]

    Dictionaries keep insertion order, so sections and options are
    association lists.  The settings file is text: [write] renders it and
    [read] parses it, line by line, as [RawConfigParser._read] does with the
    constructor's defaults (delimiters [=] and [:], comment prefixes [#] and
    [;], no inline comments, strict, empty lines allowed in values, basic
    interpolation). *)

Module Cfg.

Section Dict.
Context {V : Type}.

Fixpoint dict_get (k : string) (d : list (string * V)) : option V :=
  match d with
  | (k', v) :: r => if String.eqb k k' then Some v else dict_get k r
  | [] => None
  end.

(** [d[k] = v]: an existing key keeps its place. *)
Fixpoint dict_set (k : string) (v : V) (d : list (string * V))
  : list (string * V) :=
  match d with
  | (k', v') :: r =>
      if String.eqb k k' then (k', v) :: r else (k', v') :: dict_set k v r
  | [] => [(k, v)]
  end.

Definition dict_has (k : string) (d : list (string * V)) : bool :=
  match dict_get k d with Some _ => true | None => false end.
End Dict.

Definition Options := list (string * string).

Record ConfigParser := {
  defaults : Options;
  sections : list (string * Options)
}.

Definition empty : ConfigParser := {| defaults := []; sections := [] |}.

Definition DEFAULT : string := "DEFAULT".

Definition has_section (cfg : ConfigParser) (name : string) : bool :=
  dict_has name (sections cfg).

(** *** Interpolation *)

(** The text after ["%("] matched against [[^)]+\)s]: the key and the
    number of characters consumed. *)
Fixpoint scan_key (s acc : string) (n : nat) : option (string * nat) :=
  match s with
  | String c r =>
      if Str.eqc c ")" then
        match acc, r with
        | String _ _, String d _ =>
            if Str.eqc d "s" then Some (acc, S (S n)) else None
        | _, _ => None
        end
      else scan_key r (acc +:+ String c EmptyString) (S n)
  | EmptyString => None
  end.

(** [_KEYCRE.sub('', s)] *)
Fixpoint keycre_sub (skip : nat) (s : string) : string :=
  match s with
  | String c r =>
      match skip with
      | S k => keycre_sub k r
      | O =>
          match r with
          | String d r' =>
              if Str.eqc c "%" && Str.eqc d "(" then
                match scan_key r' EmptyString O with
                | Some (_, n) => keycre_sub (S n) r
                | None => String c (keycre_sub O r)
                end
              else String c (keycre_sub O r)
          | EmptyString => s
          end
      end
  | EmptyString => EmptyString
  end.

(** [BasicInterpolation.before_set] *)
Definition before_set (value : string) : Res string :=
  let tmp_value := keycre_sub O (Str.drop_escaped_percent value) in
  if Str.contains "%" tmp_value
  then Raise (Exn ValueError ("invalid interpolation syntax in " +:+ value))
  else Ok value.

Definition MAX_INTERPOLATION_DEPTH : nat := 10.

(** [BasicInterpolation._interpolate_some]; [fuel] is the number of
    nesting levels still allowed. *)
Fixpoint interpolate_some (fuel : nat) (map : string → option string)
    (rest : string) {struct fuel} : Res string :=
  match fuel with
  | O => Raise (Exn ConfigParserError "Recursion limit exceeded in value substitution")
  | S fuel' =>
      (fix loop (skip : nat) (s : string) {struct s} : Res string :=
         match s with
         | EmptyString => Ok EmptyString
         | String c r =>
             match skip with
             | S k => loop k r
             | O =>
                 if Str.eqc c "%" then
                   match r with
                   | String d r' =>
                       if Str.eqc d "%" then
                         match loop 1%nat r with
                         | Ok t => Ok (String "%" t)
                         | Raise e => Raise e
                         end
                       else if Str.eqc d "(" then
                         match scan_key r' EmptyString O with
                         | Some (name, n) =>
                             match map (Str.lower name) with
                             | Some v =>
                                 match (if Str.contains "%" v
                                        then interpolate_some fuel' map v
                                        else Ok v) with
                                 | Ok v' =>
                                     match loop (S n) r with
                                     | Ok t => Ok (v' +:+ t)
                                     | Raise e => Raise e
                                     end
                                 | Raise e => Raise e
                                 end
                             | None =>
                                 Raise (Exn ConfigParserError
                                          ("Bad value substitution: key " +:+ Str.lower name))
                             end
                         | None =>
                             Raise (Exn ConfigParserError "bad interpolation variable reference")
                         end
                       else Raise (Exn ConfigParserError "'%' must be followed by '%' or '('")
                   | EmptyString =>
                       Raise (Exn ConfigParserError "'%' must be followed by '%' or '('")
                   end
                 else
                   match loop O r with
                   | Ok t => Ok (String c t)
                   | Raise e => Raise e
                   end
             end
         end) O rest
  end.

(** The [ChainMap] of a section's options over the defaults. *)
Definition chain (sect dflt : Options) (k : string) : option string :=
  match dict_get k sect with
  | Some v => Some v
  | None => dict_get k dflt
  end.

(** [config[section].get(option, fallback)] on an existing section. *)
Definition proxy_get (cfg : ConfigParser) (section opt : string)
  : Res (option string) :=
  match dict_get section (sections cfg) with
  | Some sect =>
      let map := chain sect (defaults cfg) in
      match map (Str.lower opt) with
      | Some value =>
          match interpolate_some MAX_INTERPOLATION_DEPTH map value with
          | Ok v => Ok (Some v)
          | Raise e => Raise e
          end
      | None => Ok None
      end
  | None =>
      if String.eqb section DEFAULT then
        match dict_get (Str.lower opt) (defaults cfg) with
        | Some value =>
            match interpolate_some MAX_INTERPOLATION_DEPTH
                    (chain [] (defaults cfg)) value with
            | Ok v => Ok (Some v)
            | Raise e => Raise e
            end
        | None => Ok None
        end
      else Ok None
  end.

(** [config[section]]: [KeyError] unless the section exists. *)
Definition getitem (cfg : ConfigParser) (section : string) : Res unit :=
  if negb (String.eqb section DEFAULT) && negb (has_section cfg section)
  then Raise (Exn KeyError ("'" +:+ section +:+ "'"))
  else Ok tt.

(** [parser.set(section, option, value)] *)
Definition set (cfg : ConfigParser) (section opt value : string)
  : Res ConfigParser :=
  match (if Str.truthy value then before_set value else Ok value) with
  | Raise e => Raise e
  | Ok value =>
      if negb (Str.truthy section) || String.eqb section DEFAULT then
        Ok {| defaults := dict_set (Str.lower opt) value (defaults cfg);
              sections := sections cfg |}
      else
        match dict_get section (sections cfg) with
        | Some sect =>
            Ok {| defaults := defaults cfg;
                  sections := dict_set section
                                (dict_set (Str.lower opt) value sect)
                                (sections cfg) |}
        | None => Raise (Exn ConfigParserError ("No section: " +:+ section))
        end
  end.

(** [config[section][option] = value] *)
Definition proxy_setitem (cfg : ConfigParser) (section opt value : string)
  : Res ConfigParser :=
  match getitem cfg section with
  | Raise e => Raise e
  | Ok _ => set cfg section opt value
  end.

(** [read_dict] on the items of one section, after the section was
    made: the configuration reached, and the exception that stopped it. *)
Fixpoint set_items (cfg : ConfigParser) (section : string)
    (added : list string) (items : list (string * string))
  : ConfigParser * option exn :=
  match items with
  | (k, v) :: r =>
      let key := Str.lower k in
      if existsb (String.eqb key) added then
        (cfg, Some (Exn ConfigParserError
                      ("option " +:+ key +:+ " in section " +:+ section
                       +:+ " already exists")))
      else
        match set cfg section key v with
        | Ok cfg' => set_items cfg' section (key :: added) r
        | Raise e => (cfg, Some e)
        end
  | [] => (cfg, None)
  end.

(** [config[section] = items] *)
Definition setitem (cfg : ConfigParser) (section : string)
    (items : list (string * string)) : ConfigParser * option exn :=
  let cleared :=
    if String.eqb section DEFAULT then
      {| defaults := []; sections := sections cfg |}
    else if has_section cfg section then
      {| defaults := defaults cfg;
         sections := dict_set section [] (sections cfg) |}
    else
      {| defaults := defaults cfg;
         sections := sections cfg ++ [(section, [])] |} in
  set_items cleared section [] items.

(** *** Writing the file *)

(** [_write_section] *)
Definition write_item (kv : string * string) : string :=
  fst kv +:+ " = " +:+ Str.indent_newlines (snd kv) +:+ nl.

Definition write_section (name : string) (items : Options) : string :=
  "[" +:+ name +:+ "]" +:+ nl
  +:+ String.concat "" (map write_item items) +:+ nl.

(** [config.write(fp)] *)
Definition write (cfg : ConfigParser) : string :=
  (match defaults cfg with
   | [] => ""
   | d => write_section DEFAULT d
   end)
  +:+ String.concat ""
        (map (λ s, write_section (fst s) (snd s)) (sections cfg)).

(** *** Reading the file *)

(** While a file is read, an option set by that file holds the list of
    its lines; other options hold their string. *)
Inductive PVal :=
| VStr (s : string)
| VLines (l : list string).

Inductive Elem :=
| ESection (name : string)
| EOption (section opt : string).

Definition Elem_eqb (a b : Elem) : bool :=
  match a, b with
  | ESection x, ESection y => String.eqb x y
  | EOption s o, EOption s' o' => String.eqb s s' && String.eqb o o'
  | _, _ => false
  end.

(** Which dictionary [cursect] is. *)
Inductive Cursor :=
| NoSection
| InDefaults
| InSection (name : string).

Record ReadState := {
  st_defaults : list (string * PVal);
  st_sections : list (string * list (string * PVal));
  st_added : list Elem;
  st_cursect : Cursor;
  st_optname : option string;
  st_indent : nat;
  st_bad : list string
}.

Definition sectname (c : Cursor) : string :=
  match c with
  | InSection n => n
  | _ => DEFAULT
  end.

Definition cursect_get (st : ReadState) (k : string) : option PVal :=
  match st_cursect st with
  | NoSection => None
  | InDefaults => dict_get k (st_defaults st)
  | InSection n =>
      match dict_get n (st_sections st) with
      | Some d => dict_get k d
      | None => None
      end
  end.

Definition cursect_set (st : ReadState) (k : string) (v : PVal)
  : ReadState :=
  match st_cursect st with
  | NoSection => st
  | InDefaults =>
      {| st_defaults := dict_set k v (st_defaults st);
         st_sections := st_sections st; st_added := st_added st;
         st_cursect := st_cursect st; st_optname := st_optname st;
         st_indent := st_indent st; st_bad := st_bad st |}
  | InSection n =>
      match dict_get n (st_sections st) with
      | Some d =>
          {| st_defaults := st_defaults st;
             st_sections := dict_set n (dict_set k v d) (st_sections st);
             st_added := st_added st;
             st_cursect := st_cursect st; st_optname := st_optname st;
             st_indent := st_indent st; st_bad := st_bad st |}
      | None => st
      end
  end.

(** [cursect[optname].append(line)] when an option is being continued. *)
Definition append_line (st : ReadState) (line : string) : ReadState :=
  match st_optname st with
  | Some k =>
      if Str.truthy k then
        match cursect_get st k with
        | Some (VLines l) => cursect_set st k (VLines (l ++ [line]))
        | _ => st
        end
      else st
  | None => st
  end.

Definition continuing (st : ReadState) : bool :=
  match st_cursect st, st_optname st with
  | NoSection, _ => false
  | _, Some k => Str.truthy k
  | _, None => false
  end.

Definition is_comment (line : string) : bool :=
  let s := Str.strip line in
  Str.startswith "#" s || Str.startswith ";" s.

(** [s[:s.rfind(c)]], if [c] occurs. *)
Fixpoint upto_last (c : ascii) (s : string) : option string :=
  match s with
  | String d r =>
      match upto_last c r with
      | Some h => Some (String d h)
      | None => if Str.eqc c d then Some EmptyString else None
      end
  | EmptyString => None
  end.

(** [SECTCRE.match(value)]: the header between the bracket that opens
    the line and the last closing bracket. *)
Definition match_section (value : string) : option string :=
  match value with
  | String c r =>
      if Str.eqc c "[" then
        match upto_last "]" r with
        | Some h => if Str.truthy h then Some h else None
        | None => None
        end
      else None
  | EmptyString => None
  end.

(** The text before and after the first delimiter. *)
Fixpoint split_delim (s : string) : option (string * string) :=
  match s with
  | String c r =>
      if Str.eqc c "=" || Str.eqc c ":" then Some (EmptyString, r)
      else match split_delim r with
           | Some (a, b) => Some (String c a, b)
           | None => None
           end
  | EmptyString => None
  end.

(** [_optcre.match(value)], then the stripping [_read] does:
    the option name and the value. *)
Definition match_option (value : string) : option (string * string) :=
  match split_delim value with
  | Some (a, b) => Some (Str.rstrip a, Str.strip b)
  | None => None
  end.

Definition with_header (st : ReadState) (indent : nat) (c : Cursor)
    (secs : list (string * list (string * PVal))) (added : list Elem)
  : ReadState :=
  {| st_defaults := st_defaults st; st_sections := secs;
     st_added := added; st_cursect := c; st_optname := None;
     st_indent := indent; st_bad := st_bad st |}.

Definition with_bad (st : ReadState) (indent : nat) (line : string)
  : ReadState :=
  {| st_defaults := st_defaults st; st_sections := st_sections st;
     st_added := st_added st; st_cursect := st_cursect st;
     st_optname := st_optname st; st_indent := indent;
     st_bad := st_bad st ++ [line] |}.

Definition with_option (st : ReadState) (indent : nat) (k : string)
  : ReadState :=
  {| st_defaults := st_defaults st; st_sections := st_sections st;
     st_added := EOption (sectname (st_cursect st)) k :: st_added st;
     st_cursect := st_cursect st; st_optname := Some k;
     st_indent := indent; st_bad := st_bad st |}.

(** The body of the loop of [_read] for one line. *)
Definition read_line (st : ReadState) (line : string) : Res ReadState :=
  let value := if is_comment line then EmptyString else Str.strip line in
  if negb (Str.truthy value) then
    if is_comment line then Ok st else Ok (append_line st EmptyString)
  else
    let cur_indent_level := Str.first_nonspace line in
    if continuing st && (st_indent st <? cur_indent_level)%nat then
      Ok (append_line st value)
    else
      match match_section value with
      | Some name =>
          if dict_has name (st_sections st) then
            if existsb (Elem_eqb (ESection name)) (st_added st) then
              Raise (Exn ConfigParserError
                       ("section " +:+ name +:+ " already exists"))
            else
              Ok (with_header st cur_indent_level (InSection name)
                    (st_sections st) (ESection name :: st_added st))
          else if String.eqb name DEFAULT then
            Ok (with_header st cur_indent_level InDefaults
                  (st_sections st) (st_added st))
          else
            Ok (with_header st cur_indent_level (InSection name)
                  (st_sections st ++ [(name, [])])
                  (ESection name :: st_added st))
      | None =>
          match st_cursect st with
          | NoSection =>
              Raise (Exn ConfigParserError
                       ("File contains no section headers: " +:+ line))
          | _ =>
              match match_option value with
              | Some (optname, optval) =>
                  let st :=
                    if Str.truthy optname then st
                    else with_bad st (st_indent st) line in
                  let optname := Str.lower (Str.rstrip optname) in
                  if existsb
                       (Elem_eqb (EOption (sectname (st_cursect st)) optname))
                       (st_added st)
                  then
                    Raise (Exn ConfigParserError
                             ("option " +:+ optname +:+ " in section "
                              +:+ sectname (st_cursect st)
                              +:+ " already exists"))
                  else
                    Ok (cursect_set
                          (with_option st cur_indent_level optname)
                          optname (VLines [optval]))
              | None => Ok (with_bad st cur_indent_level line)
              end
          end
      end.

(** The loop of [_read]: the state reached, and the exception that
    stopped it. *)
Fixpoint read_lines (st : ReadState) (lines : list string)
  : ReadState * option exn :=
  match lines with
  | l :: ls =>
      match read_line st l with
      | Ok st' => read_lines st' ls
      | Raise e => (st, Some e)
      end
  | [] => (st, None)
  end.

(** [_join_multiline_values] *)
Definition join_value (v : PVal) : string :=
  match v with
  | VStr s => s
  | VLines l => Str.rstrip (Str.join nl l)
  end.

Definition join_options (d : list (string * PVal)) : Options :=
  map (λ kv, (fst kv, join_value (snd kv))) d.

Definition start_read (cfg : ConfigParser) : ReadState :=
  {| st_defaults := map (λ kv, (fst kv, VStr (snd kv))) (defaults cfg);
     st_sections :=
       map (λ s, (fst s, map (λ kv, (fst kv, VStr (snd kv))) (snd s)))
         (sections cfg);
     st_added := []; st_cursect := NoSection; st_optname := None;
     st_indent := O; st_bad := [] |}.

Definition finish_read (st : ReadState) : ConfigParser :=
  {| defaults := join_options (st_defaults st);
     sections := map (λ s, (fst s, join_options (snd s))) (st_sections st) |}.

(** [_read] on the text of a file: the configuration afterwards, and the
    exception raised, if any.  A section whose reading an exception
    interrupted is shown with its values joined. *)
Definition read_text (cfg : ConfigParser) (text : string)
  : ConfigParser * option exn :=
  let '(st, e) :=
    read_lines (start_read cfg)
      (Str.split_lines (Str.universal_newlines text)) in
  (finish_read st,
   match e, st_bad st with
   | Some e, _ => Some e
   | None, [] => None
   | None, bad :: _ =>
       Some (Exn ConfigParserError ("Source contains parsing errors: " +:+ bad))
   end).

End Cfg.

(** ** Pillow images

    An image is its mode, its size and the data of its bands, in the order
    of [getbands()].  The codecs are outside the plugin: a file that decodes
    as an image is that image, and saving an image makes such a file. *)

Module PIL.

Inductive Mode :=
| M1 | L | P | RGB | RGBA | CMYK | YCbCr | LAB | HSV | I | I16
| LA | PA | RGBX | RGBa | La.

Definition Mode_eqb (a b : Mode) : bool :=
  match a, b with
  | M1, M1 | L, L | P, P | RGB, RGB | RGBA, RGBA | CMYK, CMYK
  | YCbCr, YCbCr | LAB, LAB | HSV, HSV | I, I | I16, I16 | LA, LA
  | PA, PA | RGBX, RGBX | RGBa, RGBa | La, La => true
  | _, _ => false
  end.

(** [ImageMode.getmode(mode).bands] *)
Definition mode_bands (m : Mode) : list string :=
  match m with
  | M1 => ["1"]
  | L => ["L"]
  | P => ["P"]
  | RGB => ["R"; "G"; "B"]
  | RGBA => ["R"; "G"; "B"; "A"]
  | CMYK => ["C"; "M"; "Y"; "K"]
  | YCbCr => ["Y"; "Cb"; "Cr"]
  | LAB => ["L"; "A"; "B"]
  | HSV => ["H"; "S"; "V"]
  | I => ["I"]
  | I16 => ["I"]
  | LA => ["L"; "A"]
  | PA => ["P"; "A"]
  | RGBX => ["R"; "G"; "B"; "X"]
  | RGBa => ["R"; "G"; "B"; "a"]
  | La => ["L"; "a"]
  end.

Record Image := {
  mode : Mode;
  size : nat * nat;
  bands : list (list Z)
}.

Definition getbands (img : Image) : list string := mode_bands (mode img).

(** [tuple.index] *)
Fixpoint index_of (x : string) (l : list string) : option nat :=
  match l with
  | y :: r => if String.eqb x y then Some O else S <$> index_of x r
  | [] => None
  end.

Definition has_band (x : string) (img : Image) : bool :=
  match index_of x (getbands img) with Some _ => true | None => false end.

(** [img.getchannel(channel)]: an [L] image holding that band. *)
Definition getchannel (img : Image) (channel : string) : Res Image :=
  match index_of channel (getbands img) with
  | Some i =>
      Ok {| mode := L; size := size img;
            bands := [nth i (bands img) []] |}
  | None =>
      Raise (Exn ValueError
               ("The image has no channel " +:+ channel))
  end.

(** [img.convert("RGB")] on an [RGBA] image: the alpha band is dropped. *)
Definition convert_RGB (img : Image) : Image :=
  {| mode := RGB; size := size img; bands := take 3 (bands img) |}.

End PIL.

(** ** The world the plugin runs in *)

Inductive Node :=
| FileImage (img : PIL.Image)
| FileText (content : string)
| Directory.

(** What a user, the host or the operating system can observe, in order. *)
Inductive Event :=
| EvLogWindow (message : string)
| EvPrint (message : string)
| EvMessageBox (title text : string)
| EvSubprocess (cmd : list string)
| EvImportResource (file_path name : string)
| EvTraceback (e : exn).

Record World := {
  fs : gmap string Node;
  config : Cfg.ConfigParser;
  trace : list Event
}.

Record CompletedProcess := {
  returncode : Z;
  stdout : string;
  stderr : string
}.

(** The collaborators the plugin calls but does not implement. *)
Class Host := {
  (** [os.path.join(os.path.dirname(__file__), "DDS-Importer.ini")] *)
  CONFIG_FILE : string;
  (** Opening a path for writing: [str(e)] of the [OSError], if it fails. *)
  write_error : gmap string Node → string → option string;
  (** [subprocess.run(cmd, capture_output=True, text=True)]: the exception
      raised when the process cannot be run, or the completed process and
      the files it leaves. *)
  subprocess_run : World → list string → exn + (CompletedProcess * gmap string Node);
  (** [sp.resource.import_session_resource]: the exception raised, if any. *)
  import_session_resource : World → string → string → option exn
}.

(** ** The monad of plugin code: state and exceptions *)

Definition M (A : Type) : Type := World → Res A * World.

Definition ret {A} (a : A) : M A := λ w, (Ok a, w).

Definition bind {A B} (m : M A) (k : A → M B) : M B :=
  λ w, match m w with
       | (Ok a, w') => k a w'
       | (Raise e, w') => (Raise e, w')
       end.

Definition raise {A} (e : exn) : M A := λ w, (Raise e, w).

(** [try: body  except cls as e: handler e] *)
Definition try_except {A} (body : M A) (cls : exn → bool) (handler : exn → M A)
  : M A :=
  λ w, match body w with
       | (Ok a, w') => (Ok a, w')
       | (Raise e, w') => if cls e then handler e w' else (Raise e, w')
       end.

(** [except Exception]: every exception of the model. *)
Definition any_exception (e : exn) : bool := true.

Definition lift {A} (r : Res A) : M A :=
  match r with Ok a => ret a | Raise e => raise e end.

Notation "'let*' x := m 'in' k" := (bind m (λ x, k))
  (at level 10, x name, m at level 100, k at level 200).
Notation "m >>> k" := (bind m (λ _, k))
  (at level 100, k at level 200, right associativity).

(** [for x in xs: body x] *)
Fixpoint for_each {A} (xs : list A) (body : A → M unit) : M unit :=
  match xs with
  | x :: r => body x >>> for_each r body
  | [] => ret tt
  end.

Definition emit (ev : Event) : M unit :=
  λ w, (Ok tt, {| fs := fs w; config := config w; trace := trace w ++ [ev] |}).

Definition get_world : M World := λ w, (Ok w, w).

Definition set_config (c : Cfg.ConfigParser) : M unit :=
  λ w, (Ok tt, {| fs := fs w; config := c; trace := trace w |}).

(** [os.path.exists] and [os.path.isfile] *)
Definition path_exists (w : World) (p : string) : bool :=
  match fs w !! p with Some _ => true | None => false end.

Definition path_isfile (w : World) (p : string) : bool :=
  match fs w !! p with
  | Some Directory => false
  | Some _ => true
  | None => false
  end.

(** The lines of the log window. *)
Definition log_lines (t : list Event) : list string :=
  omap (λ ev, match ev with EvLogWindow m => Some m | _ => None end) t.

(** The commands handed to [subprocess.run]. *)
Definition subprocess_calls (t : list Event) : list (list string) :=
  omap (λ ev, match ev with EvSubprocess c => Some c | _ => None end) t.

(** The files handed to the host import. *)
Definition imported_paths (t : list Event) : list string :=
  omap (λ ev, match ev with EvImportResource p _ => Some p | _ => None end) t.

(** ** The plugin *)

Section Plugin.
Context `{Host}.

(** *** Primitives of the runtime *)

(** [subprocess.run(cmd, capture_output=True, text=True)] *)
Definition run_subprocess (cmd : list string) : M CompletedProcess :=
  λ w,
    let t := trace w ++ [EvSubprocess cmd] in
    match subprocess_run w cmd with
    | inl e => (Raise e, {| fs := fs w; config := config w; trace := t |})
    | inr (result, files) =>
        (Ok result, {| fs := files; config := config w; trace := t |})
    end.

(** Creating or replacing the file at [path]: [open(path, 'w')] followed
    by the writes, and [Image.save(path)]. *)
Definition write_file (path : string) (n : Node) : M unit :=
  λ w,
    match fs w !! path, write_error (fs w) path with
    | Some Directory, _ =>
        (Raise (Exn OSError ("[Errno 21] Is a directory: '" +:+ path +:+ "'")), w)
    | _, Some msg => (Raise (Exn OSError msg), w)
    | _, None =>
        (Ok tt, {| fs := <[path := n]> (fs w); config := config w;
                   trace := trace w |})
    end.

(** [Image.open(path)] *)
Definition Image_open (path : string) : M PIL.Image :=
  λ w,
    match fs w !! path with
    | Some (FileImage img) => (Ok img, w)
    | Some (FileText _) =>
        (Raise (Exn UnidentifiedImageError
                  ("cannot identify image file '" +:+ path +:+ "'")), w)
    | Some Directory =>
        (Raise (Exn PermissionError
                  ("[Errno 13] Permission denied: '" +:+ path +:+ "'")), w)
    | None =>
        (Raise (Exn FileNotFoundError
                  ("[Errno 2] No such file or directory: '" +:+ path +:+ "'")), w)
    end.

Definition Image_save (img : PIL.Image) (path : string) : M unit :=
  write_file path (FileImage img).

(** [sp.resource.import_session_resource(file_path, Usage.TEXTURE, name)] *)
Definition import_resource (file_path name : string) : M unit :=
  λ w,
    let w' := {| fs := fs w; config := config w;
                 trace := trace w ++ [EvImportResource file_path name] |} in
    match import_session_resource w file_path name with
    | Some e => (Raise e, w')
    | None => (Ok tt, w')
    end.

(** *** Utility functions *)

Definition show_message_box (title text : string) : M unit :=
  emit (EvMessageBox title text).

Definition log_to_painter_console (message : string) : M unit :=
  emit (EvPrint message).

Definition run_bcdecode (bcdecode_exe input_dds output_dds : string)
  : M unit :=
  let cmd := [bcdecode_exe; input_dds; output_dds; "0"; "2"] in
  let* result := run_subprocess cmd in
  if negb (returncode result =? 0) then
    raise (Exn RuntimeError
             ("bcdecode failed with code " +:+ Str.of_Z (returncode result)
              +:+ nl +:+ stderr result))
  else ret tt.

Definition convert_dds_to_png (texconv_exe dds_file output_png : string)
  : M unit :=
  try_except
    (let command :=
       [texconv_exe; "-ft"; "png"; "-o"; OsPath.dirname output_png; "-y";
        dds_file] in
     emit (EvPrint ("Running texconv command: " +:+ Str.join " " command)) >>>
     let* result := run_subprocess command in
     if negb (returncode result =? 0) then
       raise (Exn RuntimeError
                ("texconv failed with code " +:+ Str.of_Z (returncode result)
                 +:+ ":" +:+ nl +:+ Str.strip (stderr result)
                 +:+ nl +:+ Str.strip (stdout result)))
     else ret tt)
    any_exception
    (λ e, raise (Exn RuntimeError
                   ("Failed to convert " +:+ dds_file +:+ " to PNG: "
                    +:+ exn_str e))).

Definition extract_alpha_channel (input_png output_alpha_png : string)
  : M bool :=
  try_except
    (let* img := Image_open input_png in
     if PIL.Mode_eqb (PIL.mode img) PIL.RGBA
        || PIL.Mode_eqb (PIL.mode img) PIL.LA
        || PIL.has_band "A" img
     then
       let* alpha := lift (PIL.getchannel img "A") in
       Image_save alpha output_alpha_png >>>
       ret true
     else ret false)
    (λ e, isinstance e UnidentifiedImageError)
    (λ e, raise (Exn RuntimeError
                   ("Failed to extract alpha channel from " +:+ input_png
                    +:+ ": " +:+ exn_str e))).

Definition remove_alpha_channel (input_png : string) : M unit :=
  try_except
    (let* img := Image_open input_png in
     if PIL.Mode_eqb (PIL.mode img) PIL.RGBA then
       let rgb_image := PIL.convert_RGB img in
       Image_save rgb_image input_png
     else ret tt)
    (λ e, isinstance e UnidentifiedImageError)
    (λ e, raise (Exn RuntimeError
                   ("Failed to remove alpha channel from " +:+ input_png
                    +:+ ": " +:+ exn_str e))).

(** *** [DDSImporterPlugin]

    The widgets and their layout are not modelled; a handler takes what
    its file dialogs returned as arguments ([""] and [[]] when the user
    cancels). *)

Definition log (message : string) : M unit :=
  emit (EvLogWindow message) >>>
  log_to_painter_console message.

(** [self.config["Paths"].get(opt, fallback)] *)
Definition config_paths_get (opt : string) : M (option string) :=
  let* w := get_world in
  lift (Cfg.getitem (config w) "Paths") >>>
  lift (Cfg.proxy_get (config w) "Paths" opt).

(** [self.config["Paths"][opt] = value] *)
Definition config_paths_set (opt value : string) : M unit :=
  let* w := get_world in
  let* c := lift (Cfg.proxy_setitem (config w) "Paths" opt value) in
  set_config c.

(** [not x] for the result of [get] with fallback [None]. *)
Definition falsy (x : option string) : bool :=
  match x with
  | Some s => negb (Str.truthy s)
  | None => true
  end.

Definition save_config : M unit :=
  try_except
    (let* w := get_world in
     write_file CONFIG_FILE (FileText (Cfg.write (config w))))
    (λ e, isinstance e OSError)
    (λ e, log ("Failed to save configuration: " +:+ exn_str e)).

Definition default_paths : list (string * string) :=
  [("texconv", "C:\\DirectXTex\\Texconv\\texconv.exe");
   ("bcdecode", "C:\\fo76utils\\bcdecode.exe")].

Definition create_default_config : M unit :=
  (λ w,
     let '(c, e) := Cfg.setitem (config w) "Paths" default_paths in
     (match e with Some e => Raise e | None => Ok tt end,
      {| fs := fs w; config := c; trace := trace w |})) >>>
  save_config.

(** [self.config.read(path)]: a file that cannot be opened is skipped. *)
Definition config_read (path : string) : M unit :=
  λ w,
    match fs w !! path with
    | Some (FileText text) =>
        let '(c, e) := Cfg.read_text (config w) text in
        (match e with Some e => Raise e | None => Ok tt end,
         {| fs := fs w; config := c; trace := trace w |})
    | Some (FileImage _) =>
        (Raise (Exn OtherException "the settings file is not text"), w)
    | Some Directory => (Ok tt, w)
    | None => (Ok tt, w)
    end.

Definition load_config : M unit :=
  let* w := get_world in
  (if negb (path_exists w CONFIG_FILE) then create_default_config
   else ret tt) >>>
  config_read CONFIG_FILE.

Definition display_initial_info : M unit :=
  let* texconv_path := config_paths_get "texconv" in
  let* bcdecode_path := config_paths_get "bcdecode" in
  log ("texconv location: " +:+ default "Not set" texconv_path) >>>
  log ("bcdecode location: " +:+ default "Not set" bcdecode_path).

(** [import PIL] succeeds: the module has imported from it when it was
    loaded. *)
Definition check_pillow_installation : M unit :=
  log "Pillow installed: Yes".

(** [__init__], from the configuration on. *)
Definition init : M unit :=
  set_config Cfg.empty >>>
  load_config >>>
  display_initial_info >>>
  check_pillow_installation.

Definition set_texconv_location (texconv_path : string) : M unit :=
  if Str.truthy texconv_path then
    config_paths_set "texconv" texconv_path >>>
    save_config >>>
    log ("texconv location set to: " +:+ texconv_path)
  else
    log "Texconv executable not set. Get the latest version here: https://github.com/microsoft/DirectXTex".

Definition set_bcdecode_location (bcdecode_path : string) : M unit :=
  if Str.truthy bcdecode_path then
    config_paths_set "bcdecode" bcdecode_path >>>
    save_config >>>
    log ("bcdecode location set to: " +:+ bcdecode_path)
  else
    log "bcdecode executable not set. Please ensure bcdecode is installed.".

Definition import_to_shelf (resource_path : string) : M unit :=
  try_except
    (import_resource resource_path (OsPath.basename resource_path) >>>
     log ("Imported to shelf: " +:+ resource_path))
    any_exception
    (λ e, log ("Failed to import " +:+ resource_path +:+ " to shelf: "
               +:+ exn_str e)).

(** The statements of the [try] block of [on_import_dds]. *)
Definition dds_pipeline (texconv_exe dds_file : string) : M unit :=
  let output_png := fst (OsPath.splitext dds_file) +:+ ".png" in
  let output_alpha_png := fst (OsPath.splitext dds_file) +:+ "_alpha.png" in
  log ("Converting " +:+ dds_file +:+ " to PNG directly using texconv...") >>>
  convert_dds_to_png texconv_exe dds_file output_png >>>
  let* extracted := extract_alpha_channel output_png output_alpha_png in
  (if extracted then
     remove_alpha_channel output_png >>>
     log ("Alpha channel extracted to: " +:+ output_alpha_png)
   else
     log ("No alpha channel found in: " +:+ dds_file)) >>>
  log ("Converted to: " +:+ output_png) >>>
  import_to_shelf output_png >>>
  let* w := get_world in
  if path_exists w output_alpha_png then import_to_shelf output_alpha_png
  else ret tt.

(** The body of the loop of [on_import_dds]. *)
Definition import_one_dds (texconv_exe dds_file : string) : M unit :=
  try_except
    (dds_pipeline texconv_exe dds_file)
    any_exception
    (λ e, log ("Failed to process " +:+ dds_file +:+ ": " +:+ exn_str e) >>>
          emit (EvTraceback e)).

Definition on_import_dds (dds_files : list string) : M unit :=
  match dds_files with
  | [] => log "No DDS files selected for import."
  | _ =>
      let* texconv_exe := config_paths_get "texconv" in
      let* w := get_world in
      if falsy texconv_exe || negb (path_isfile w (default "" texconv_exe))
      then
        log "Invalid or missing texconv executable. Please set it using the 'Set texconv Location' button."
      else
        for_each dds_files (import_one_dds (default "" texconv_exe))
  end.

Definition on_import_bc5 (bc5_input out_dds : string) : M unit :=
  if negb (Str.truthy bc5_input) then
    show_message_box "Cancelled" "No BC5_SNORM input file selected."
  else if negb (Str.truthy out_dds) then
    show_message_box "Cancelled" "No output DDS file selected."
  else
    let* bcdecode_exe := config_paths_get "bcdecode" in
    let* w := get_world in
    if falsy bcdecode_exe || negb (path_isfile w (default "" bcdecode_exe))
    then
      log "Invalid or missing bcdecode executable. Please set it using the 'Set bcdecode Location' button."
    else
      try_except
        (log ("Running bcdecode on " +:+ bc5_input +:+ "...") >>>
         run_bcdecode (default "" bcdecode_exe) bc5_input out_dds >>>
         log ("bcdecode successful:" +:+ nl +:+ OsPath.basename bc5_input
              +:+ " -> " +:+ out_dds) >>>
         show_message_box "Import Successful"
           ("bcdecode => " +:+ OsPath.basename bc5_input +:+ nl
            +:+ "-> " +:+ out_dds) >>>
         import_to_shelf out_dds)
        any_exception
        (λ e,
           emit (EvTraceback e) >>>
           log ("Error importing BC5_SNORM DDS: " +:+ exn_str e) >>>
           show_message_box "Error Importing BC5_SNORM DDS" (exn_str e)).

End Plugin.

(** ** Vocabulary of the statements *)

Section Vocabulary.
Context `{Host}.

(** The paths [on_import_dds] derives from a selected file. *)
Definition output_png (dds_file : string) : string :=
  fst (OsPath.splitext dds_file) +:+ ".png".

Definition output_alpha_png (dds_file : string) : string :=
  fst (OsPath.splitext dds_file) +:+ "_alpha.png".

(** The command line of the conversion of one file. *)
Definition texconv_command (texconv_exe dds_file : string) : list string :=
  [texconv_exe; "-ft"; "png"; "-o"; OsPath.dirname (output_png dds_file);
   "-y"; dds_file].

(** The command line of the decoder. *)
Definition bcdecode_command (bcdecode_exe input_dds output_dds : string)
  : list string :=
  [bcdecode_exe; input_dds; output_dds; "0"; "2"].

(** The lines [on_import_dds] logs when the pass for a file fails. *)
Definition is_failure_line (line : string) : bool :=
  Str.startswith "Failed to process " line.

Definition failure_lines (t : list Event) : list string :=
  List.filter is_failure_line (log_lines t).


(** The path can be created or replaced. *)
Definition writable (w : World) (path : string) : bool :=
  match fs w !! path, write_error (fs w) path with
  | Some Directory, _ => false
  | _, Some _ => false
  | _, None => true
  end.

Definition with_file (w : World) (path : string) (n : Node) : World :=
  {| fs := <[path := n]> (fs w); config := config w; trace := trace w |}.

Definition with_events (w : World) (evs : list Event) : World :=
  {| fs := fs w; config := config w; trace := trace w ++ evs |}.

(** The two events of [self.log(message)]. *)
Definition logged (message : string) : list Event :=
  [EvLogWindow message; EvPrint message].

(** A new session: the plugin object is built on the files as they
    are. *)
Definition fresh_load : M unit :=
  set_config Cfg.empty >>> load_config.

(** The line [import_to_shelf] logs for a path. *)
Definition import_line (w : World) (resource_path : string) : string :=
  match import_session_resource w resource_path
          (OsPath.basename resource_path) with
  | None => "Imported to shelf: " +:+ resource_path
  | Some e =>
      "Failed to import " +:+ resource_path +:+ " to shelf: " +:+ exn_str e
  end.


(** [needle in hay] *)
Definition occurs_in (needle hay : string) : Prop :=
  ∃ a b, hay = a +:+ needle +:+ b.

End Vocabulary.

(** Steps that relate the world before to the world after by a preorder
    keep doing so when composed. *)
Definition preserves (R : relation World) {A} (m : M A) : Prop :=
  ∀ w r w', m w = (r, w') → R w w'.

(** The trace only grows, by events that satisfy [φ]. *)
Definition grows_by (φ : Event → Prop) : relation World :=
  λ w w', ∃ added, trace w' = trace w ++ added ∧ Forall φ added.

Definition not_subprocess (ev : Event) : Prop :=
  match ev with EvSubprocess _ => False | _ => True end.

Definition not_failure_line (ev : Event) : Prop :=
  match ev with
  | EvLogWindow m => Str.startswith "Failed to process " m = false
  | _ => True
  end.

Definition not_import (ev : Event) : Prop :=
  match ev with EvImportResource _ _ => False | _ => True end.

(** ** Configurations that survive being written and read

    No entry in the [DEFAULT] section, names without line breaks, keys
    as [optionxform] leaves them and that an option line shows unchanged,
    single-line values without outer white space. *)

Module Clean.

Fixpoint no_linebreak (s : string) : bool :=
  match s with
  | String c r =>
      negb (Str.eqc c "010") && negb (Str.eqc c "013") && no_linebreak r
  | EmptyString => true
  end.

Fixpoint all_chars (f : ascii → bool) (s : string) : bool :=
  match s with
  | String c r => f c && all_chars f r
  | EmptyString => true
  end.

(** No white space at either end. *)
Definition trimmed (s : string) : bool :=
  String.eqb (Str.strip s) s.

Definition value (v : string) : bool :=
  no_linebreak v && trimmed v.

Definition key_char (c : ascii) : bool :=
  negb (Str.eqc c "=") && negb (Str.eqc c ":")
  && negb (Str.eqc c "010") && negb (Str.eqc c "013")
  && Str.eqc (Str.lower_char c) c.

Definition key_start (c : ascii) : bool :=
  negb (Str.eqc "#" c) && negb (Str.eqc ";" c) && negb (Str.eqc c "[").

Definition key (k : string) : bool :=
  match k with
  | String c _ => key_start c && all_chars key_char k && trimmed k
  | EmptyString => false
  end.

Definition section_name (n : string) : bool :=
  Str.truthy n && no_linebreak n && negb (String.eqb n Cfg.DEFAULT).

Fixpoint distinct (l : list string) : bool :=
  match l with
  | x :: r => negb (existsb (String.eqb x) r) && distinct r
  | [] => true
  end.

Definition options (d : Cfg.Options) : bool :=
  forallb (λ kv, key (fst kv) && value (snd kv)) d
  && distinct (map fst d).

Definition config (c : Cfg.ConfigParser) : bool :=
  match Cfg.defaults c with [] => true | _ => false end
  && forallb (λ s, section_name (fst s) && options (snd s)) (Cfg.sections c)
  && distinct (map fst (Cfg.sections c)).

(** A path that the settings file gives back as it is. *)
Definition path (p : string) : bool :=
  Str.truthy p && value p && negb (Str.contains "%" p).

End Clean.

(** ** The lines of a written configuration, and the states of reading them *)

(** [k not in d] *)
Definition absent {V : Type} (k : string) (d : list (string * V)) : bool :=
  negb (existsb (String.eqb k) (map fst d)).

(** The lines [write] makes for an option and for a section. *)
Definition item_line (kv : string * string) : string :=
  fst kv +:+ " = " +:+ snd kv.

Definition section_lines (s : string * Cfg.Options) : list string :=
  ("[" +:+ fst s +:+ "]") :: map item_line (snd s) ++ [""].

Fixpoint unlines (ls : list string) : string :=
  match ls with
  | l :: r => l +:+ nl +:+ unlines r
  | [] => ""
  end.

(** A state of [_read] with no default, no bad line and indentation 0. *)
Definition reading (S : list (string * list (string * Cfg.PVal)))
    (A : list Cfg.Elem) (cur : Cfg.Cursor) (o : option string)
  : Cfg.ReadState :=
  {| Cfg.st_defaults := []; Cfg.st_sections := S; Cfg.st_added := A;
     Cfg.st_cursect := cur; Cfg.st_optname := o; Cfg.st_indent := O;
     Cfg.st_bad := [] |}.

Definition seen (A : list Cfg.Elem) (s k : string) : bool :=
  existsb (Cfg.Elem_eqb (Cfg.EOption s k)) A.

Definition pend1 (kv : string * string) : string * Cfg.PVal :=
  (fst kv, Cfg.VLines [snd kv]).

Definition opt_after (o : option string) (items : Cfg.Options)
  : option string :=
  fold_left (λ _ kv, Some (fst kv)) items o.

Definition added_after (name : string) (items : Cfg.Options)
    (A : list Cfg.Elem) : list Cfg.Elem :=
  fold_left (λ A kv, Cfg.EOption name (fst kv) :: A) items A.

(** The options of a section once its closing empty line was read: the
    line was appended to the value of the last option. *)
Fixpoint closed (items : Cfg.Options) : list (string * Cfg.PVal) :=
  match items with
  | (k, v) :: r =>
      match r with
      | [] => [(k, Cfg.VLines [v; ""])]
      | _ => (k, Cfg.VLines [v]) :: closed r
      end
  | [] => []
  end.

Definition clean_section (s : string * Cfg.Options) : bool :=
  Clean.section_name (fst s) && Clean.options (snd s).

Definition closed_section (s : string * Cfg.Options)
  : string * list (string * Cfg.PVal) :=
  (fst s, closed (snd s)).

(** ** A concrete installation, for the examples *)

Module Demo.

Definition leaf_rgba : PIL.Image :=
  {| PIL.mode := PIL.RGBA; PIL.size := (2%nat, 1%nat);
     PIL.bands := [[10; 20]; [30; 40]; [50; 60]; [255; 0]] |}.

Definition wall_rgb : PIL.Image :=
  {| PIL.mode := PIL.RGB; PIL.size := (2%nat, 1%nat);
     PIL.bands := [[1; 2]; [3; 4]; [5; 6]] |}.

Definition old_mask : PIL.Image :=
  {| PIL.mode := PIL.L; PIL.size := (1%nat, 1%nat); PIL.bands := [[7]] |}.

(** texconv writes the PNG next to the DDS file: an RGBA image for
    [leaf.dds], nothing for [broken.dds] (exit code 1), an RGB image for
    any other file.  bcdecode writes its output.  The host refuses
    resources named [normal.dds]. *)
Definition run (w : World) (cmd : list string)
  : exn + (CompletedProcess * gmap string Node) :=
  match cmd with
  | [exe; _; _; _; _; _; dds] =>
      if String.eqb (OsPath.basename dds) "broken.dds" then
        inr ({| returncode := 1; stdout := "reading broken.dds FAILED (80070026)" +:+ nl;
                stderr := "" |}, fs w)
      else if String.eqb (OsPath.basename dds) "leaf.dds" then
        inr ({| returncode := 0; stdout := "writing leaf.png"; stderr := "" |},
             <[fst (OsPath.splitext dds) +:+ ".png" := FileImage leaf_rgba]> (fs w))
      else
        inr ({| returncode := 0; stdout := ""; stderr := "" |},
             <[fst (OsPath.splitext dds) +:+ ".png" := FileImage wall_rgb]> (fs w))
  | [exe; input; output; _; _] =>
      inr ({| returncode := 0; stdout := ""; stderr := "" |},
           <[output := FileText "DDS uncompressed"]> (fs w))
  | _ => inl (Exn FileNotFoundError "[WinError 2] The system cannot find the file specified")
  end.

Definition refuse_locked (files : gmap string Node) (p : string)
  : option string :=
  if String.prefix "C:/locked/" p
  then Some "[Errno 13] Permission denied"
  else None.

Definition host_import (w : World) (file_path name : string) : option exn :=
  if String.eqb name "normal.dds"
  then Some (Exn ValueError "unsupported resource")
  else None.

Definition host : Host :=
  {| CONFIG_FILE := "C:/plugins/DDS-Importer.ini";
     write_error := refuse_locked;
     subprocess_run := run;
     import_session_resource := host_import |}.

(** The same installation in a folder the plugin cannot write to. *)
Definition locked_host : Host :=
  {| CONFIG_FILE := "C:/locked/DDS-Importer.ini";
     write_error := refuse_locked;
     subprocess_run := run;
     import_session_resource := host_import |}.

Definition tools : Cfg.ConfigParser :=
  {| Cfg.defaults := [];
     Cfg.sections :=
       [("Paths", [("texconv", "C:/tools/texconv.exe");
                   ("bcdecode", "C:/tools/bcdecode.exe")])] |}.

Definition files : gmap string Node :=
  list_to_map
    [("C:/tools/texconv.exe", FileText "MZ");
     ("C:/tools/bcdecode.exe", FileText "MZ");
     ("C:/tex/leaf.dds", FileText "DDS");
     ("C:/tex/wall.dds", FileText "DDS");
     ("C:/tex/broken.dds", FileText "DDS");
     ("C:/tex/wall_alpha.png", FileImage old_mask)].

(** A running session with both tools installed. *)
Definition world : World :=
  {| fs := files; config := tools; trace := [] |}.



End Demo.

(** ** Names of files *)

(** The string holds a character other than a dot. *)
Fixpoint has_nondot (s : string) : bool :=
  match s with
  | String c r => negb (Str.eqc c ".") || has_nondot r
  | EmptyString => false
  end.

(** A folder prefix: empty, or ending with the separator. *)
Definition folder_prefix (h : string) : Prop :=
  h = "" ∨ ∃ a, h = a +:+ "/".

(** ** What the handlers show *)


(** The message boxes shown: title and text. *)
Definition message_boxes (t : list Event) : list (string * string) :=
  omap (λ ev, match ev with EvMessageBox a b => Some (a, b) | _ => None end) t.

(** What the BC5 workflow shows when the decoding raised [e]. *)
Definition bc5_failure_report (e : exn) : list Event :=
  EvTraceback e
  :: logged ("Error importing BC5_SNORM DDS: " +:+ exn_str e)
  ++ [EvMessageBox "Error Importing BC5_SNORM DDS" (exn_str e)].

(** ** An installation whose decoder fails *)

Module Faulty.

(** bcdecode exits with code 1 on every file; texconv is the one of
    [Demo]. *)
Definition run (w : World) (cmd : list string)
  : exn + (CompletedProcess * gmap string Node) :=
  match cmd with
  | [exe; input; output; _; _] =>
      inr ({| returncode := 1; stdout := ""; stderr := "not a BC5 file" |},
           fs w)
  | _ => Demo.run w cmd
  end.

Definition host : Host :=
  {| CONFIG_FILE := "C:/plugins/DDS-Importer.ini";
     write_error := Demo.refuse_locked;
     subprocess_run := run;
     import_session_resource := Demo.host_import |}.

End Faulty.

(** ** The settings in memory and on disk *)

(** The value stored for a tool, before interpolation:
    [config["Paths"].get(opt, raw=True)]. *)
Definition stored (opt : string) (w : World) : option string :=
  match Cfg.dict_get "Paths" (Cfg.sections (config w)) with
  | Some sect => Cfg.dict_get opt sect
  | None => None
  end.

(** Events of the log window and of the console only. *)
Definition only_log (ev : Event) : Prop :=
  match ev with
  | EvLogWindow _ | EvPrint _ => True
  | _ => False
  end.

(** The world with another configuration in memory. *)
Definition with_settings (w : World) (c : Cfg.ConfigParser) : World :=
  {| fs := fs w; config := c; trace := trace w |}.

(** The configuration after [config["Paths"][opt] = value] on a section
    that exists. *)
Definition paths_updated (c : Cfg.ConfigParser) (opt value : string)
  : Cfg.ConfigParser :=
  match Cfg.dict_get "Paths" (Cfg.sections c) with
  | Some sect =>
      {| Cfg.defaults := Cfg.defaults c;
         Cfg.sections :=
           Cfg.dict_set "Paths" (Cfg.dict_set opt value sect)
             (Cfg.sections c) |}
  | None => c
  end.

(** ** Lines of a settings file *)

(** A line [_read] passes over: a comment, or nothing but white space. *)
Definition skipped (l : string) : bool :=
  Cfg.is_comment l || negb (Str.truthy (Str.strip l)).

(** A line that is neither passed over nor a section header. *)
Definition orphan (l : string) : bool :=
  negb (skipped l)
  && match Cfg.match_section (Str.strip l) with
     | None => true
     | Some _ => false
     end.

(** What [display_initial_info] and [check_pillow_installation] log. *)
Definition startup_report (texconv_path bcdecode_path : string)
  : list Event :=
  logged ("texconv location: " +:+ texconv_path)
  ++ logged ("bcdecode location: " +:+ bcdecode_path)
  ++ logged "Pillow installed: Yes".


(** ** Sessions that start on a settings file *)

Module Saved.

(** The disk of [Demo] with a settings file in the plugin folder. *)
Definition start (text : string) : World :=
  {| fs := <["C:/plugins/DDS-Importer.ini" := FileText text]> Demo.files;
     config := Cfg.empty; trace := [] |}.

(** A settings file whose section is spelled in lower case. *)
Definition misspelled : string :=
  unlines ["[paths]"; "texconv = C:/tools/texconv.exe"].

End Saved.

(** ** The steps of the conversion of one file *)

Section Steps.
Context `{Host}.

(** The world in which texconv is started for [f]. *)
Definition at_conversion (exe f : string) (w : World) : World :=
  with_events
    (with_events w
       (logged ("Converting " +:+ f +:+ " to PNG directly using texconv...")))
    [EvPrint ("Running texconv command: "
              +:+ Str.join " " (texconv_command exe f))].

(** The world texconv leaves when it has run and [files] are on the
    disk. *)
Definition converted (exe f : string) (w : World) (files : gmap string Node)
  : World :=
  {| fs := files; config := config w;
     trace := trace (at_conversion exe f w)
              ++ [EvSubprocess (texconv_command exe f)] |}.

End Steps.

(** The image [getchannel("A")] makes of an image whose alpha band is the
    [i]-th. *)
Definition alpha_of (i : nat) (img : PIL.Image) : PIL.Image :=
  {| PIL.mode := PIL.L; PIL.size := PIL.size img;
     PIL.bands := [nth i (PIL.bands img) []] |}.

(** What the import of the files [files] may show: no message box, the
    conversion of a selected file, the import of a PNG derived from a
    selected file under its base name. *)
Definition batch_event (files : list string) (ev : Event) : Prop :=
  match ev with
  | EvMessageBox _ _ => False
  | EvSubprocess cmd => ∃ exe f, In f files ∧ cmd = texconv_command exe f
  | EvImportResource p n =>
      n = OsPath.basename p
      ∧ ∃ f, In f files ∧ (p = output_png f ∨ p = output_alpha_png f)
  | _ => True
  end.

(** The configuration in memory stays as it is. *)
Definition keeps_config : relation World :=
  λ w w', config w' = config w.

(** The line [import_to_shelf] logs for [p]: the import succeeded, or
    failed with the host's message. *)
Definition shelf_line (p line : string) : Prop :=
  line = "Imported to shelf: " +:+ p
  ∨ ∃ e, line = "Failed to import " +:+ p +:+ " to shelf: " +:+ exn_str e.

(** * Properties *)

(** ** Strings *)

Lemma append_cons (c : ascii) (a b : string) :
  String c a +:+ b = String c (a +:+ b).
Proof. reflexivity. Qed.

Lemma append_nil_l (a : string) : "" +:+ a = a.
Proof. reflexivity. Qed.

Lemma append_nil_r (a : string) : a +:+ "" = a.
Proof. induction a as [|c a IH]; [done | by rewrite append_cons, IH]. Qed.

Lemma append_assoc (a b c : string) : (a +:+ b) +:+ c = a +:+ b +:+ c.
Proof.
  induction a as [|x a IH]; [done | by rewrite !append_cons, IH].
Qed.

(** ** Running monadic code *)

Lemma bind_ok {A B} (m : M A) (k : A → M B) w a w1 :
  m w = (Ok a, w1) → bind m k w = k a w1.
Proof. unfold bind. by intros ->. Qed.

Lemma bind_inv {A B} (m : M A) (k : A → M B) w r w' :
  bind m k w = (r, w') →
  (∃ a w1, m w = (Ok a, w1) ∧ k a w1 = (r, w'))
  ∨ (∃ e, m w = (Raise e, w') ∧ r = Raise e).
Proof.
  unfold bind. destruct (m w) as [[a|e] w1]; intros Hk.
  - left. eauto.
  - right. inversion Hk; subst. eauto.
Qed.

Lemma try_except_inv {A} (body : M A) cls handler w r w' :
  try_except body cls handler w = (r, w') →
  (∃ a, body w = (Ok a, w') ∧ r = Ok a)
  ∨ (∃ e, body w = (Raise e, w') ∧ cls e = false ∧ r = Raise e)
  ∨ (∃ e w1, body w = (Raise e, w1) ∧ cls e = true ∧ handler e w1 = (r, w')).
Proof.
  unfold try_except. destruct (body w) as [[a|e] w1]; intros Hk.
  - left. inversion Hk; subst. eauto.
  - destruct (cls e) eqn:Hc.
    + right; right. eauto.
    + right; left. inversion Hk; subst. eauto.
Qed.

(** ** Composing steps that preserve a relation *)

Section Preserves.
Context (R : relation World) `{!PreOrder R}.

Lemma preserves_ret {A} (a : A) : preserves R (ret a).
Proof. intros w r w' Hm. inversion Hm; subst. reflexivity. Qed.

Lemma preserves_raise {A} e : preserves R (raise (A:=A) e).
Proof. intros w r w' Hm. inversion Hm; subst. reflexivity. Qed.

Lemma preserves_lift {A} (x : Res A) : preserves R (lift x).
Proof. destruct x; [apply preserves_ret | apply preserves_raise]. Qed.

Lemma preserves_get_world : preserves R get_world.
Proof. intros w r w' Hm. inversion Hm; subst. reflexivity. Qed.

Lemma preserves_bind {A B} (m : M A) (k : A → M B) :
  preserves R m → (∀ a, preserves R (k a)) → preserves R (bind m k).
Proof.
  intros Hm Hk w r w' Hb.
  destruct (bind_inv _ _ _ _ _ Hb) as [(a & w1 & H1 & H2) | (e & H1 & _)].
  - transitivity w1; [by eapply Hm | by eapply Hk].
  - by eapply Hm.
Qed.

Lemma preserves_try_except {A} (body : M A) cls handler :
  preserves R body → (∀ e, preserves R (handler e)) →
  preserves R (try_except body cls handler).
Proof.
  intros Hb Hh w r w' Ht.
  destruct (try_except_inv _ _ _ _ _ _ Ht)
    as [(a & H1 & _) | [(e & H1 & _ & _) | (e & w1 & H1 & _ & H2)]].
  - by eapply Hb.
  - by eapply Hb.
  - transitivity w1; [by eapply Hb | by eapply Hh].
Qed.

Lemma preserves_for_each {A} (xs : list A) body :
  (∀ x, preserves R (body x)) → preserves R (for_each xs body).
Proof.
  intros Hb. induction xs as [|x xs IH]; simpl.
  - apply preserves_ret.
  - apply preserves_bind; auto.
Qed.

End Preserves.

Global Instance grows_by_preorder φ : PreOrder (grows_by φ).
Proof.
  split.
  - intros w. exists []. by rewrite app_nil_r.
  - intros w1 w2 w3 (a & Ha & Fa) (b & Hb & Fb).
    exists (a ++ b). split.
    + by rewrite Hb, Ha, app_assoc.
    + by apply Forall_app.
Qed.

Lemma calls_quiet t evs :
  Forall not_subprocess evs →
  subprocess_calls (t ++ evs) = subprocess_calls t.
Proof.
  intros Hall. unfold subprocess_calls. rewrite omap_app.
  assert (omap (λ ev, match ev with EvSubprocess c => Some c | _ => None end)
            evs = []) as ->; [|by rewrite app_nil_r].
  induction Hall as [|ev l Hev _ IH]; [done|].
  destruct ev; simpl in *; try done.
Qed.

Lemma grows_by_calls w w' :
  grows_by not_subprocess w w' →
  subprocess_calls (trace w') = subprocess_calls (trace w).
Proof. intros (added & -> & Hall). by apply calls_quiet. Qed.

Lemma grows_by_imports w w' :
  grows_by not_import w w' →
  imported_paths (trace w') = imported_paths (trace w).
Proof.
  intros (added & -> & Hall). unfold imported_paths.
  rewrite omap_app.
  assert (omap (λ ev, match ev with EvImportResource p _ => Some p | _ => None end)
            added = []) as ->; [|by rewrite app_nil_r].
  induction Hall as [|ev l Hev _ IH]; [done|].
  destruct ev; simpl in *; try done.
Qed.

Lemma grows_by_failure_lines w w' :
  grows_by not_failure_line w w' →
  failure_lines (trace w') = failure_lines (trace w).
Proof.
  intros (added & -> & Hall). unfold failure_lines, log_lines.
  rewrite omap_app, List.filter_app.
  assert (List.filter is_failure_line
            (omap (λ ev, match ev with EvLogWindow m => Some m | _ => None end)
               added) = []) as ->; [|by rewrite app_nil_r].
  induction Hall as [|ev l Hev _ IH]; [done|].
  destruct ev; simpl in *; try done.
  unfold is_failure_line at 1. by rewrite Hev.
Qed.

(** ** The primitives *)

Section Primitives.
Context `{Host}.

Lemma grows_emit φ ev : φ ev → preserves (grows_by φ) (emit ev).
Proof.
  intros Hev w r w' Hm. inversion Hm; subst. exists [ev]. simpl. auto.
Qed.

Lemma grows_run_subprocess φ cmd :
  φ (EvSubprocess cmd) → preserves (grows_by φ) (run_subprocess cmd).
Proof.
  intros Hev w r w' Hm. unfold run_subprocess in Hm.
  exists [EvSubprocess cmd].
  destruct (subprocess_run w cmd) as [e|[cp files]];
    inversion Hm; subst; simpl; auto.
Qed.

Lemma grows_import_resource φ p n :
  φ (EvImportResource p n) → preserves (grows_by φ) (import_resource p n).
Proof.
  intros Hev w r w' Hm. unfold import_resource in Hm.
  exists [EvImportResource p n].
  destruct (import_session_resource w p n);
    inversion Hm; subst; simpl; auto.
Qed.

Lemma write_file_inv path n w r w' :
  write_file path n w = (r, w') →
  (writable w path = true ∧ r = Ok tt ∧ w' = with_file w path n)
  ∨ (writable w path = false ∧ w' = w ∧ ∃ msg, r = Raise (Exn OSError msg)).
Proof.
  unfold write_file, writable, with_file.
  destruct (fs w !! path) as [[img|txt|]|];
    destruct (write_error (fs w) path);
    intros Hm; inversion Hm; subst; eauto.
Qed.

Lemma write_file_ok path n w :
  writable w path = true → write_file path n w = (Ok tt, with_file w path n).
Proof.
  intros Hw. destruct (write_file path n w) as [r w'] eqn:Hm.
  destruct (write_file_inv _ _ _ _ _ Hm) as [(_ & -> & ->) | (Hw' & _)];
    [done | congruence].
Qed.

Lemma grows_write_file φ path n : preserves (grows_by φ) (write_file path n).
Proof.
  intros w r w' Hm. exists []. rewrite app_nil_r.
  destruct (write_file_inv _ _ _ _ _ Hm) as [(_ & _ & ->) | (_ & -> & _)]; auto.
Qed.

Lemma Image_open_inv path w r w' :
  Image_open path w = (r, w') → w' = w.
Proof.
  unfold Image_open.
  destruct (fs w !! path) as [[img|txt|]|]; intros Hm; by inversion Hm.
Qed.

Lemma preserves_Image_open R `{!PreOrder R} path :
  preserves R (Image_open path).
Proof.
  intros w r w' Hm. rewrite (Image_open_inv _ _ _ _ Hm). reflexivity.
Qed.

Lemma grows_set_config φ c : preserves (grows_by φ) (set_config c).
Proof.
  intros w r w' Hm. inversion Hm; subst. exists []. by rewrite app_nil_r.
Qed.

End Primitives.

Create HintDb plugin.

#[global] Hint Unfold
  log log_to_painter_console show_message_box run_bcdecode
  convert_dds_to_png extract_alpha_channel remove_alpha_channel
  Image_save import_to_shelf dds_pipeline import_one_dds
  config_paths_get : plugin.

(** Decomposes a goal [preserves R m] along the structure of [m]. *)
Ltac preserve :=
  autounfold with plugin;
  repeat first
    [ apply preserves_ret; tc_solve
    | apply preserves_raise; tc_solve
    | apply preserves_lift; tc_solve
    | apply preserves_get_world; tc_solve
    | apply preserves_Image_open; tc_solve
    | apply grows_write_file
    | apply grows_set_config
    | apply grows_emit; first [exact I | reflexivity]
    | apply grows_run_subprocess; exact I
    | apply grows_import_resource; exact I
    | apply preserves_bind; [tc_solve | | intros ?]
    | apply preserves_try_except; [tc_solve | | intros ?]
    | apply preserves_for_each; [tc_solve | intros ?]
    | match goal with
      | |- preserves _ (if ?b then _ else _) => destruct b
      | |- preserves _ (match ?x with _ => _ end) => destruct x
      end ].

Section Effects.
Context `{Host}.

Lemma log_runs message w :
  log message w = (Ok tt, with_events w (logged message)).
Proof.
  unfold log, log_to_painter_console, emit, bind, with_events, logged.
  simpl. by rewrite <- app_assoc.
Qed.

Lemma import_to_shelf_runs p w :
  import_to_shelf p w =
    (Ok tt,
     with_events w
       (EvImportResource p (OsPath.basename p) :: logged (import_line w p))).
Proof.
  unfold import_to_shelf, try_except, bind, import_resource, any_exception,
    import_line.
  destruct (import_session_resource w p (OsPath.basename p)) as [e|];
    rewrite log_runs; unfold with_events, logged; simpl;
    by rewrite <- app_assoc.
Qed.

Lemma run_bcdecode_inv exe i o w r w' :
  run_bcdecode exe i o w = (r, w') →
  trace w' = trace w ++ [EvSubprocess (bcdecode_command exe i o)]
  ∧ config w' = config w.
Proof.
  unfold run_bcdecode, bind, run_subprocess, bcdecode_command.
  destruct (subprocess_run w _) as [e|[result files]]; simpl.
  - intros Hm. by inversion Hm.
  - destruct (returncode result =? 0); simpl; intros Hm; by inversion Hm.
Qed.

Lemma config_paths_get_pure opt w r w' :
  config_paths_get opt w = (r, w') → w' = w.
Proof.
  unfold config_paths_get, bind, get_world, lift.
  destruct (Cfg.getitem (config w) "Paths"); simpl;
    [destruct (Cfg.proxy_get (config w) "Paths" opt); simpl|];
    intros Hm; by inversion Hm.
Qed.

Lemma pipeline_no_failure_line exe f :
  preserves (grows_by not_failure_line) (dds_pipeline exe f).
Proof. preserve. Qed.

Lemma import_to_shelf_no_subprocess p :
  preserves (grows_by not_subprocess) (import_to_shelf p).
Proof. preserve. Qed.

End Effects.

(** ** The host bridge and the converter adapters *)

Section Adapters.
Context `{Host}.

(** C9.  For every path, [import_to_shelf] returns normally whether the
    host accepts the resource or raises: it calls the host once, logs one
    line (success, or the failure with the host's message), leaves every
    file and the configuration as they were, runs no subprocess, and the
    code that follows it in a workflow runs from the world it leaves. *)
Theorem import_to_shelf_contains_host_failure
    {A} (resource_path : string) (k : M A) (w : World) :
  let name := OsPath.basename resource_path in
  let line :=
    match import_session_resource w resource_path name with
    | None => "Imported to shelf: " +:+ resource_path
    | Some e =>
        "Failed to import " +:+ resource_path +:+ " to shelf: " +:+ exn_str e
    end in
  let w' :=
    with_events w (EvImportResource resource_path name :: logged line) in
  import_to_shelf resource_path w = (Ok tt, w')
  ∧ fs w' = fs w
  ∧ config w' = config w
  ∧ subprocess_calls (trace w') = subprocess_calls (trace w)
  ∧ (import_to_shelf resource_path >>> k) w = k w'.
Proof.
  intros name line w'.
  assert (import_to_shelf resource_path w = (Ok tt, w')) as Hrun
    by apply import_to_shelf_runs.
  split; [exact Hrun|].
  split; [done|]. split; [done|]. split.
  - apply grows_by_calls.
    by apply (import_to_shelf_no_subprocess resource_path w (Ok tt)).
  - by rewrite (bind_ok _ _ _ _ _ Hrun).
Qed.

Lemma occurs_in_mid (a x b : string) : occurs_in x (a +:+ x +:+ b).
Proof. by exists a, b. Qed.

Lemma occurs_in_end (a x : string) : occurs_in x (a +:+ x).
Proof. exists a, "". by rewrite append_nil_r. Qed.

Lemma occurs_in_prefixed (p x s : string) :
  occurs_in x s → occurs_in x (p +:+ s).
Proof.
  intros (a & b & ->). exists (p +:+ a), b. by rewrite append_assoc.
Qed.

(** C8.  The DDS-to-PNG adapter runs texconv once.  When the process
    cannot be started it raises a [RuntimeError] naming the file and
    carrying the launch error; when the exit code is not zero it raises a
    [RuntimeError] whose text holds the exit code and the captured
    standard error and standard output (each without its outer white
    space); when the exit code is zero it returns normally.  The BC5
    adapter runs bcdecode once and raises a [RuntimeError] holding the
    exit code and the captured standard error when the exit code is not
    zero, returns normally when it is zero, and lets a launch error
    through. *)
Theorem adapters_translate_the_process_outcome
    (w : World) (exe input output : string) :
  (let cmd :=
     [exe; "-ft"; "png"; "-o"; OsPath.dirname output; "-y"; input] in
   let w0 :=
     with_events w
       [EvPrint ("Running texconv command: " +:+ Str.join " " cmd)] in
   let after files :=
     {| fs := files; config := config w;
        trace := trace w0 ++ [EvSubprocess cmd] |} in
   match subprocess_run w0 cmd with
   | inl e =>
       convert_dds_to_png exe input output w =
         (Raise (Exn RuntimeError
                   ("Failed to convert " +:+ input +:+ " to PNG: "
                    +:+ exn_str e)),
          after (fs w))
   | inr (result, files) =>
       if returncode result =? 0 then
         convert_dds_to_png exe input output w = (Ok tt, after files)
       else
         ∃ msg,
           convert_dds_to_png exe input output w =
             (Raise (Exn RuntimeError msg), after files)
           ∧ msg = "Failed to convert " +:+ input +:+ " to PNG: "
                   +:+ "texconv failed with code "
                   +:+ Str.of_Z (returncode result) +:+ ":" +:+ nl
                   +:+ Str.strip (stderr result) +:+ nl
                   +:+ Str.strip (stdout result)
           ∧ occurs_in (Str.strip (stderr result)) msg
           ∧ occurs_in (Str.strip (stdout result)) msg
   end)
  ∧
  (let cmd := [exe; input; output; "0"; "2"] in
   let after files :=
     {| fs := files; config := config w;
        trace := trace w ++ [EvSubprocess cmd] |} in
   match subprocess_run w cmd with
   | inl e => run_bcdecode exe input output w = (Raise e, after (fs w))
   | inr (result, files) =>
       if returncode result =? 0 then
         run_bcdecode exe input output w = (Ok tt, after files)
       else
         ∃ msg,
           run_bcdecode exe input output w =
             (Raise (Exn RuntimeError msg), after files)
           ∧ msg = "bcdecode failed with code "
                   +:+ Str.of_Z (returncode result) +:+ nl
                   +:+ stderr result
           ∧ occurs_in (stderr result) msg
   end).
Proof.
  split.
  - intros cmd w0 after.
    unfold convert_dds_to_png, try_except, bind, emit, run_subprocess,
      any_exception, raise, ret.
    fold cmd. subst w0 after. unfold with_events. simpl.
    destruct (subprocess_run _ cmd) as [e|[result files]]; simpl; [done|].
    destruct (returncode result =? 0); simpl; [done|].
    eexists. split; [reflexivity|]. split.
    { reflexivity. }
    split.
    + do 6 apply occurs_in_prefixed. apply occurs_in_mid.
    + do 8 apply occurs_in_prefixed. apply occurs_in_end.
  - intros cmd after.
    unfold run_bcdecode, bind, run_subprocess, raise, ret.
    fold cmd. subst after.
    destruct (subprocess_run w cmd) as [e|[result files]]; simpl; [done|].
    destruct (returncode result =? 0); simpl; [done|].
    eexists. split; [reflexivity|]. split; [reflexivity|].
    do 2 apply occurs_in_prefixed. apply occurs_in_end.
Qed.

End Adapters.

(** ** The BC5 decode workflow *)

Section BC5.
Context `{Host}.

(** C10.  In every run of the BC5 workflow, a call of the host import is
    for the chosen output file and comes right after the "Import
    Successful" message box; the handler then returns normally and what
    follows the call is one logged line, the success line or the failure
    line with the host's message: no further message box, no traceback. *)
Theorem bc5_success_dialog_precedes_import
    (bc5_input out_dds : string) (w w' : World) (r : Res unit) :
  on_import_bc5 bc5_input out_dds w = (r, w') →
  ∃ added,
    trace w' = trace w ++ added
    ∧ ∀ pre file_path name post,
        added = pre ++ EvImportResource file_path name :: post →
        file_path = out_dds
        ∧ (∃ before text,
             pre = before ++ [EvMessageBox "Import Successful" text])
        ∧ r = Ok tt
        ∧ ∃ line,
            post = logged line
            ∧ (line = "Imported to shelf: " +:+ out_dds
               ∨ ∃ e, line = "Failed to import " +:+ out_dds
                             +:+ " to shelf: " +:+ exn_str e).
Proof.
  unfold on_import_bc5.
  destruct (Str.truthy bc5_input); simpl.
  2:{ intros Hm. inversion Hm; subst. eexists. split; [reflexivity|].
      intros pre p n post Hsplit.
      repeat (destruct pre as [|? pre]; simplify_eq/=). }
  destruct (Str.truthy out_dds); simpl.
  2:{ intros Hm. inversion Hm; subst. eexists. split; [reflexivity|].
      intros pre p n post Hsplit.
      repeat (destruct pre as [|? pre]; simplify_eq/=). }
  unfold bind at 1.
  destruct (config_paths_get "bcdecode" w) as [[v|e] w1] eqn:Hget;
    rewrite (config_paths_get_pure _ _ _ _ Hget); clear Hget.
  2:{ intros Hm. inversion Hm; subst. exists []. rewrite app_nil_r.
      split; [done|]. intros pre p n post Hsplit.
      repeat (destruct pre as [|? pre]; simplify_eq/=). }
  unfold bind at 1, get_world.
  destruct (falsy v || negb (path_isfile w (default "" v))).
  { rewrite log_runs. intros Hm. inversion Hm; subst.
    eexists. split; [reflexivity|]. intros pre p n post Hsplit.
    repeat (destruct pre as [|? pre]; simplify_eq/=). }
  unfold try_except, any_exception. unfold bind at 1. rewrite log_runs.
  unfold bind at 1.
  destruct (run_bcdecode _ _ _ _) as [[[]|e] wb] eqn:Hrun;
    destruct (run_bcdecode_inv _ _ _ _ _ _ Hrun) as [Htr _].
  - unfold bind at 1. rewrite log_runs.
    unfold bind, show_message_box, emit. rewrite import_to_shelf_runs.
    intros Hm. inversion Hm; subst; clear Hm. simpl.
    rewrite Htr. simpl. rewrite <- !app_assoc. simpl.
    eexists. split; [reflexivity|]. intros pre p n post Hsplit.
    repeat (destruct pre as [|? pre]; simplify_eq/=).
    split; [done|]. split.
    { eexists [_; _; _; _; _], _. reflexivity. }
    split; [done|]. eexists. split; [reflexivity|].
    unfold import_line.
    destruct (import_session_resource _ _ _) as [e|]; eauto.
  - unfold bind, emit, show_message_box. rewrite log_runs.
    intros Hm. inversion Hm; subst; clear Hm. simpl.
    rewrite Htr. simpl. rewrite <- !app_assoc. simpl.
    eexists. split; [reflexivity|]. intros pre p n post Hsplit.
    repeat (destruct pre as [|? pre]; simplify_eq/=).
Qed.


End BC5.

(** The decode succeeds and the host refuses the result: the success
    dialog is on the trace before the import, the failure is a log
    line. *)
Lemma bc5_success_dialog_precedes_import_witness :
  ∃ added,
    trace (snd (on_import_bc5 (H:=Demo.host) "C:/tex/normal_bc5.dds"
                  "C:/out/normal.dds" Demo.world))
    = trace Demo.world ++ added
    ∧ ∀ pre file_path name post,
        added = pre ++ EvImportResource file_path name :: post →
        file_path = "C:/out/normal.dds"
        ∧ (∃ before text,
             pre = before ++ [EvMessageBox "Import Successful" text])
        ∧ fst (on_import_bc5 (H:=Demo.host) "C:/tex/normal_bc5.dds"
                 "C:/out/normal.dds" Demo.world) = Ok tt
        ∧ ∃ line,
            post = logged line
            ∧ (line = "Imported to shelf: " +:+ "C:/out/normal.dds"
               ∨ ∃ e, line = "Failed to import " +:+ "C:/out/normal.dds"
                             +:+ " to shelf: " +:+ exn_str e).
Proof.
  apply (bc5_success_dialog_precedes_import (H:=Demo.host)
           "C:/tex/normal_bc5.dds" "C:/out/normal.dds" Demo.world).
  vm_compute. reflexivity.
Defined.



(** ** The batch DDS import *)

Section Batch.
Context `{Host}.

Lemma convert_calls exe f png w r w' :
  convert_dds_to_png exe f png w = (r, w') →
  subprocess_calls (trace w') =
    subprocess_calls (trace w)
    ++ [[exe; "-ft"; "png"; "-o"; OsPath.dirname png; "-y"; f]].
Proof.
  unfold convert_dds_to_png, try_except, bind, emit, run_subprocess,
    any_exception, raise, ret. simpl.
  destruct (subprocess_run _ _) as [e|[result files]]; simpl.
  - intros Hm; inversion Hm; subst; simpl.
    unfold subprocess_calls. by rewrite !omap_app, app_nil_r.
  - destruct (returncode result =? 0); simpl;
      intros Hm; inversion Hm; subst; simpl;
      unfold subprocess_calls; by rewrite !omap_app, app_nil_r.
Qed.

Lemma after_convert_no_subprocess f :
  preserves (grows_by not_subprocess)
    (let* extracted :=
       extract_alpha_channel (output_png f) (output_alpha_png f) in
     (if extracted then
        remove_alpha_channel (output_png f) >>>
        log ("Alpha channel extracted to: " +:+ output_alpha_png f)
      else
        log ("No alpha channel found in: " +:+ f)) >>>
     log ("Converted to: " +:+ output_png f) >>>
     import_to_shelf (output_png f) >>>
     let* w := get_world in
     if path_exists w (output_alpha_png f)
     then import_to_shelf (output_alpha_png f)
     else ret tt).
Proof. preserve. Qed.

Lemma pipeline_calls exe f w r w' :
  dds_pipeline exe f w = (r, w') →
  subprocess_calls (trace w') =
    subprocess_calls (trace w) ++ [texconv_command exe f].
Proof.
  unfold dds_pipeline. fold (output_png f) (output_alpha_png f).
  unfold bind at 1. rewrite log_runs.
  intros Hb. apply bind_inv in Hb as [([] & w1 & Hc & Hrest) | (e & Hc & _)];
    apply convert_calls in Hc.
  - apply after_convert_no_subprocess, grows_by_calls in Hrest.
    rewrite Hrest, Hc. simpl. unfold texconv_command.
    by rewrite calls_quiet by repeat constructor.
  - rewrite Hc. simpl. unfold texconv_command.
    by rewrite calls_quiet by repeat constructor.
Qed.

Lemma import_one_runs exe f w :
  ∃ w', import_one_dds exe f w = (Ok tt, w')
        ∧ subprocess_calls (trace w') =
            subprocess_calls (trace w) ++ [texconv_command exe f].
Proof.
  unfold import_one_dds, try_except, any_exception.
  destruct (dds_pipeline exe f w) as [[[]|e] w1] eqn:Hp;
    apply pipeline_calls in Hp.
  - eauto.
  - unfold bind. rewrite log_runs. unfold emit. simpl.
    eexists. split; [reflexivity|]. simpl.
    by rewrite <- app_assoc, calls_quiet by repeat constructor.
Qed.

Lemma batch_runs exe files w :
  ∃ w', for_each files (import_one_dds exe) w = (Ok tt, w')
        ∧ subprocess_calls (trace w') =
            subprocess_calls (trace w) ++ map (texconv_command exe) files.
Proof.
  revert w. induction files as [|f files IH]; intros w; simpl.
  - exists w. by rewrite app_nil_r.
  - destruct (import_one_runs exe f w) as (w1 & Hone & Hc1).
    destruct (IH w1) as (w2 & Hrest & Hc2).
    exists w2. rewrite (bind_ok _ _ _ _ _ Hone). split; [done|].
    by rewrite Hc2, Hc1, <- app_assoc.
Qed.

Lemma batch_app exe pre post w :
  for_each (pre ++ post) (import_one_dds exe) w =
    for_each post (import_one_dds exe)
      (snd (for_each pre (import_one_dds exe) w)).
Proof.
  revert w. induction pre as [|f pre IH]; intros w; simpl; [done|].
  destruct (import_one_runs exe f w) as (w1 & Hone & _).
  by rewrite !(bind_ok _ _ _ _ _ Hone), IH.
Qed.

(** C1.  Let texconv be usable and let the pipeline of file [k], reached
    after the files [pre], raise an exception [e], in the conversion or in
    any later step.  Then the pass for [k] logs exactly one failure line,
    the one for [k] with the text of [e]; the batch goes on and returns
    normally; texconv is run once for every file after [k], in order, and
    over the whole batch once for every selected file. *)
Theorem batch_isolates_a_failing_file
    (exe : string) (pre : list string) (k : string) (post : list string)
    (w wk : World) (e : exn) :
  config_paths_get "texconv" w = (Ok (Some exe), w) →
  Str.truthy exe = true →
  path_isfile w exe = true →
  let w1 := snd (for_each pre (import_one_dds exe) w) in
  dds_pipeline exe k w1 = (Raise e, wk) →
  let w2 := snd (import_one_dds exe k w1) in
  let w3 := snd (for_each post (import_one_dds exe) w2) in
  on_import_dds (pre ++ k :: post) w = (Ok tt, w3)
  ∧ failure_lines (trace w2) =
      failure_lines (trace w1)
      ++ ["Failed to process " +:+ k +:+ ": " +:+ exn_str e]
  ∧ subprocess_calls (trace w3) =
      subprocess_calls (trace w2) ++ map (texconv_command exe) post
  ∧ subprocess_calls (trace w3) =
      subprocess_calls (trace w)
      ++ map (texconv_command exe) (pre ++ k :: post).
Proof.
  intros Hget Hexe Hfile w1 Hfail w2 w3.
  assert (on_import_dds (pre ++ k :: post) w =
            for_each (pre ++ k :: post) (import_one_dds exe) w) as Hloop.
  { unfold on_import_dds.
    destruct (pre ++ k :: post) as [|x l] eqn:Hl;
      [by destruct pre|].
    unfold bind at 1. rewrite Hget. unfold bind, get_world. simpl.
    unfold falsy. by rewrite Hexe, Hfile. }
  rewrite Hloop, batch_app. fold w1. simpl.
  destruct (import_one_runs exe k w1) as (w2' & Hone & Hc2).
  rewrite (bind_ok _ _ _ _ _ Hone).
  assert (w2 = w2') as <- by (subst w2; by rewrite Hone).
  destruct (batch_runs exe post w2) as (w3' & Hpost & Hc3).
  assert (w3 = w3') as <- by (subst w3; by rewrite Hpost).
  split; [done|]. split; [|split].
  - assert (w2 = with_events wk
                   (logged ("Failed to process " +:+ k +:+ ": " +:+ exn_str e)
                    ++ [EvTraceback e])) as Hw2.
    { revert Hone. unfold import_one_dds, try_except, any_exception.
      rewrite Hfail. unfold bind. rewrite log_runs. unfold emit. simpl.
      intros Hm. inversion Hm. unfold with_events. simpl.
      by rewrite <- app_assoc. }
    apply pipeline_no_failure_line, grows_by_failure_lines in Hfail.
    rewrite Hw2. unfold with_events. simpl.
    unfold failure_lines, log_lines in *.
    rewrite omap_app, List.filter_app, Hfail. by f_equal.
  - exact Hc3.
  - destruct (batch_runs exe pre w) as (w1' & Hpre & Hc1).
    assert (w1 = w1') as <- by (subst w1; by rewrite Hpre).
    rewrite Hc3, Hc2, Hc1, map_app. simpl.
    by rewrite <- !app_assoc.
Qed.
End Batch.

(** A batch of three files whose second cannot be converted. *)
Lemma batch_isolates_a_failing_file_witness :
  let exe := "C:/tools/texconv.exe" in
  let w1 := snd (for_each ["C:/tex/leaf.dds"] (import_one_dds (H:=Demo.host) exe) Demo.world) in
  let w2 := snd (import_one_dds (H:=Demo.host) exe "C:/tex/broken.dds" w1) in
  let w3 := snd (for_each ["C:/tex/wall.dds"] (import_one_dds (H:=Demo.host) exe) w2) in
  let e :=
    Exn RuntimeError
      ("Failed to convert C:/tex/broken.dds to PNG: texconv failed with code 1:"
       +:+ nl +:+ nl +:+ "reading broken.dds FAILED (80070026)") in
  on_import_dds (H:=Demo.host)
    (["C:/tex/leaf.dds"] ++ "C:/tex/broken.dds" :: ["C:/tex/wall.dds"])
    Demo.world = (Ok tt, w3)
  ∧ failure_lines (trace w2) =
      failure_lines (trace w1)
      ++ ["Failed to process " +:+ "C:/tex/broken.dds" +:+ ": " +:+ exn_str e]
  ∧ subprocess_calls (trace w3) =
      subprocess_calls (trace w2)
      ++ map (texconv_command exe) ["C:/tex/wall.dds"]
  ∧ subprocess_calls (trace w3) =
      subprocess_calls (trace Demo.world)
      ++ map (texconv_command exe)
           (["C:/tex/leaf.dds"] ++ "C:/tex/broken.dds" :: ["C:/tex/wall.dds"]).
Proof.
  intros exe w1 w2 w3 e.
  eapply (batch_isolates_a_failing_file (H:=Demo.host) exe
           ["C:/tex/leaf.dds"] "C:/tex/broken.dds" ["C:/tex/wall.dds"]
           Demo.world).
  - vm_compute. reflexivity.
  - vm_compute. reflexivity.
  - vm_compute. reflexivity.
  - vm_compute. reflexivity.
Defined.


(** ** What the batch hands to the host *)

Section Imports.
Context `{Host}.

Lemma imports_quiet t evs :
  Forall not_import evs → imported_paths (t ++ evs) = imported_paths t.
Proof.
  intros Hq.
  apply (grows_by_imports {| fs := ∅; config := Cfg.empty; trace := t |}
           {| fs := ∅; config := Cfg.empty; trace := t ++ evs |}).
  by exists evs.
Qed.

Lemma convert_no_import exe f png :
  preserves (grows_by not_import) (convert_dds_to_png exe f png).
Proof. preserve. Qed.

Lemma extract_no_import a b :
  preserves (grows_by not_import) (extract_alpha_channel a b).
Proof. preserve. Qed.

Lemma strip_step_no_import f (extracted : bool) :
  preserves (grows_by not_import)
    (if extracted
     then remove_alpha_channel (output_png f) >>>
          log ("Alpha channel extracted to: " +:+ output_alpha_png f)
     else log ("No alpha channel found in: " +:+ f)).
Proof. preserve. Qed.

Lemma derived_paths_differ f : output_alpha_png f ≠ output_png f.
Proof.
  unfold output_alpha_png, output_png. intros Heq.
  apply (inj (String.append _)) in Heq. discriminate.
Qed.

(** C5, as amended.  The two derived paths differ, and the pipeline of
    one file hands to the host: nothing, when a step before the imports
    raised; otherwise the PNG and then the alpha PNG exactly when a file
    exists at the derived [_alpha.png] path at that moment, whether the
    extraction of this run made it or it was there before. *)
Theorem alpha_import_follows_the_file_on_disk
    (exe f : string) (w w' : World) (r : Res unit) :
  dds_pipeline exe f w = (r, w') →
  output_alpha_png f ≠ output_png f
  ∧ imported_paths (trace w') =
      imported_paths (trace w)
      ++ match r with
         | Ok _ =>
             output_png f
             :: (if path_exists w' (output_alpha_png f)
                 then [output_alpha_png f] else [])
         | Raise _ => []
         end.
Proof.
  intros Hb. split; [apply derived_paths_differ|].
  unfold dds_pipeline in Hb. fold (output_png f) (output_alpha_png f) in Hb.
  unfold bind at 1 in Hb. rewrite log_runs in Hb.
  assert (∀ w1 w2 : World,
            grows_by not_import w1 w2 →
            imported_paths (trace w1) = imported_paths (trace w) →
            imported_paths (trace w2) = imported_paths (trace w) ++ [])
    as Hstop.
  { intros w1 w2 Hg Hacc. by rewrite app_nil_r, (grows_by_imports _ _ Hg). }
  assert (imported_paths (trace (with_events w
            (logged ("Converting " +:+ f
                     +:+ " to PNG directly using texconv..."))))
          = imported_paths (trace w)) as Hacc
    by (apply imports_quiet; repeat constructor).
  apply bind_inv in Hb as [([] & w1 & Hc & Hb) | (e & Hc & ->)];
    apply convert_no_import in Hc; [|by eapply Hstop].
  apply grows_by_imports in Hc. rewrite Hacc in Hc. clear Hacc.
  apply bind_inv in Hb as [(extracted & w2 & Hx & Hb) | (e & Hx & ->)];
    apply extract_no_import in Hx; [|by eapply Hstop].
  apply grows_by_imports in Hx. rewrite Hc in Hx. clear Hc.
  apply bind_inv in Hb as [([] & w3 & Hr & Hb) | (e & Hr & ->)];
    apply strip_step_no_import in Hr; [|by eapply Hstop].
  apply grows_by_imports in Hr. rewrite Hx in Hr. clear Hx.
  unfold bind at 1 in Hb. rewrite log_runs in Hb.
  unfold bind at 1 in Hb. rewrite import_to_shelf_runs in Hb.
  unfold bind at 1, get_world in Hb.
  match type of Hb with
  | (if path_exists ?wc _ then _ else _) _ = _ => set (w6 := wc) in *
  end.
  assert (imported_paths (trace w6) =
            imported_paths (trace w) ++ [output_png f]) as H6.
  { subst w6. unfold with_events, logged. simpl.
    rewrite <- !app_assoc. simpl.
    change (?t ++ ?a :: ?b :: EvImportResource ?p ?n :: ?l)
      with (t ++ [a; b] ++ EvImportResource p n :: l).
    unfold imported_paths at 1. rewrite !omap_app. simpl.
    fold (imported_paths (trace w3)). by rewrite Hr. }
  destruct (path_exists w6 (output_alpha_png f)) eqn:Hex.
  - rewrite import_to_shelf_runs in Hb. inversion Hb; subst r w'; clear Hb.
    change (path_exists (with_events w6 _) (output_alpha_png f))
      with (path_exists w6 (output_alpha_png f)).
    rewrite Hex.
    change (trace (with_events w6 ?evs)) with (trace w6 ++ evs).
    unfold imported_paths at 1. rewrite omap_app.
    change (omap _ (trace w6)) with (imported_paths (trace w6)).
    rewrite H6, <- app_assoc. reflexivity.
  - inversion Hb; subst r w'; clear Hb. by rewrite Hex.
Qed.
End Imports.

(** A file with an alpha channel: both PNGs are handed to the host. *)
Lemma alpha_import_follows_the_file_on_disk_witness :
  let run :=
    dds_pipeline (H:=Demo.host) "C:/tools/texconv.exe" "C:/tex/leaf.dds"
      Demo.world in
  output_alpha_png "C:/tex/leaf.dds" ≠ output_png "C:/tex/leaf.dds"
  ∧ imported_paths (trace (snd run)) =
      imported_paths (trace Demo.world)
      ++ match fst run with
         | Ok _ =>
             output_png "C:/tex/leaf.dds"
             :: (if path_exists (snd run) (output_alpha_png "C:/tex/leaf.dds")
                 then [output_alpha_png "C:/tex/leaf.dds"] else [])
         | Raise _ => []
         end.
Proof.
  intros run.
  apply (alpha_import_follows_the_file_on_disk (H:=Demo.host)
           "C:/tools/texconv.exe" "C:/tex/leaf.dds" Demo.world).
  vm_compute. reflexivity.
Defined.

(** C5, as stated, fails on a file left at the derived path: [wall.dds]
    converts to an image without alpha, the extraction returns false and
    creates nothing, and [wall_alpha.png], which was on the disk before the
    run, is handed to the host all the same. *)
Lemma stale_alpha_file_is_imported :
  let f := "C:/tex/wall.dds" in
  let exe := "C:/tools/texconv.exe" in
  let converted :=
    snd ((log
            ("Converting " +:+ f +:+ " to PNG directly using texconv...") >>>
          convert_dds_to_png (H:=Demo.host) exe f (output_png f))
           Demo.world) in
  fs Demo.world !! output_alpha_png f = Some (FileImage Demo.old_mask)
  ∧ extract_alpha_channel (H:=Demo.host) (output_png f) (output_alpha_png f)
      converted = (Ok false, converted)
  ∧ imported_paths
      (trace (snd (dds_pipeline (H:=Demo.host) exe f Demo.world)))
    = ["C:/tex/wall.png"; "C:/tex/wall_alpha.png"].
Proof. vm_compute. auto. Qed.

(** ** The image post-processor *)

Section PostProcessor.
Context `{Host}.



(** C4.  On a file that holds an RGBA image, running
    [remove_alpha_channel] a second time gives the result and the world
    of the first run.  When the file can be written the first run
    replaces it by the RGB image made of the first three bands, and the
    second run finds a three-band image and changes nothing. *)
Theorem remove_alpha_channel_is_idempotent
    (input_png : string) (img : PIL.Image) (w : World) :
  fs w !! input_png = Some (FileImage img) →
  PIL.mode img = PIL.RGBA →
  let once := remove_alpha_channel input_png w in
  remove_alpha_channel input_png (snd once) = once
  ∧ (writable w input_png = true →
     once = (Ok tt, with_file w input_png (FileImage (PIL.convert_RGB img)))
     ∧ PIL.getbands (PIL.convert_RGB img) = ["R"; "G"; "B"]
     ∧ fs (snd (remove_alpha_channel input_png (snd once))) = fs (snd once)).
Proof.
  intros Hfile Hmode once.
  assert (∀ w1 : World,
            fs w1 !! input_png = Some (FileImage (PIL.convert_RGB img)) →
            remove_alpha_channel input_png w1 = (Ok tt, w1)) as Hnoop.
  { intros w1 H1.
    unfold remove_alpha_channel, try_except, bind, Image_open.
    by rewrite H1. }
  assert (once =
            match write_file input_png (FileImage (PIL.convert_RGB img)) w with
            | (Ok _, w1) => (Ok tt, w1)
            | (Raise e, w1) => (Raise e, w1)
            end) as Honce.
  { subst once.
    unfold remove_alpha_channel, try_except, bind, Image_open, Image_save.
    rewrite Hfile, Hmode. simpl.
    destruct (write_file _ _ w) as [[[]|e] w1] eqn:Hwr; [done|].
    destruct (write_file_inv _ _ _ _ _ Hwr)
      as [(_ & ? & _) | (_ & _ & msg & Hr)]; [done|].
    by inversion Hr. }
  destruct (write_file input_png (FileImage (PIL.convert_RGB img)) w)
    as [r1 w1] eqn:Hwr.
  destruct (write_file_inv _ _ _ _ _ Hwr)
    as [(Hw & -> & ->) | (Hw & -> & msg & ->)].
  - assert (fs (with_file w input_png (FileImage (PIL.convert_RGB img)))
              !! input_png = Some (FileImage (PIL.convert_RGB img))) as Hnew
      by apply lookup_insert_eq.
    rewrite Honce. simpl. split; [by apply Hnoop|].
    intros _. split; [done|]. split; [done|].
    by rewrite (Hnoop _ Hnew).
  - rewrite Honce. simpl. split; [by rewrite <- Honce|].
    intros Hw'. congruence.
Qed.

End PostProcessor.


(** A writable RGBA file: the first run leaves an RGB file, the second
    changes nothing. *)
Lemma remove_alpha_channel_is_idempotent_witness :
  let w := with_file Demo.world "C:/tex/leaf.png" (FileImage Demo.leaf_rgba) in
  let once := remove_alpha_channel (H:=Demo.host) "C:/tex/leaf.png" w in
  remove_alpha_channel (H:=Demo.host) "C:/tex/leaf.png" (snd once) = once
  ∧ once = (Ok tt, with_file w "C:/tex/leaf.png"
                     (FileImage (PIL.convert_RGB Demo.leaf_rgba)))
  ∧ PIL.getbands (PIL.convert_RGB Demo.leaf_rgba) = ["R"; "G"; "B"]
  ∧ fs (snd (remove_alpha_channel (H:=Demo.host) "C:/tex/leaf.png" (snd once)))
    = fs (snd once).
Proof.
  intros w once.
  destruct (remove_alpha_channel_is_idempotent (H:=Demo.host)
              "C:/tex/leaf.png" Demo.leaf_rgba w) as [Htwice Hwritten].
  - vm_compute. reflexivity.
  - vm_compute. reflexivity.
  - split; [exact Htwice|]. apply Hwritten. vm_compute. reflexivity.
Defined.

(** ** The settings file *)

Section FirstLoad.
Context `{Host}.


End FirstLoad.



(** ** Facts about the string helpers *)

Section StringFacts.

Lemma length_lstrip s : (String.length (Str.lstrip s) ≤ String.length s)%nat.
Proof.
  induction s as [|c r IH]; simpl; [lia|].
  destruct (Str.is_space c); simpl; lia.
Qed.

Lemma length_rstrip s : (String.length (Str.rstrip s) ≤ String.length s)%nat.
Proof.
  induction s as [|c r IH]; simpl; [lia|].
  destruct (Str.rstrip r); [destruct (Str.is_space c)|]; simpl in *; lia.
Qed.

Lemma trimmed_lstrip s : Clean.trimmed s = true → Str.lstrip s = s.
Proof.
  unfold Clean.trimmed, Str.strip. intros Heq%String.eqb_eq.
  destruct s as [|c r]; [done|]. simpl.
  destruct (Str.is_space c) eqn:Hc; [|done].
  simpl in Heq. rewrite Hc in Heq.
  pose proof (length_rstrip (Str.lstrip r)) as H1.
  pose proof (length_lstrip r) as H2.
  rewrite Heq in H1. simpl in H1. lia.
Qed.

Lemma trimmed_rstrip s : Clean.trimmed s = true → Str.rstrip s = s.
Proof.
  intros Ht. pose proof (trimmed_lstrip s Ht) as Hl.
  unfold Clean.trimmed, Str.strip in Ht. rewrite Hl in Ht.
  by apply String.eqb_eq.
Qed.

Lemma trimmed_strip s : Clean.trimmed s = true → Str.strip s = s.
Proof. unfold Clean.trimmed. by intros ?%String.eqb_eq. Qed.

Lemma trimmed_head c r :
  Clean.trimmed (String c r) = true → Str.is_space c = false.
Proof.
  intros Ht%trimmed_lstrip. simpl in Ht.
  destruct (Str.is_space c); [|done].
  pose proof (length_lstrip r) as Hl. rewrite Ht in Hl. simpl in Hl. lia.
Qed.

Lemma rstrip_cons c r :
  Str.rstrip r ≠ "" → Str.rstrip (String c r) = String c (Str.rstrip r).
Proof. simpl. by destruct (Str.rstrip r). Qed.

Lemma rstrip_app_keep a b :
  Str.rstrip b ≠ "" → Str.rstrip (a +:+ b) = a +:+ Str.rstrip b.
Proof.
  intros Hb. induction a as [|c a IH]; [done|].
  rewrite !append_cons, rstrip_cons; rewrite IH; [done|].
  destruct a; [done | discriminate].
Qed.

Lemma rstrip_app_drop a b :
  Str.rstrip b = "" → Str.rstrip (a +:+ b) = Str.rstrip a.
Proof.
  intros Hb. induction a as [|c a IH]; [done|].
  rewrite append_cons. simpl. by rewrite IH.
Qed.

Lemma no_linebreak_app a b :
  Clean.no_linebreak (a +:+ b) = Clean.no_linebreak a && Clean.no_linebreak b.
Proof.
  induction a as [|c a IH]; [done|].
  rewrite append_cons. simpl. rewrite IH. by rewrite !andb_assoc.
Qed.

Lemma universal_newlines_app a b :
  Clean.no_linebreak a = true →
  Str.universal_newlines (a +:+ b) = a +:+ Str.universal_newlines b.
Proof.
  induction a as [|c a IH]; [done|].
  rewrite !append_cons. simpl.
  intros [[_ Hcr%negb_true_iff]%andb_prop Ha]%andb_prop.
  by rewrite Hcr, IH.
Qed.

Lemma universal_newlines_nl b :
  Str.universal_newlines (nl +:+ b) = nl +:+ Str.universal_newlines b.
Proof. reflexivity. Qed.

Lemma split_lines_line a b :
  Clean.no_linebreak a = true →
  Str.split_lines (a +:+ nl +:+ b) = a :: Str.split_lines b.
Proof.
  induction a as [|c a IH]; [done|].
  rewrite !append_cons. simpl.
  intros [[Hlf%negb_true_iff _]%andb_prop Ha]%andb_prop.
  by rewrite Hlf, IH.
Qed.

Lemma indent_newlines_id v :
  Clean.no_linebreak v = true → Str.indent_newlines v = v.
Proof.
  induction v as [|c v IH]; [done|]. simpl.
  intros [[Hlf%negb_true_iff _]%andb_prop Ha]%andb_prop.
  by rewrite Hlf, IH.
Qed.

Lemma lower_clean k :
  Clean.all_chars Clean.key_char k = true → Str.lower k = k.
Proof.
  induction k as [|c k IH]; [done|]. simpl.
  intros [Hc Hk]%andb_prop. rewrite IH by done.
  unfold Clean.key_char in Hc.
  apply andb_prop in Hc as [_ Hl]. unfold Str.eqc in Hl.
  by apply Ascii.eqb_eq in Hl as ->.
Qed.

Lemma split_delim_app k s :
  Clean.all_chars Clean.key_char k = true →
  Cfg.split_delim (k +:+ s) =
    match Cfg.split_delim s with
    | Some (a, b) => Some (k +:+ a, b)
    | None => None
    end.
Proof.
  induction k as [|c k IH]; simpl.
  - intros _. rewrite append_nil_l. by destruct (Cfg.split_delim s) as [[]|].
  - intros [Hc Hk]%andb_prop.
    unfold Clean.key_char in Hc.
    apply andb_prop in Hc as [[[[He%negb_true_iff Hcol%negb_true_iff]%andb_prop _]%andb_prop _]%andb_prop _].
    rewrite He, Hcol, IH by done. simpl.
    by destruct (Cfg.split_delim s) as [[]|].
Qed.

Lemma upto_last_snoc c s :
  Cfg.upto_last c (s +:+ String c "") = Some s.
Proof.
  induction s as [|d s IH].
  - simpl. unfold Str.eqc. by rewrite Ascii.eqb_refl.
  - rewrite append_cons. simpl. by rewrite IH.
Qed.

End StringFacts.

(** ** Reading back what [write] wrote *)

Section Dicts.
Context {V : Type}.

Lemma dict_get_absent k (d : list (string * V)) :
  absent k d = true → Cfg.dict_get k d = None.
Proof.
  unfold absent. induction d as [|[k' v] d IH]; simpl; [done|].
  rewrite negb_orb. intros [Hk%negb_true_iff Hd]%andb_prop.
  rewrite Hk. auto.
Qed.

Lemma dict_get_last k v (d : list (string * V)) :
  absent k d = true → Cfg.dict_get k (d ++ [(k, v)]) = Some v.
Proof.
  unfold absent. induction d as [|[k' v'] d IH]; simpl.
  - by rewrite String.eqb_refl.
  - rewrite negb_orb. intros [Hk%negb_true_iff Hd]%andb_prop.
    rewrite Hk. auto.
Qed.

Lemma dict_set_last k v v' (d : list (string * V)) :
  absent k d = true →
  Cfg.dict_set k v' (d ++ [(k, v)]) = d ++ [(k, v')].
Proof.
  unfold absent. induction d as [|[k' v''] d IH]; simpl.
  - by rewrite String.eqb_refl.
  - rewrite negb_orb. intros [Hk%negb_true_iff Hd]%andb_prop.
    rewrite Hk. f_equal. auto.
Qed.

Lemma dict_set_absent k v (d : list (string * V)) :
  absent k d = true → Cfg.dict_set k v d = d ++ [(k, v)].
Proof.
  unfold absent. induction d as [|[k' v'] d IH]; simpl; [done|].
  rewrite negb_orb. intros [Hk%negb_true_iff Hd]%andb_prop.
  rewrite Hk. f_equal. auto.
Qed.

Lemma dict_has_absent k (d : list (string * V)) :
  absent k d = true → Cfg.dict_has k d = false.
Proof. intros Ha. unfold Cfg.dict_has. by rewrite dict_get_absent. Qed.

Lemma absent_app k (d1 d2 : list (string * V)) :
  absent k (d1 ++ d2) = absent k d1 && absent k d2.
Proof.
  unfold absent. by rewrite map_app, existsb_app, negb_orb.
Qed.

End Dicts.

Section Lines.

Lemma unlines_app a b : unlines (a ++ b) = unlines a +:+ unlines b.
Proof.
  induction a as [|l a IH]; simpl; [done|].
  by rewrite IH, !append_assoc.
Qed.

Lemma concat_empty_cons x xs :
  String.concat "" (x :: xs) = x +:+ String.concat "" xs.
Proof. destruct xs; simpl; [by rewrite append_nil_r | done]. Qed.

Lemma write_section_lines name items :
  forallb (λ kv, Clean.value (snd kv)) items = true →
  Cfg.write_section name items = unlines (section_lines (name, items)).
Proof.
  intros Hv. unfold Cfg.write_section, section_lines. simpl.
  rewrite !append_assoc. do 3 f_equal.
  induction items as [|[k v] items IH]; [done|].
  simpl in Hv. apply andb_prop in Hv as [Hkv Hv].
  rewrite map_cons, concat_empty_cons. simpl map. simpl app.
  cbn [unlines]. unfold Cfg.write_item at 1, item_line at 1. simpl fst. simpl snd.
  rewrite !append_assoc, IH by done.
  unfold Clean.value in Hkv. apply andb_prop in Hkv as [Hnl _].
  by rewrite indent_newlines_id.
Qed.

Lemma key_facts k :
  Clean.key k = true →
  ∃ c r, k = String c r
         ∧ Str.is_space c = false
         ∧ Clean.key_start c = true
         ∧ Clean.all_chars Clean.key_char k = true
         ∧ Str.rstrip k = k.
Proof.
  unfold Clean.key. destruct k as [|c r]; [done|].
  intros [[Hs Hc]%andb_prop Ht]%andb_prop.
  exists c, r. repeat split; try done.
  - by eapply trimmed_head.
  - by apply trimmed_rstrip.
Qed.

Lemma strip_item_line k v :
  Clean.key k = true → Clean.value v = true →
  Str.strip (item_line (k, v)) =
    k +:+ " =" +:+ (if Str.truthy v then " " +:+ v else "").
Proof.
  intros (c & r & -> & Hc & _ & _ & _)%key_facts [_ Hv]%andb_prop.
  unfold Str.strip, item_line. simpl fst. simpl snd.
  rewrite append_cons. simpl Str.lstrip. rewrite Hc.
  change (String c (r +:+ " = " +:+ v)) with (String c r +:+ " = " +:+ v).
  destruct v as [|d v'].
  - rewrite rstrip_app_keep; [reflexivity | by vm_compute].
  - rewrite <- append_assoc.
    rewrite rstrip_app_keep; rewrite (trimmed_rstrip _ Hv); [|done].
    by rewrite append_assoc.
Qed.

Lemma match_option_item k v :
  Clean.key k = true → Clean.value v = true →
  Cfg.match_option (Str.strip (item_line (k, v))) = Some (k, v).
Proof.
  intros Hk Hv. rewrite strip_item_line by done.
  destruct (key_facts _ Hk) as (c & r & Heq & Hc & _ & Hall & Hrs).
  unfold Cfg.match_option. rewrite split_delim_app by done.
  destruct v as [|d v']; simpl Str.truthy; cbv iota.
  - change (Cfg.split_delim (" =" +:+ "")) with (Some (" ", "")).
    cbv beta iota.
    rewrite rstrip_app_drop by done. by rewrite Hrs.
  - change (Cfg.split_delim (" =" +:+ " " +:+ String d v'))
      with (Some (" ", " " +:+ String d v')).
    cbv beta iota.
    rewrite rstrip_app_drop by done. rewrite Hrs.
    apply andb_prop in Hv as [_ Hv].
    change (Str.strip (" " +:+ String d v')) with (Str.strip (String d v')).
    by rewrite (trimmed_strip _ Hv).
Qed.

Lemma read_header S A cur o name :
  Clean.section_name name = true →
  absent name S = true →
  Cfg.read_line (reading S A cur o) ("[" +:+ name +:+ "]") =
    Ok (reading (S ++ [(name, [])]) (Cfg.ESection name :: A)
          (Cfg.InSection name) None).
Proof.
  intros [[Ht Hnl]%andb_prop Hd%negb_true_iff]%andb_prop Habs.
  assert (Str.strip ("[" +:+ name +:+ "]") = "[" +:+ name +:+ "]") as Hs.
  { unfold Str.strip. change (Str.lstrip ("[" +:+ name +:+ "]"))
      with ("[" +:+ name +:+ "]").
    rewrite <- append_assoc. by rewrite rstrip_app_keep. }
  unfold Cfg.read_line, Cfg.is_comment. rewrite Hs.
  change (Str.startswith "#" ("[" +:+ name +:+ "]")) with false.
  change (Str.startswith ";" ("[" +:+ name +:+ "]")) with false.
  change (Str.first_nonspace ("[" +:+ name +:+ "]")) with O.
  cbn [orb negb Str.truthy]. 
  change (Str.truthy ("[" +:+ name +:+ "]")) with true. cbn [negb].
  rewrite andb_false_r.
  assert (Cfg.match_section ("[" +:+ name +:+ "]") = Some name) as ->.
  { unfold Cfg.match_section.
    change ("[" +:+ name +:+ "]") with (String "[" (name +:+ "]")).
    cbv iota. change (Str.eqc "[" "[") with true. cbv iota.
    by rewrite upto_last_snoc, Ht. }
  cbn [Cfg.st_sections reading]. rewrite (dict_has_absent _ _ Habs), Hd.
  reflexivity.
Qed.

Lemma read_item S0 name acc A o k v :
  Clean.key k = true → Clean.value v = true →
  absent name S0 = true → absent k acc = true →
  seen A name k = false →
  Cfg.read_line (reading (S0 ++ [(name, acc)]) A (Cfg.InSection name) o)
    (item_line (k, v)) =
    Ok (reading (S0 ++ [(name, acc ++ [(k, Cfg.VLines [v])])])
          (Cfg.EOption name k :: A) (Cfg.InSection name) (Some k)).
Proof.
  intros Hk Hv HS Hacc Hseen.
  destruct (key_facts _ Hk) as (c & r & Heq & Hc & Hstart & Hall & Hrs).
  pose proof (strip_item_line k v Hk Hv) as Hstrip.
  pose proof (match_option_item k v Hk Hv) as Hopt.
  assert (∃ rest, Str.strip (item_line (k, v)) = String c rest)
    as [rest Hhead].
  { rewrite Hstrip, Heq. rewrite append_cons. eauto. }
  unfold Clean.key_start in Hstart.
  apply andb_prop in Hstart
    as [[Hh%negb_true_iff Hsc%negb_true_iff]%andb_prop Hbr%negb_true_iff].
  assert (Cfg.is_comment (item_line (k, v)) = false) as Hcom.
  { unfold Cfg.is_comment. rewrite Hhead. unfold Str.startswith.
    by rewrite Hh, Hsc. }
  assert (Str.first_nonspace (item_line (k, v)) = O) as Hind.
  { unfold item_line. simpl fst. rewrite Heq, append_cons. simpl.
    by rewrite Hc. }
  assert (Cfg.match_section (Str.strip (item_line (k, v))) = None) as Hsec.
  { rewrite Hhead. unfold Cfg.match_section. by rewrite Hbr. }
  unfold Cfg.read_line. cbv zeta. rewrite Hcom, Hind, Hsec, Hopt.
  rewrite Hhead at 1. cbn [orb negb Str.truthy].
  cbn [reading Cfg.st_indent]. rewrite andb_false_r.
  cbn [Cfg.st_cursect].
  rewrite Hrs, (lower_clean _ Hall).
  assert (Str.truthy k = true) as -> by (by rewrite Heq).
  cbn [reading Cfg.st_cursect Cfg.sectname Cfg.st_added].
  fold (seen A name k). rewrite Hseen.
  unfold Cfg.cursect_set, Cfg.with_option.
  cbn [reading Cfg.st_cursect Cfg.st_sections Cfg.st_defaults Cfg.st_added
       Cfg.st_optname Cfg.st_indent Cfg.st_bad Cfg.sectname].
  rewrite (dict_get_last _ _ _ HS), (dict_set_last _ _ _ _ HS).
  by rewrite (dict_set_absent _ _ _ Hacc).
Qed.

Lemma read_blank_open S0 name init A k v :
  absent name S0 = true → absent k init = true → Str.truthy k = true →
  Cfg.read_line
    (reading (S0 ++ [(name, init ++ [(k, Cfg.VLines [v])])]) A
       (Cfg.InSection name) (Some k)) "" =
    Ok (reading (S0 ++ [(name, init ++ [(k, Cfg.VLines [v; ""])])]) A
          (Cfg.InSection name) (Some k)).
Proof.
  intros HS Hk Ht.
  unfold Cfg.read_line. change (Cfg.is_comment "") with false.
  change (Str.strip "") with "". cbn [Str.truthy negb].
  unfold Cfg.append_line. cbn [reading Cfg.st_optname]. rewrite Ht.
  unfold Cfg.cursect_get.
  cbn [reading Cfg.st_cursect Cfg.st_sections Cfg.st_defaults Cfg.st_added
       Cfg.st_optname Cfg.st_indent Cfg.st_bad].
  rewrite (dict_get_last _ _ _ HS), (dict_get_last _ _ _ Hk).
  unfold Cfg.cursect_set.
  cbn [reading Cfg.st_cursect Cfg.st_sections Cfg.st_defaults Cfg.st_added
       Cfg.st_optname Cfg.st_indent Cfg.st_bad].
  rewrite (dict_get_last _ _ _ HS), (dict_set_last _ _ _ _ HS).
  by rewrite (dict_set_last _ _ _ _ Hk).
Qed.

Lemma absent_snoc {V} k' k (v : V) acc :
  absent k' acc = true → String.eqb k' k = false →
  absent k' (acc ++ [(k, v)]) = true.
Proof.
  intros Ha Hne. rewrite absent_app, Ha. unfold absent. simpl.
  by rewrite Hne.
Qed.

Lemma distinct_cons x l :
  Clean.distinct (x :: l) = true →
  Clean.distinct l = true ∧ ∀ y, In y l → String.eqb y x = false.
Proof.
  simpl. intros [Hx%negb_true_iff Hl]%andb_prop. split; [done|].
  intros y Hy. destruct (String.eqb y x) eqn:Heq; [|done].
  apply String.eqb_eq in Heq as ->.
  assert (existsb (String.eqb x) l = true); [|congruence].
  apply existsb_exists. exists x. split; [done | apply String.eqb_refl].
Qed.

Lemma read_items name S0 items rest :
  absent name S0 = true →
  ∀ acc A o,
    forallb (λ kv, Clean.key (fst kv) && Clean.value (snd kv)) items = true →
    Clean.distinct (map fst items) = true →
    (∀ k, In k (map fst items) →
          absent k acc = true ∧ seen A name k = false) →
    Cfg.read_lines
      (reading (S0 ++ [(name, acc)]) A (Cfg.InSection name) o)
      (map item_line items ++ rest) =
    Cfg.read_lines
      (reading (S0 ++ [(name, acc ++ map pend1 items)])
         (added_after name items A) (Cfg.InSection name)
         (opt_after o items))
      rest.
Proof.
  intros HS. induction items as [|[k v] items IH]; intros acc A o Hc Hd Hfresh.
  - simpl. by rewrite app_nil_r.
  - simpl in Hc. apply andb_prop in Hc as [[Hk Hv]%andb_prop Hc].
    apply distinct_cons in Hd as [Hd Hne].
    destruct (Hfresh k) as [Hka Hks]; [by left|].
    simpl map at 1. simpl app. simpl Cfg.read_lines.
    rewrite (read_item S0 name acc A o k v) by done.
    rewrite IH; [|done|done|].
    + simpl. by rewrite <- app_assoc.
    + intros k' Hk'. destruct (Hfresh k') as [Ha Hs]; [by right|].
      pose proof (Hne k' Hk') as Hkk. split.
      * by apply absent_snoc.
      * unfold seen in *. simpl. rewrite Hs, orb_false_r.
        rewrite String.eqb_refl. simpl. exact Hkk.
Qed.

Lemma closed_snoc init k v :
  closed (init ++ [(k, v)]) = map pend1 init ++ [(k, Cfg.VLines [v; ""])].
Proof.
  induction init as [|[k' v'] init IH]; [done|].
  simpl app. simpl map. cbn [closed]. rewrite IH.
  by destruct init.
Qed.

Lemma join_closed items :
  forallb (λ kv, Clean.value (snd kv)) items = true →
  Cfg.join_options (closed items) = items.
Proof.
  induction items as [|[k v] items IH]; [done|].
  simpl forallb. intros [Hv Hi]%andb_prop.
  apply andb_prop in Hv as [_ Ht]. apply trimmed_rstrip in Ht.
  destruct items as [|kv items].
  - unfold Cfg.join_options. simpl. do 2 f_equal.
    change (Str.join nl [v; ""]) with (v +:+ nl +:+ "").
    by rewrite rstrip_app_drop.
  - change (closed ((k, v) :: kv :: items))
      with ((k, Cfg.VLines [v]) :: closed (kv :: items)).
    unfold Cfg.join_options in *. rewrite map_cons, IH by done.
    simpl. by rewrite Ht.
Qed.

Lemma distinct_snoc l k :
  Clean.distinct (l ++ [k]) = true → existsb (String.eqb k) l = false.
Proof.
  induction l as [|x l IH]; [done|]. simpl.
  rewrite existsb_app. simpl. rewrite orb_false_r, negb_orb.
  intros [[_ Hx%negb_true_iff]%andb_prop Hd]%andb_prop.
  by rewrite String.eqb_sym, Hx, IH.
Qed.

Lemma opt_after_snoc o init kv :
  opt_after o (init ++ [kv]) = Some (fst kv).
Proof. unfold opt_after. by rewrite fold_left_app. Qed.

Lemma keys_pend1 items : map fst (map pend1 items) = map fst items.
Proof. induction items as [|kv items IH]; simpl; [done | by f_equal]. Qed.

Lemma read_closing_line S0 name items A :
  absent name S0 = true →
  forallb (λ kv, Clean.key (fst kv) && Clean.value (snd kv)) items = true →
  Clean.distinct (map fst items) = true →
  Cfg.read_line
    (reading (S0 ++ [(name, map pend1 items)]) A (Cfg.InSection name)
       (opt_after None items)) "" =
    Ok (reading (S0 ++ [(name, closed items)]) A (Cfg.InSection name)
          (opt_after None items)).
Proof.
  intros HS Hc Hd.
  destruct items as [|kv0 items0] using rev_ind; [done|].
  destruct kv0 as [k v]. clear IHitems0.
  rewrite opt_after_snoc, closed_snoc, map_app. simpl map.
  rewrite forallb_app in Hc. apply andb_prop in Hc as [_ Hc].
  simpl in Hc. rewrite andb_true_r in Hc. apply andb_prop in Hc as [Hk _].
  rewrite map_app in Hd. simpl in Hd. apply distinct_snoc in Hd.
  apply read_blank_open; [done| |].
  - unfold absent. rewrite keys_pend1. cbn [fst]. by rewrite Hd.
  - destruct (key_facts _ Hk) as (c & r & -> & _). done.
Qed.

Lemma seen_added_after name items A s k :
  seen (added_after name items A) s k = true →
  s = name ∨ seen A s k = true.
Proof.
  revert A. induction items as [|[k' v'] items IH]; intros A; simpl; [auto|].
  intros [->|Hs]%IH; [by left|].
  unfold seen in Hs. simpl in Hs. apply orb_prop in Hs as [Hs|Hs]; [|auto].
  apply andb_prop in Hs as [->%String.eqb_eq _]. by left.
Qed.

Lemma read_lines_cons st l ls :
  Cfg.read_lines st (l :: ls) =
    match Cfg.read_line st l with
    | Ok st' => Cfg.read_lines st' ls
    | Raise e => (st, Some e)
    end.
Proof. reflexivity. Qed.

Lemma read_section S A cur o sec rest :
  clean_section sec = true →
  absent (fst sec) S = true →
  (∀ k, seen A (fst sec) k = false) →
  ∃ A',
    Cfg.read_lines (reading S A cur o) (section_lines sec ++ rest) =
      Cfg.read_lines
        (reading (S ++ [closed_section sec]) A' (Cfg.InSection (fst sec))
           (opt_after None (snd sec)))
        rest
    ∧ ∀ s k, seen A' s k = true → s = fst sec ∨ seen A s k = true.
Proof.
  destruct sec as [name items]. simpl fst. simpl snd.
  intros [Hn [Hc Hd]%andb_prop]%andb_prop HS Hfresh.
  exists (added_after name items (Cfg.ESection name :: A)). split.
  - unfold section_lines. simpl fst. simpl snd.
    rewrite <- app_comm_cons, read_lines_cons.
    rewrite read_header by done.
    rewrite <- app_assoc.
    rewrite (read_items name S items ([""] ++ rest) HS [] _ None Hc Hd).
    + simpl app. rewrite read_lines_cons.
      by rewrite read_closing_line.
    + intros k _. split; [done|]. unfold seen. simpl. apply Hfresh.
  - intros s k [->|Hs]%seen_added_after; [by left|]. right.
    exact Hs.
Qed.

Lemma read_sections secs :
  ∀ S A cur o,
    forallb clean_section secs = true →
    Clean.distinct (map fst secs) = true →
    (∀ n, In n (map fst secs) → absent n S = true) →
    (∀ s k, seen A s k = true → absent s S = false) →
    ∃ A' cur' o',
      Cfg.read_lines (reading S A cur o) (concat (map section_lines secs)) =
        (reading (S ++ map closed_section secs) A' cur' o', None).
Proof.
  induction secs as [|sec secs IH]; intros S A cur o Hc Hd Hnew Hinv.
  - simpl. rewrite app_nil_r. eauto.
  - simpl in Hc. apply andb_prop in Hc as [Hsec Hc].
    simpl map in Hd. apply distinct_cons in Hd as [Hd Hne].
    assert (absent (fst sec) S = true) as Habs by (apply Hnew; by left).
    destruct (read_section S A cur o sec (concat (map section_lines secs))
                Hsec Habs) as (A1 & Hrun & Hinv1).
    { intros k. destruct (seen A (fst sec) k) eqn:Hs; [|done].
      apply Hinv in Hs. congruence. }
    destruct (IH (S ++ [closed_section sec]) A1 (Cfg.InSection (fst sec))
                (opt_after None (snd sec)) Hc Hd)
      as (A' & cur' & o' & Hrest).
    + intros n Hn. rewrite absent_app, (Hnew n) by (by right).
      unfold absent. simpl. by rewrite (Hne n Hn).
    + intros s k [->|Hs]%Hinv1.
      * rewrite absent_app. unfold absent at 2. simpl.
        by rewrite String.eqb_refl, andb_false_r.
      * by rewrite absent_app, (Hinv _ _ Hs).
    + exists A', cur', o'. rewrite !map_cons, concat_cons.
      rewrite Hrun, Hrest. by rewrite <- app_assoc.
Qed.

Lemma item_line_no_linebreak kv :
  Clean.key (fst kv) && Clean.value (snd kv) = true →
  Clean.no_linebreak (item_line kv) = true.
Proof.
  destruct kv as [k v]. simpl. intros [Hk Hv]%andb_prop.
  unfold item_line. simpl. rewrite !no_linebreak_app.
  apply andb_prop in Hv as [-> _].
  destruct (key_facts _ Hk) as (_ & _ & _ & _ & _ & Hall & _).
  assert (Clean.no_linebreak k = true) as ->; [|done].
  clear Hk. induction k as [|c k IH]; [done|]. simpl in *.
  apply andb_prop in Hall as [Hc Hall]. rewrite IH by done.
  unfold Clean.key_char in Hc.
  apply andb_prop in Hc as [[[_ Hlf]%andb_prop Hcr]%andb_prop _].
  by rewrite Hlf, Hcr.
Qed.

Lemma section_lines_no_linebreak sec :
  clean_section sec = true →
  forallb Clean.no_linebreak (section_lines sec) = true.
Proof.
  destruct sec as [name items].
  intros [[[_ Hn]%andb_prop _]%andb_prop [Hc _]%andb_prop]%andb_prop.
  unfold section_lines. simpl fst in *. simpl snd in *.
  simpl. rewrite !no_linebreak_app, Hn. simpl.
  rewrite forallb_app. simpl. rewrite andb_true_r.
  induction items as [|kv items IH]; [done|]. simpl in *.
  apply andb_prop in Hc as [Hkv Hc].
  by rewrite item_line_no_linebreak, IH.
Qed.

Lemma split_unlines ls :
  forallb Clean.no_linebreak ls = true →
  Str.split_lines (Str.universal_newlines (unlines ls)) = ls.
Proof.
  induction ls as [|l ls IH]; [done|]. simpl.
  intros [Hl Hls]%andb_prop.
  rewrite universal_newlines_app, universal_newlines_nl by done.
  by rewrite split_lines_line, IH.
Qed.

Lemma write_sections_lines secs :
  forallb clean_section secs = true →
  String.concat "" (map (λ s, Cfg.write_section (fst s) (snd s)) secs) =
    unlines (concat (map section_lines secs))
  ∧ forallb Clean.no_linebreak (concat (map section_lines secs)) = true.
Proof.
  induction secs as [|[name items] secs IH]; [done|].
  intros Hall. simpl in Hall. apply andb_prop in Hall as [Hsec Hc].
  destruct (IH Hc) as [IH1 IH2].
  rewrite !map_cons, concat_empty_cons, IH1, concat_cons.
  split.
  2:{ rewrite forallb_app. apply andb_true_intro.
      split; [by apply section_lines_no_linebreak | done]. }
  rewrite unlines_app. f_equal.
  apply write_section_lines.
  apply andb_prop in Hsec as [_ [Hit _]%andb_prop]. simpl in Hit.
  clear -Hit. induction items as [|kv items IH]; [done|]. simpl in *.
  apply andb_prop in Hit as [[_ ->]%andb_prop Hit]. auto.
Qed.

(** Reading the text written for a clean configuration gives that
    configuration back, without any parsing error. *)
Lemma read_write_round_trip cfg :
  Clean.config cfg = true →
  Cfg.read_text Cfg.empty (Cfg.write cfg) = (cfg, None).
Proof.
  destruct cfg as [dflt secs]. unfold Clean.config. simpl.
  destruct dflt; [|done]. simpl.
  intros [Hc Hd]%andb_prop.
  assert (forallb clean_section secs = true) as Hsecs by exact Hc.
  destruct (write_sections_lines secs Hsecs) as [Htext Hlines].
  unfold Cfg.read_text, Cfg.write. simpl Cfg.defaults. simpl Cfg.sections.
  rewrite append_nil_l, Htext, split_unlines by done.
  destruct (read_sections secs [] [] Cfg.NoSection None Hsecs Hd)
    as (A' & cur' & o' & Hrun); [done | done |].
  change (Cfg.start_read Cfg.empty) with (reading [] [] Cfg.NoSection None).
  rewrite Hrun. simpl. f_equal. unfold Cfg.finish_read. simpl. f_equal.
  clear -Hsecs. induction secs as [|[name items] secs IH]; [done|].
  simpl in *. apply andb_prop in Hsecs as [Hs Hsecs].
  rewrite IH by done. do 2 f_equal.
  apply join_closed.
  apply andb_prop in Hs as [_ [Hit _]%andb_prop]. simpl in Hit.
  clear -Hit. induction items as [|kv items IH]; [done|]. simpl in *.
  apply andb_prop in Hit as [[_ ->]%andb_prop Hit]. auto.
Qed.
End Lines.

(** ** A path set through the panel is read back by the next session *)

Section DictSet.
Context {V : Type}.

Lemma dict_get_set k v (d : list (string * V)) :
  Cfg.dict_get k (Cfg.dict_set k v d) = Some v.
Proof.
  induction d as [|[k' v'] d IH]; simpl.
  - by rewrite String.eqb_refl.
  - destruct (String.eqb k k') eqn:Hk; simpl; by rewrite Hk.
Qed.




Lemma forallb_dict_get (Q : string * V → bool) k v (d : list (string * V)) :
  forallb Q d = true → Cfg.dict_get k d = Some v → Q (k, v) = true.
Proof.
  induction d as [|[k' v'] d IH]; [done|].
  cbn [forallb Cfg.dict_get]. intros [Hq Hd]%andb_prop.
  destruct (String.eqb k k') eqn:Hk; [|auto].
  apply String.eqb_eq in Hk as <-. by intros [= <-].
Qed.

End DictSet.

Section Persistence.
Context `{Host}.

Lemma interpolate_plain fuel map s :
  Str.contains "%" s = false →
  Cfg.interpolate_some (S fuel) map s = Ok s.
Proof.
  unfold Cfg.interpolate_some.
  induction s as [|c s IH]; [done|].
  simpl. intros [Hc Hs]%orb_false_elim.
  unfold Str.eqc in *. rewrite Ascii.eqb_sym, Hc. by rewrite IH.
Qed.

Lemma plain_head a r :
  Str.contains "%" (String a r) = false →
  Str.eqc a "%" = false ∧ Str.contains "%" r = false.
Proof.
  simpl. intros [Ha Hr]%orb_false_elim. split; [|done].
  unfold Str.eqc in *. by rewrite Ascii.eqb_sym.
Qed.

Lemma drop_escaped_step a b r :
  Str.drop_escaped_percent (String a (String b r)) =
    if Str.eqc a "%" && Str.eqc b "%" then Str.drop_escaped_percent r
    else String a (Str.drop_escaped_percent (String b r)).
Proof. reflexivity. Qed.

Lemma drop_escaped_plain s :
  Str.contains "%" s = false → Str.drop_escaped_percent s = s.
Proof.
  induction s as [|a r IH]; [done|].
  intros Hp. destruct (plain_head _ _ Hp) as [Ha Hr].
  destruct r as [|b r']; [done|].
  rewrite drop_escaped_step, Ha. simpl andb. cbv iota. by rewrite IH.
Qed.

Lemma keycre_sub_step a b r :
  Cfg.keycre_sub O (String a (String b r)) =
    if Str.eqc a "%" && Str.eqc b "(" then
      match Cfg.scan_key r EmptyString O with
      | Some (_, n) => Cfg.keycre_sub (S n) (String b r)
      | None => String a (Cfg.keycre_sub O (String b r))
      end
    else String a (Cfg.keycre_sub O (String b r)).
Proof. reflexivity. Qed.

Lemma keycre_sub_plain s :
  Str.contains "%" s = false → Cfg.keycre_sub O s = s.
Proof.
  induction s as [|a r IH]; [done|].
  intros Hp. destruct (plain_head _ _ Hp) as [Ha Hr].
  destruct r as [|b r']; [done|].
  rewrite keycre_sub_step, Ha. simpl andb. cbv iota. by rewrite IH.
Qed.

Lemma before_set_plain s :
  Str.contains "%" s = false → Cfg.before_set s = Ok s.
Proof.
  intros Hp. unfold Cfg.before_set.
  by rewrite drop_escaped_plain, keycre_sub_plain, Hp.
Qed.


End Persistence.




(** A path that ends with a space is read back without it: values are
    stripped when the file is parsed. *)
Example trailing_space_is_not_read_back :
  let P := "C:/tools/texconv.exe " in
  let set := set_texconv_location (H:=Demo.host) P Demo.world in
  let loaded := fresh_load (H:=Demo.host) (snd set) in
  fst set = Ok tt
  ∧ fst loaded = Ok tt
  ∧ config_paths_get "texconv" (snd loaded)
    = (Ok (Some "C:/tools/texconv.exe"), snd loaded).
Proof. vm_compute. auto. Qed.

(** A path with a single percent sign is refused when it is set: nothing
    is written. *)
Example single_percent_is_refused :
  set_texconv_location (H:=Demo.host) "C:/tools/100%/texconv.exe" Demo.world
  = (Raise (Exn ValueError
              "invalid interpolation syntax in C:/tools/100%/texconv.exe"),
     Demo.world).
Proof. vm_compute. reflexivity. Qed.

(** ** The paths derived from a selected file *)

Section Paths.

Lemma contains_app c a b :
  Str.contains c (a +:+ b) = Str.contains c a || Str.contains c b.
Proof.
  induction a as [|d a IH]; [done|].
  rewrite append_cons. simpl. by rewrite IH, orb_assoc.
Qed.

Lemma split_last_sep_joins p :
  fst (OsPath.split_last_sep p) +:+ snd (OsPath.split_last_sep p) = p.
Proof.
  induction p as [|c r IH]; [done|].
  cbn [OsPath.split_last_sep].
  destruct (OsPath.split_last_sep r) as [h t]. simpl in IH.
  destruct (Str.contains "/" (String c r)); cbn [fst snd];
    [by rewrite append_cons, IH | done].
Qed.

Lemma split_last_sep_tail p :
  Str.contains "/" (snd (OsPath.split_last_sep p)) = false.
Proof.
  induction p as [|c r IH]; [done|].
  cbn [OsPath.split_last_sep].
  destruct (OsPath.split_last_sep r) as [h t]. simpl in IH.
  by destruct (Str.contains "/" (String c r)) eqn:Hc.
Qed.

Lemma split_last_sep_plain t :
  Str.contains "/" t = false → OsPath.split_last_sep t = ("", t).
Proof.
  destruct t as [|c r]; [done|]. intros Hc.
  cbn [OsPath.split_last_sep]. rewrite Hc.
  by destruct (OsPath.split_last_sep r).
Qed.

Lemma split_last_sep_app a t :
  Str.contains "/" t = false →
  OsPath.split_last_sep (a +:+ "/" +:+ t) = (a +:+ "/", t).
Proof.
  intros Ht. induction a as [|c a IH].
  - change ("" +:+ "/" +:+ t) with (String "/" t).
    cbn [OsPath.split_last_sep]. rewrite (split_last_sep_plain _ Ht).
    reflexivity.
  - change (String c a +:+ "/" +:+ t) with (String c (a +:+ "/" +:+ t)).
    cbn [OsPath.split_last_sep]. rewrite IH.
    assert (Str.contains "/" (String c (a +:+ "/" +:+ t)) = true) as ->;
      [|done].
    cbn [Str.contains]. rewrite contains_app.
    change (Str.contains "/" ("/" +:+ t)) with true.
    by rewrite !orb_true_r.
Qed.

Lemma split_last_sep_head p :
  folder_prefix (fst (OsPath.split_last_sep p)).
Proof.
  induction p as [|c r IH]; [by left|].
  cbn [OsPath.split_last_sep].
  destruct (OsPath.split_last_sep r) as [h t] eqn:Hr. simpl in IH.
  destruct (Str.contains "/" (String c r)) eqn:Hc; [|by left].
  right. simpl. destruct IH as [->|[a ->]].
  - exists "". cbn [Str.contains] in Hc.
    assert (Str.contains "/" r = false) as Hr'.
    { destruct (Str.contains "/" r) eqn:Hcr; [|done].
      destruct r as [|d r']; [done|].
      cbn [OsPath.split_last_sep] in Hr. rewrite Hcr in Hr.
      by destruct (OsPath.split_last_sep r'). }
    rewrite Hr', orb_false_r in Hc. unfold Str.eqc in Hc.
    by apply Ascii.eqb_eq in Hc as <-.
  - exists (String c a). by rewrite append_cons.
Qed.

Lemma split_last_sep_folder h t :
  folder_prefix h → Str.contains "/" t = false →
  OsPath.split_last_sep (h +:+ t) = (h, t).
Proof.
  intros [->|[a ->]] Ht.
  - by apply split_last_sep_plain.
  - rewrite append_assoc. by apply split_last_sep_app.
Qed.

Lemma splitext_name_joins b t :
  fst (OsPath.splitext_name b t) +:+ snd (OsPath.splitext_name b t) = t.
Proof.
  revert b. induction t as [|c r IH]; intros b; [done|].
  cbn [OsPath.splitext_name].
  specialize (IH (b || negb (Str.eqc c "."))).
  destruct (OsPath.splitext_name (b || negb (Str.eqc c ".")) r)
    as [root ext]. simpl in IH.
  destruct ext as [|e ext].
  - destruct (Str.eqc c "." && b && negb (Str.contains "." r));
      cbn [fst snd] in *; [done | by rewrite append_cons, IH].
  - cbn [fst snd] in *. by rewrite append_cons, IH.
Qed.

Lemma splitext_joins p :
  fst (OsPath.splitext p) +:+ snd (OsPath.splitext p) = p.
Proof.
  unfold OsPath.splitext.
  pose proof (split_last_sep_joins p) as Hs.
  destruct (OsPath.split_last_sep p) as [h t]. simpl in Hs.
  pose proof (splitext_name_joins false t) as Hn.
  destruct (OsPath.splitext_name false t) as [root ext]. simpl in *.
  by rewrite append_assoc, Hn.
Qed.

Lemma splitext_name_plain b s :
  Str.contains "." s = false → OsPath.splitext_name b s = (s, "").
Proof.
  revert b. induction s as [|c r IH]; intros b; [done|].
  cbn [Str.contains]. intros [Hc Hr]%orb_false_elim.
  cbn [OsPath.splitext_name]. rewrite IH by done.
  unfold Str.eqc in *. by rewrite Ascii.eqb_sym, Hc.
Qed.

Lemma splitext_name_stem b stem ext :
  b = true ∨ has_nondot stem = true →
  Str.contains "." ext = false →
  OsPath.splitext_name b (stem +:+ "." +:+ ext) = (stem, "." +:+ ext).
Proof.
  intros Hb Hext. revert b Hb. induction stem as [|c s IH]; intros b Hb.
  - destruct Hb as [->|Hb]; [|done].
    change ("" +:+ "." +:+ ext) with (String "." ext).
    cbn [OsPath.splitext_name]. rewrite splitext_name_plain by done.
    by rewrite Hext.
  - rewrite append_cons. cbn [OsPath.splitext_name].
    rewrite IH; [done|].
    destruct Hb as [->|Hb]; [by left|].
    cbn [has_nondot] in Hb. destruct (negb (Str.eqc c ".")); simpl in *.
    + left. by rewrite orb_true_r.
    + by right.
Qed.

Lemma root_no_sep f :
  Str.contains "/"
    (fst (OsPath.splitext_name false (snd (OsPath.split_last_sep f))))
  = false.
Proof.
  pose proof (split_last_sep_tail f) as Ht.
  pose proof (splitext_name_joins false (snd (OsPath.split_last_sep f)))
    as Hj.
  rewrite <- Hj, contains_app in Ht. by apply orb_false_elim in Ht as [-> _].
Qed.

Lemma splitext_parts f :
  fst (OsPath.splitext f) =
    fst (OsPath.split_last_sep f)
    +:+ fst (OsPath.splitext_name false (snd (OsPath.split_last_sep f))).
Proof.
  unfold OsPath.splitext.
  destruct (OsPath.split_last_sep f) as [h t]. simpl.
  by destruct (OsPath.splitext_name false t).
Qed.

Lemma split_derived f suffix :
  Str.contains "/" suffix = false →
  OsPath.split_last_sep (fst (OsPath.splitext f) +:+ suffix) =
    (fst (OsPath.split_last_sep f),
     fst (OsPath.splitext_name false (snd (OsPath.split_last_sep f)))
     +:+ suffix).
Proof.
  intros Hs. rewrite splitext_parts, append_assoc.
  apply split_last_sep_folder; [apply split_last_sep_head|].
  by rewrite contains_app, root_no_sep, Hs.
Qed.

(** X1.  The two PNG paths derived from a selected file lie in the folder
    of that file, which is the output folder handed to texconv; their
    names are the name of the file without its extension, followed by
    [.png] and [_alpha.png]; and the file's path is its derived stem
    followed by its extension. *)
Theorem derived_paths_stay_beside_the_file (exe f : string) :
  let stem := fst (OsPath.splitext (OsPath.basename f)) in
  OsPath.dirname (output_png f) = OsPath.dirname f
  ∧ OsPath.dirname (output_alpha_png f) = OsPath.dirname f
  ∧ OsPath.basename (output_png f) = stem +:+ ".png"
  ∧ OsPath.basename (output_alpha_png f) = stem +:+ "_alpha.png"
  ∧ texconv_command exe f =
      [exe; "-ft"; "png"; "-o"; OsPath.dirname f; "-y"; f]
  ∧ fst (OsPath.splitext f) +:+ snd (OsPath.splitext f) = f.
Proof.
  intros stem.
  assert (stem =
            fst (OsPath.splitext_name false (snd (OsPath.split_last_sep f))))
    as Hstem.
  { subst stem. unfold OsPath.basename, OsPath.splitext.
    rewrite (split_last_sep_plain _ (split_last_sep_tail f)).
    by destruct (OsPath.splitext_name false _). }
  assert (∀ suffix, Str.contains "/" suffix = false →
            OsPath.dirname (fst (OsPath.splitext f) +:+ suffix)
            = OsPath.dirname f
            ∧ OsPath.basename (fst (OsPath.splitext f) +:+ suffix)
              = stem +:+ suffix) as Hboth.
  { intros suffix Hs. unfold OsPath.dirname, OsPath.basename.
    rewrite (split_derived f suffix Hs). simpl. by rewrite Hstem. }
  destruct (Hboth ".png") as [Hd1 Hb1]; [done|].
  destruct (Hboth "_alpha.png") as [Hd2 Hb2]; [done|].
  unfold texconv_command, output_png, output_alpha_png.
  rewrite Hd1, Hd2, Hb1, Hb2. repeat split. apply splitext_joins.
Qed.

(** X2.  For a file in a folder whose name is a stem, a dot and an
    extension, the stem holding a character other than a dot and no
    separator and the extension neither a dot nor a separator, the derived
    paths replace the extension: [stem.png] and [stem_alpha.png] in the
    same folder. *)
Theorem derived_paths_replace_the_extension (folder stem ext : string) :
  folder_prefix folder →
  Str.contains "/" stem = false →
  has_nondot stem = true →
  Str.contains "." ext = false →
  Str.contains "/" ext = false →
  output_png (folder +:+ stem +:+ "." +:+ ext) = folder +:+ stem +:+ ".png"
  ∧ output_alpha_png (folder +:+ stem +:+ "." +:+ ext)
    = folder +:+ stem +:+ "_alpha.png".
Proof.
  intros Hf Hstem Hnd Hext Hsep.
  assert (OsPath.splitext (folder +:+ stem +:+ "." +:+ ext)
          = (folder +:+ stem, "." +:+ ext)) as Hsplit.
  { unfold OsPath.splitext.
    rewrite split_last_sep_folder; [|done|].
    - rewrite splitext_name_stem; [done | by right | done].
    - by rewrite !contains_app, Hstem, Hsep. }
  unfold output_png, output_alpha_png. rewrite Hsplit. simpl.
  by rewrite !append_assoc.
Qed.

End Paths.

Lemma derived_paths_replace_the_extension_witness :
  output_png "C:/tex/leaf.v2.dds" = "C:/tex/leaf.v2.png"
  ∧ output_alpha_png "C:/tex/leaf.v2.dds" = "C:/tex/leaf.v2_alpha.png".
Proof.
  apply (derived_paths_replace_the_extension "C:/tex/" "leaf.v2" "dds");
    [right; by exists "C:/tex" | reflexivity..].
Defined.

(** ** The handlers as a whole *)

Section Handlers.
Context `{Host}.

Lemma with_events_app w a b :
  with_events (with_events w a) b = with_events w (a ++ b).
Proof. unfold with_events. simpl. by rewrite app_assoc. Qed.

Lemma emit_runs ev w : emit ev w = (Ok tt, with_events w [ev]).
Proof. reflexivity. Qed.

Lemma bc5_report_runs e w :
  (emit (EvTraceback e) >>>
   log ("Error importing BC5_SNORM DDS: " +:+ exn_str e) >>>
   show_message_box "Error Importing BC5_SNORM DDS" (exn_str e)) w
  = (Ok tt, with_events w (bc5_failure_report e)).
Proof.
  unfold bind at 1. rewrite emit_runs. unfold bind at 1. rewrite log_runs.
  unfold show_message_box. rewrite emit_runs, !with_events_app.
  reflexivity.
Qed.

Lemma lookup_raises_without_section opt w :
  Cfg.has_section (config w) "Paths" = false →
  config_paths_get opt w = (Raise (Exn KeyError "'Paths'"), w).
Proof.
  intros Hs. unfold config_paths_get, bind, get_world, Cfg.getitem.
  by rewrite Hs.
Qed.


(** X4.  The two import handlers raise only when the lookup of the tool
    path in the settings raises, and then before doing anything: with no
    [Paths] section that is [KeyError: 'Paths'].  With nothing selected
    the DDS import never looks the path up; a cancelled file dialog of the
    BC5 workflow returns before the lookup.  In every other case the
    handlers return normally, whatever the tools and the host do. *)
Theorem import_handlers_raise_only_from_the_lookup
    (w : World) (f : string) (files : list string)
    (bc5_input out_dds : string) :
  (∃ w', on_import_dds [] w = (Ok tt, w'))
  ∧ match config_paths_get "texconv" w with
    | (Raise e, _) => on_import_dds (f :: files) w = (Raise e, w)
    | (Ok _, _) => ∃ w', on_import_dds (f :: files) w = (Ok tt, w')
    end
  ∧ match config_paths_get "bcdecode" w with
    | (Raise e, _) =>
        if Str.truthy bc5_input && Str.truthy out_dds
        then on_import_bc5 bc5_input out_dds w = (Raise e, w)
        else ∃ w', on_import_bc5 bc5_input out_dds w = (Ok tt, w')
    | (Ok _, _) => ∃ w', on_import_bc5 bc5_input out_dds w = (Ok tt, w')
    end
  ∧ (if Cfg.has_section (config w) "Paths" then True
     else ∀ opt,
       config_paths_get opt w = (Raise (Exn KeyError "'Paths'"), w)).
Proof.
  split; [|split; [|split]].
  - eexists. apply log_runs.
  - destruct (config_paths_get "texconv" w) as [[v|e] w1] eqn:Hget;
      pose proof (config_paths_get_pure _ _ _ _ Hget) as ->;
      unfold on_import_dds; unfold bind at 1; rewrite Hget; [|done].
    unfold bind at 1, get_world.
    destruct (falsy v || negb (path_isfile w (default "" v))).
    + eexists. apply log_runs.
    + destruct (batch_runs (default "" v) (f :: files) w) as (w' & Hrun & _).
      eauto.
  - assert (Str.truthy bc5_input && Str.truthy out_dds = false →
            ∃ w', on_import_bc5 bc5_input out_dds w = (Ok tt, w')) as Hquit.
    { unfold on_import_bc5.
      destruct (Str.truthy bc5_input); cbn [negb andb]; [|by eexists].
      destruct (Str.truthy out_dds); cbn [negb]; [done | by eexists]. }
    destruct (Str.truthy bc5_input && Str.truthy out_dds) eqn:Hchosen.
    2:{ destruct (config_paths_get "bcdecode" w) as [[v|e] w1]; auto. }
    apply andb_prop in Hchosen as [Hin Hout]. clear Hquit.
    destruct (config_paths_get "bcdecode" w) as [[v|e] w1] eqn:Hget;
      pose proof (config_paths_get_pure _ _ _ _ Hget) as ->;
      unfold on_import_bc5; rewrite Hin, Hout; cbn [negb];
      unfold bind at 1; rewrite Hget; [|done].
    unfold bind at 1, get_world.
    destruct (falsy v || negb (path_isfile w (default "" v))).
    { eexists. apply log_runs. }
    unfold try_except, any_exception.
    match goal with
    | |- ∃ w', match ?body ?w0 with _ => _ end = _ =>
        destruct (body w0) as [[[]|e] w2]
    end.
    + eauto.
    + rewrite bc5_report_runs. eauto.
  - destruct (Cfg.has_section (config w) "Paths") eqn:Hs; [done|].
    intros opt. by apply lookup_raises_without_section.
Qed.

Lemma boxes_quiet t evs :
  Forall (λ ev, match ev with EvMessageBox _ _ => False | _ => True end) evs →
  message_boxes (t ++ evs) = message_boxes t.
Proof.
  intros Hall. unfold message_boxes. rewrite omap_app.
  assert (omap (λ ev, match ev with
                      | EvMessageBox a b => Some (a, b) | _ => None end)
            evs = []) as ->; [|by rewrite app_nil_r].
  induction Hall as [|ev l Hev _ IH]; [done|].
  destruct ev; simpl in *; try done.
Qed.


End Handlers.



(** ** Setting and saving the tool paths *)

Section Settings.
Context `{Host}.


Lemma save_config_saves w :
  writable w CONFIG_FILE = true →
  save_config w =
    (Ok tt, with_file w CONFIG_FILE (FileText (Cfg.write (config w)))).
Proof.
  intros Hw. unfold save_config, try_except, bind, get_world.
  by rewrite (write_file_ok _ _ _ Hw).
Qed.

Lemma save_config_logs w :
  writable w CONFIG_FILE = false →
  ∃ msg,
    save_config w =
      (Ok tt,
       with_events w (logged ("Failed to save configuration: " +:+ msg))).
Proof.
  intros Hw. unfold save_config, try_except, bind, get_world.
  destruct (write_file _ _ w) as [r w1] eqn:Hwr.
  destruct (write_file_inv _ _ _ _ _ Hwr)
    as [(Hw' & _) | (_ & -> & msg & ->)]; [congruence|].
  exists msg. cbn [isinstance exn_class subclass ExnClass_eqb orb exn_str].
  apply log_runs.
Qed.

Lemma config_paths_set_runs opt value w :
  config_paths_set opt value w =
    match Cfg.proxy_setitem (config w) "Paths" opt value with
    | Ok c => (Ok tt, with_settings w c)
    | Raise e => (Raise e, w)
    end.
Proof.
  unfold config_paths_set, bind, get_world, lift.
  by destruct (Cfg.proxy_setitem (config w) "Paths" opt value).
Qed.


Lemma proxy_setitem_refused c opt value e :
  Cfg.has_section c "Paths" = true →
  Cfg.before_set value = Raise e →
  Cfg.proxy_setitem c "Paths" opt value = Raise e.
Proof.
  intros Hs Hb. unfold Cfg.proxy_setitem, Cfg.getitem. rewrite Hs.
  cbn [negb andb]. unfold Cfg.set.
  destruct (Str.truthy value) eqn:Ht; [by rewrite Hb|].
  destruct value; [|done]. vm_compute in Hb. done.
Qed.



Lemma get_after_update c opt P (w : World) :
  Cfg.has_section c "Paths" = true →
  Str.contains "%" P = false →
  config w = paths_updated c (Str.lower opt) P →
  config_paths_get opt w = (Ok (Some P), w).
Proof.
  intros Hs Hp Hc.
  unfold config_paths_get, bind, get_world, lift.
  unfold Cfg.getitem, Cfg.has_section, Cfg.dict_has, Cfg.proxy_get.
  rewrite Hc. unfold paths_updated.
  unfold Cfg.has_section, Cfg.dict_has in Hs.
  destruct (Cfg.dict_get "Paths" (Cfg.sections c)) as [sect|]; [|done].
  cbn [Cfg.sections Cfg.defaults]. rewrite dict_get_set. cbn [negb andb].
  unfold Cfg.chain. rewrite dict_get_set.
  change Cfg.MAX_INTERPOLATION_DEPTH with (S 9).
  by rewrite interpolate_plain.
Qed.


Lemma load_saved c w2 :
  Clean.config c = true →
  fs w2 !! CONFIG_FILE = Some (FileText (Cfg.write c)) →
  fresh_load w2 = (Ok tt, with_settings w2 c).
Proof.
  intros Hc Hfile.
  unfold fresh_load, load_config, bind, set_config, get_world, path_exists.
  cbn [fs config trace]. rewrite Hfile. cbn [negb].
  unfold ret, config_read. cbn [fs config trace]. rewrite Hfile.
  by rewrite (read_write_round_trip _ Hc).
Qed.

(** X6.  Saving and loading are inverse on ordinary settings: when the
    configuration in memory has no [DEFAULT] entries and only single-line,
    trimmed values under plain lower-case keys, and the settings file can
    be written, [save_config] writes it and a new session that finds this
    file, whatever else is on its disk, loads exactly that
    configuration. *)
Theorem saved_settings_are_loaded_back (w : World) :
  Clean.config (config w) = true →
  writable w CONFIG_FILE = true →
  let w1 := with_file w CONFIG_FILE (FileText (Cfg.write (config w))) in
  save_config w = (Ok tt, w1)
  ∧ ∀ w2, fs w2 !! CONFIG_FILE = fs w1 !! CONFIG_FILE →
      fresh_load w2 = (Ok tt, with_settings w2 (config w)).
Proof.
  intros Hc Hw w1. split; [by apply save_config_saves|].
  intros w2 Hfile. apply load_saved; [done|].
  rewrite Hfile. subst w1. unfold with_file. cbn [fs].
  apply lookup_insert_eq.
Qed.



Lemma drop_escaped_single a b :
  Str.contains "%" a = false →
  Str.contains "%" b = false →
  Str.drop_escaped_percent (a +:+ "%" +:+ b) = a +:+ "%" +:+ b.
Proof.
  intros Ha Hb. induction a as [|x a IH].
  - change ("" +:+ "%" +:+ b) with (String "%" b).
    destruct b as [|y b']; [done|].
    destruct (plain_head _ _ Hb) as [Hy Hb'].
    rewrite drop_escaped_step, Hy, andb_false_r.
    by rewrite (drop_escaped_plain _ Hb).
  - destruct (plain_head _ _ Ha) as [Hx Ha'].
    specialize (IH Ha').
    change (String x a +:+ "%" +:+ b) with (String x (a +:+ "%" +:+ b)).
    destruct (a +:+ "%" +:+ b) as [|y r] eqn:Hr; [done|].
    by rewrite drop_escaped_step, Hx, IH.
Qed.

Lemma keycre_sub_single a b :
  Str.contains "%" a = false →
  Str.contains "%" b = false →
  Str.startswith "(" b = false →
  Cfg.keycre_sub O (a +:+ "%" +:+ b) = a +:+ "%" +:+ b.
Proof.
  intros Ha Hb Hparen. induction a as [|x a IH].
  - change ("" +:+ "%" +:+ b) with (String "%" b).
    destruct b as [|y b']; [done|].
    rewrite keycre_sub_step.
    assert (Str.eqc y "(" = false) as ->.
    { unfold Str.startswith in Hparen. rewrite andb_true_r in Hparen.
      unfold Str.eqc in *. by rewrite Ascii.eqb_sym. }
    rewrite andb_false_r. by rewrite (keycre_sub_plain _ Hb).
  - destruct (plain_head _ _ Ha) as [Hx Ha'].
    specialize (IH Ha').
    change (String x a +:+ "%" +:+ b) with (String x (a +:+ "%" +:+ b)).
    destruct (a +:+ "%" +:+ b) as [|y r] eqn:Hr; [done|].
    by rewrite keycre_sub_step, Hx, IH.
Qed.

(** X9.  A path with a single percent sign that is not followed by an
    opening parenthesis is refused by both setters: the [ValueError] of
    the interpolation check leaves the handler, and nothing was stored,
    written or logged. *)
Theorem single_percent_path_is_refused (a b : string) (w : World) :
  Cfg.has_section (config w) "Paths" = true →
  Str.contains "%" a = false →
  Str.contains "%" b = false →
  Str.startswith "(" b = false →
  ∃ e,
    exn_class e = ValueError
    ∧ set_texconv_location (a +:+ "%" +:+ b) w = (Raise e, w)
    ∧ set_bcdecode_location (a +:+ "%" +:+ b) w = (Raise e, w).
Proof.
  intros Hs Ha Hb Hparen.
  assert (Str.contains "%" (a +:+ "%" +:+ b) = true) as Hhas.
  { rewrite contains_app. change (Str.contains "%" ("%" +:+ b)) with true.
    apply orb_true_r. }
  assert (Str.truthy (a +:+ "%" +:+ b) = true) as Ht.
  { by destruct (a +:+ "%" +:+ b). }
  assert (∃ e, exn_class e = ValueError
               ∧ Cfg.before_set (a +:+ "%" +:+ b) = Raise e) as (e & He & Hb').
  { unfold Cfg.before_set.
    rewrite drop_escaped_single, keycre_sub_single, Hhas by done.
    eexists. split; [|reflexivity]. reflexivity. }
  exists e. split; [done|].
  unfold set_texconv_location, set_bcdecode_location. rewrite Ht.
  unfold bind at 1 3.
  by rewrite !config_paths_set_runs, !(proxy_setitem_refused _ _ _ _ Hs Hb').
Qed.

Lemma save_config_frame w :
  ∃ w1, save_config w = (Ok tt, w1)
        ∧ config w1 = config w
        ∧ (∀ p, p ≠ CONFIG_FILE → fs w1 !! p = fs w !! p)
        ∧ grows_by only_log w w1.
Proof.
  destruct (writable w CONFIG_FILE) eqn:Hw.
  - eexists. split; [by apply save_config_saves|].
    split; [done|]. split.
    + intros p Hp. unfold with_file. cbn [fs]. by apply lookup_insert_ne.
    + exists []. by rewrite app_nil_r.
  - destruct (save_config_logs w Hw) as [msg ->].
    eexists. split; [done|]. split; [done|]. split; [done|].
    eexists. split; [done|]. repeat constructor.
Qed.

Lemma store_frame opt P line w r w' :
  (config_paths_set opt P >>> save_config >>> log line) w = (r, w') →
  (∀ p, p ≠ CONFIG_FILE → fs w' !! p = fs w !! p)
  ∧ grows_by only_log w w'.
Proof.
  unfold bind at 1. rewrite config_paths_set_runs.
  destruct (Cfg.proxy_setitem (config w) "Paths" opt P) as [c|e].
  2:{ intros [= <- <-]. split; [done|]. exists []. by rewrite app_nil_r. }
  unfold bind at 1.
  destruct (save_config_frame (with_settings w c))
    as (w1 & -> & _ & Hfs & added & Htr & Hall).
  rewrite log_runs. intros [= <- <-]. split; [exact Hfs|].
  exists (added ++ logged line). split.
  - unfold with_events. cbn [trace]. rewrite Htr. cbn [trace with_settings].
    by rewrite app_assoc.
  - apply Forall_app. split; [done | repeat constructor].
Qed.

(** X10.  Whatever path the dialog returns, the two setters change no
    file other than the settings file and show nothing but log lines: no
    subprocess, no host import, no message box.  When the dialog was
    cancelled they leave the configuration and every file as they
    were. *)
Theorem location_setters_touch_only_the_settings_file
    (P : string) (w : World) :
  let w1 := snd (set_texconv_location P w) in
  let w2 := snd (set_bcdecode_location P w) in
  (∀ p, p ≠ CONFIG_FILE →
        fs w1 !! p = fs w !! p ∧ fs w2 !! p = fs w !! p)
  ∧ grows_by only_log w w1
  ∧ grows_by only_log w w2
  ∧ (if Str.truthy P then True
     else fst (set_texconv_location P w) = Ok tt
          ∧ fst (set_bcdecode_location P w) = Ok tt
          ∧ config w1 = config w ∧ fs w1 = fs w
          ∧ config w2 = config w ∧ fs w2 = fs w).
Proof.
  intros w1 w2. subst w1 w2.
  unfold set_texconv_location, set_bcdecode_location.
  destruct (Str.truthy P).
  - destruct (store_frame "texconv" P ("texconv location set to: " +:+ P)
                w _ _ (surjective_pairing _)) as [Hf1 Hg1].
    destruct (store_frame "bcdecode" P ("bcdecode location set to: " +:+ P)
                w _ _ (surjective_pairing _)) as [Hf2 Hg2].
    repeat split; auto.
  - rewrite !log_runs. cbn [fst snd].
    repeat split; try done;
      eexists; (split; [reflexivity | repeat constructor]).
Qed.

End Settings.

Lemma saved_settings_are_loaded_back_witness :
  let w1 :=
    with_file Demo.world (CONFIG_FILE (Host:=Demo.host))
      (FileText (Cfg.write Demo.tools)) in
  save_config (H:=Demo.host) Demo.world = (Ok tt, w1)
  ∧ ∀ w2,
      fs w2 !! CONFIG_FILE (Host:=Demo.host)
      = fs w1 !! CONFIG_FILE (Host:=Demo.host) →
      fresh_load (H:=Demo.host) w2 = (Ok tt, with_settings w2 Demo.tools).
Proof.
  apply (saved_settings_are_loaded_back (H:=Demo.host) Demo.world);
    vm_compute; reflexivity.
Defined.



Lemma single_percent_path_is_refused_witness :
  ∃ e,
    exn_class e = ValueError
    ∧ set_texconv_location (H:=Demo.host)
        ("C:/tools/100" +:+ "%" +:+ "/texconv.exe") Demo.world
      = (Raise e, Demo.world)
    ∧ set_bcdecode_location (H:=Demo.host)
        ("C:/tools/100" +:+ "%" +:+ "/texconv.exe") Demo.world
      = (Raise e, Demo.world).
Proof.
  apply (single_percent_path_is_refused (H:=Demo.host) "C:/tools/100"
           "/texconv.exe" Demo.world);
    vm_compute; reflexivity.
Defined.

(** ** Starting the plugin *)

Section Startup.
Context `{Host}.

Lemma init_after_load w :
  init w =
    match fresh_load w with
    | (Ok _, w1) =>
        (display_initial_info >>> check_pillow_installation) w1
    | (Raise e, w1) => (Raise e, w1)
    end.
Proof. reflexivity. Qed.

Lemma report_runs w t b :
  config_paths_get "texconv" w = (Ok t, w) →
  config_paths_get "bcdecode" w = (Ok b, w) →
  (display_initial_info >>> check_pillow_installation) w =
    (Ok tt,
     with_events w
       (startup_report (default "Not set" t) (default "Not set" b))).
Proof.
  intros Ht Hb. unfold display_initial_info, check_pillow_installation.
  unfold bind at 1 2. rewrite Ht. unfold bind at 1. rewrite Hb.
  unfold bind at 1. rewrite log_runs. rewrite !log_runs.
  by rewrite !with_events_app.
Qed.

Lemma load_existing text w :
  fs w !! CONFIG_FILE = Some (FileText text) →
  fresh_load w =
    (match snd (Cfg.read_text Cfg.empty text) with
     | Some e => Raise e
     | None => Ok tt
     end,
     with_settings w (fst (Cfg.read_text Cfg.empty text))).
Proof.
  intros Hfile.
  unfold fresh_load, load_config, bind, set_config, get_world, path_exists.
  cbn [fs config trace]. rewrite Hfile. cbn [negb].
  unfold ret, config_read. cbn [fs config trace]. rewrite Hfile.
  by destruct (Cfg.read_text Cfg.empty text) as [c [e|]].
Qed.

Lemma get_plain opt sect (w : World) :
  Cfg.defaults (config w) = [] →
  Cfg.dict_get "Paths" (Cfg.sections (config w)) = Some sect →
  forallb (λ kv, negb (Str.contains "%" (snd kv))) sect = true →
  config_paths_get opt w = (Ok (Cfg.dict_get (Str.lower opt) sect), w).
Proof.
  intros Hd Hsect Hplain.
  unfold config_paths_get, bind, get_world, lift.
  unfold Cfg.getitem, Cfg.has_section, Cfg.dict_has, Cfg.proxy_get.
  rewrite Hsect, Hd. cbn [negb andb]. unfold Cfg.chain.
  destruct (Cfg.dict_get (Str.lower opt) sect) as [v|] eqn:Hv; [|done].
  change Cfg.MAX_INTERPOLATION_DEPTH with (S 9).
  rewrite interpolate_plain; [done|].
  pose proof (forallb_dict_get _ _ _ _ Hplain Hv) as Hq. simpl in Hq.
  by apply negb_true_iff.
Qed.

(** X11.  A session that starts on a settings file written from ordinary
    settings loads them, leaves every file as it is, and logs the
    texconv location, the bcdecode location and that Pillow is installed,
    in this order; a tool with no entry in the [Paths] section is shown
    as "Not set". *)
Theorem init_reports_the_saved_paths
    (cfg : Cfg.ConfigParser) (sect : Cfg.Options) (w : World) :
  fs w !! CONFIG_FILE = Some (FileText (Cfg.write cfg)) →
  Clean.config cfg = true →
  Cfg.dict_get "Paths" (Cfg.sections cfg) = Some sect →
  forallb (λ kv, negb (Str.contains "%" (snd kv))) sect = true →
  let shown opt := default "Not set" (Cfg.dict_get opt sect) in
  init w =
    (Ok tt,
     with_events (with_settings w cfg)
       (startup_report (shown "texconv") (shown "bcdecode"))).
Proof.
  intros Hfile Hclean Hsect Hplain shown.
  rewrite init_after_load, (load_existing _ _ Hfile).
  rewrite (read_write_round_trip _ Hclean). cbn [fst snd].
  assert (Cfg.defaults cfg = []) as Hd.
  { unfold Clean.config in Hclean. by destruct (Cfg.defaults cfg). }
  by rewrite (report_runs (with_settings w cfg)
                (Cfg.dict_get "texconv" sect) (Cfg.dict_get "bcdecode" sect))
    by (by apply get_plain).
Qed.

(** X12.  A session that starts on a settings file which parses without
    error but has no section named [Paths] does not come up: the
    constructor raises [KeyError: 'Paths'] at the first lookup, with the
    file's content loaded, nothing logged and no default written. *)
Theorem init_needs_the_paths_section
    (text : string) (cfg : Cfg.ConfigParser) (w : World) :
  fs w !! CONFIG_FILE = Some (FileText text) →
  Cfg.read_text Cfg.empty text = (cfg, None) →
  Cfg.has_section cfg "Paths" = false →
  init w = (Raise (Exn KeyError "'Paths'"), with_settings w cfg).
Proof.
  intros Hfile Hread Hs.
  rewrite init_after_load, (load_existing _ _ Hfile), Hread. cbn [fst snd].
  unfold display_initial_info. unfold bind at 1 2.
  by rewrite lookup_raises_without_section.
Qed.

Lemma read_skipped st l :
  Cfg.st_cursect st = Cfg.NoSection →
  skipped l = true →
  Cfg.read_line st l = Ok st.
Proof.
  intros Hcur Hskip. unfold Cfg.read_line. unfold skipped in Hskip.
  destruct (Cfg.is_comment l); [done|]. simpl in Hskip.
  rewrite Hskip. f_equal.
  unfold Cfg.append_line.
  destruct (Cfg.st_optname st) as [k|]; [|done].
  destruct (Str.truthy k); [|done].
  unfold Cfg.cursect_get. by rewrite Hcur.
Qed.

Lemma read_orphan st l :
  Cfg.st_cursect st = Cfg.NoSection →
  orphan l = true →
  ∃ e, exn_class e = ConfigParserError ∧ Cfg.read_line st l = Raise e.
Proof.
  intros Hcur [Hskip Hsec]%andb_prop.
  apply negb_true_iff in Hskip. unfold skipped in Hskip.
  apply orb_false_elim in Hskip as [Hcom Hval%negb_false_iff].
  unfold Cfg.read_line. rewrite Hcom, Hval. cbn [negb].
  unfold Cfg.continuing. rewrite Hcur. cbn [andb].
  destruct (Cfg.match_section (Str.strip l)); [done|].
  eexists. split; [|reflexivity]. reflexivity.
Qed.

Lemma read_lines_orphan st pre l rest :
  Cfg.st_cursect st = Cfg.NoSection →
  forallb skipped pre = true →
  orphan l = true →
  ∃ e, exn_class e = ConfigParserError
       ∧ Cfg.read_lines st (pre ++ l :: rest) = (st, Some e).
Proof.
  intros Hcur Hpre Hl. induction pre as [|p pre IH].
  - destruct (read_orphan st l Hcur Hl) as (e & He & Hrun).
    exists e. split; [done|]. simpl app. by rewrite read_lines_cons, Hrun.
  - simpl in Hpre. apply andb_prop in Hpre as [Hp Hpre].
    destruct (IH Hpre) as (e & He & Hrun).
    exists e. split; [done|].
    rewrite <- app_comm_cons, read_lines_cons.
    by rewrite (read_skipped st p Hcur Hp).
Qed.

(** X13.  A session that starts on a settings file in which a line that
    is neither blank, nor a comment, nor a section header comes before
    every section header does not come up: reading the file raises a
    [configparser] error, nothing is loaded and nothing is logged. *)
Theorem init_rejects_text_before_a_header
    (pre : list string) (l : string) (rest : list string) (w : World) :
  fs w !! CONFIG_FILE = Some (FileText (unlines (pre ++ l :: rest))) →
  forallb Clean.no_linebreak (pre ++ l :: rest) = true →
  forallb skipped pre = true →
  orphan l = true →
  ∃ e, exn_class e = ConfigParserError
       ∧ init w = (Raise e, with_settings w Cfg.empty).
Proof.
  intros Hfile Hlines Hpre Hl.
  destruct (read_lines_orphan (Cfg.start_read Cfg.empty) pre l rest
              eq_refl Hpre Hl) as (e & He & Hrun).
  exists e. split; [done|].
  rewrite init_after_load, (load_existing _ _ Hfile).
  unfold Cfg.read_text. rewrite (split_unlines _ Hlines), Hrun.
  reflexivity.
Qed.



End Startup.

Lemma init_reports_the_saved_paths_witness :
  let w := Saved.start (Cfg.write Demo.tools) in
  init (H:=Demo.host) w =
    (Ok tt,
     with_events (with_settings w Demo.tools)
       (startup_report "C:/tools/texconv.exe" "C:/tools/bcdecode.exe")).
Proof.
  apply (init_reports_the_saved_paths (H:=Demo.host) Demo.tools
           [("texconv", "C:/tools/texconv.exe");
            ("bcdecode", "C:/tools/bcdecode.exe")]
           (Saved.start (Cfg.write Demo.tools)));
    vm_compute; reflexivity.
Defined.

(** The section header is spelled [paths]. *)
Lemma init_needs_the_paths_section_witness :
  init (H:=Demo.host) (Saved.start Saved.misspelled) =
    (Raise (Exn KeyError "'Paths'"),
     with_settings (Saved.start Saved.misspelled)
       {| Cfg.defaults := [];
          Cfg.sections :=
            [("paths", [("texconv", "C:/tools/texconv.exe")])] |}).
Proof.
  apply (init_needs_the_paths_section (H:=Demo.host) Saved.misspelled);
    vm_compute; reflexivity.
Defined.

(** The header was lost: the file starts with a comment, an empty line
    and an option. *)
Lemma init_rejects_text_before_a_header_witness :
  let lines :=
    ["# DDS importer"; ""] ++ "texconv = C:/tools/texconv.exe"
    :: ["bcdecode = C:/tools/bcdecode.exe"] in
  ∃ e, exn_class e = ConfigParserError
       ∧ init (H:=Demo.host) (Saved.start (unlines lines))
         = (Raise e, with_settings (Saved.start (unlines lines)) Cfg.empty).
Proof.
  apply (init_rejects_text_before_a_header (H:=Demo.host)
           ["# DDS importer"; ""] "texconv = C:/tools/texconv.exe"
           ["bcdecode = C:/tools/bcdecode.exe"]);
    vm_compute; reflexivity.
Defined.


(** ** The image steps on the files they find *)

Section Images.
Context `{Host}.

Lemma alpha_test img :
  PIL.Mode_eqb (PIL.mode img) PIL.RGBA
  || PIL.Mode_eqb (PIL.mode img) PIL.LA
  || PIL.has_band "A" img = PIL.has_band "A" img.
Proof. unfold PIL.has_band, PIL.getbands. by destruct (PIL.mode img). Qed.

Lemma extract_on_image input out img w :
  fs w !! input = Some (FileImage img) →
  extract_alpha_channel input out w =
    match PIL.index_of "A" (PIL.getbands img) with
    | None => (Ok false, w)
    | Some i =>
        match write_file out (FileImage (alpha_of i img)) w with
        | (Ok _, w1) => (Ok true, w1)
        | (Raise e, w1) => (Raise e, w1)
        end
    end.
Proof.
  intros Hfile. unfold extract_alpha_channel, try_except, bind, Image_open.
  rewrite Hfile, alpha_test. unfold PIL.has_band, PIL.getchannel.
  destruct (PIL.index_of "A" (PIL.getbands img)) as [i|]; [|done].
  cbn [lift ret]. unfold Image_save. fold (alpha_of i img).
  destruct (write_file out (FileImage (alpha_of i img)) w)
    as [[[]|e] w1] eqn:Hwr; [done|].
  destruct (write_file_inv _ _ _ _ _ Hwr)
    as [(_ & ? & _) | (_ & _ & msg & Hr)]; [done|].
  by inversion Hr.
Qed.

Lemma remove_on_image input img w :
  fs w !! input = Some (FileImage img) →
  remove_alpha_channel input w =
    if PIL.Mode_eqb (PIL.mode img) PIL.RGBA then
      match write_file input (FileImage (PIL.convert_RGB img)) w with
      | (Ok _, w1) => (Ok tt, w1)
      | (Raise e, w1) => (Raise e, w1)
      end
    else (Ok tt, w).
Proof.
  intros Hfile. unfold remove_alpha_channel, try_except, bind, Image_open.
  rewrite Hfile. destruct (PIL.Mode_eqb (PIL.mode img) PIL.RGBA); [|done].
  unfold Image_save.
  destruct (write_file input (FileImage (PIL.convert_RGB img)) w)
    as [[[]|e] w1] eqn:Hwr; [done|].
  destruct (write_file_inv _ _ _ _ _ Hwr)
    as [(_ & ? & _) | (_ & _ & msg & Hr)]; [done|].
  by inversion Hr.
Qed.



Lemma take_3_nth_3 {A} (l : list A) (d : A) :
  length l = 4%nat → take 3 l ++ [nth 3 l d] = l.
Proof.
  destruct l as [|a [|b [|c [|x [|y l]]]]]; try discriminate. done.
Qed.

(** X17.  Extraction followed by removal splits the image without losing
    a band.  After both steps returned normally on an image file, with
    the extraction returning true, the output file is an [L] image and
    the input file an image of the same size, and no other file changed.
    For an RGBA image with its four bands, the colour bands left in the
    input file followed by the band of the output file are the four bands
    of the original; an image of any other mode with an A band (LA, PA)
    is left in the input file as it was, alpha band included. *)
Theorem alpha_split_loses_no_band
    (png out : string) (img : PIL.Image) (w w1 w2 : World) :
  fs w !! png = Some (FileImage img) →
  png ≠ out →
  extract_alpha_channel png out w = (Ok true, w1) →
  remove_alpha_channel png w1 = (Ok tt, w2) →
  ∃ alpha rest,
    fs w2 !! out = Some (FileImage alpha)
    ∧ fs w2 !! png = Some (FileImage rest)
    ∧ PIL.mode alpha = PIL.L
    ∧ PIL.size alpha = PIL.size img
    ∧ PIL.size rest = PIL.size img
    ∧ (∀ p, p ≠ png → p ≠ out → fs w2 !! p = fs w !! p)
    ∧ match PIL.mode img with
      | PIL.RGBA =>
          PIL.mode rest = PIL.RGB
          ∧ (length (PIL.bands img) = 4%nat →
             PIL.bands rest ++ PIL.bands alpha = PIL.bands img)
      | _ => rest = img
      end.
Proof.
  intros Hfile Hne Hx Hr.
  rewrite (extract_on_image _ _ _ _ Hfile) in Hx.
  destruct (PIL.index_of "A" (PIL.getbands img)) as [i|] eqn:Hi; [|done].
  destruct (write_file out (FileImage (alpha_of i img)) w)
    as [r1 w1'] eqn:Hwr.
  destruct (write_file_inv _ _ _ _ _ Hwr)
    as [(_ & -> & ->) | (_ & -> & msg & ->)]; [|done].
  injection Hx as <-.
  assert (fs (with_file w out (FileImage (alpha_of i img))) !! png
          = Some (FileImage img)) as Hfile1.
  { unfold with_file. cbn [fs]. by rewrite lookup_insert_ne. }
  rewrite (remove_on_image _ _ _ Hfile1) in Hr.
  exists (alpha_of i img).
  destruct (PIL.mode img) eqn:Hmode; cbn [PIL.Mode_eqb] in Hr;
    try (injection Hr as <-; exists img;
         split; [apply lookup_insert_eq|];
         split; [exact Hfile1|];
         repeat split; try done;
         intros p _ Hp; unfold with_file; cbn [fs];
         by rewrite lookup_insert_ne).
  destruct (write_file png (FileImage (PIL.convert_RGB img)) _)
    as [r2 w2'] eqn:Hwr2.
  destruct (write_file_inv _ _ _ _ _ Hwr2)
    as [(_ & -> & ->) | (_ & -> & msg & ->)]; [|done].
  injection Hr as <-.
  exists (PIL.convert_RGB img). unfold with_file. cbn [fs].
  split; [by rewrite lookup_insert_ne, lookup_insert_eq|].
  split; [apply lookup_insert_eq|].
  repeat split; try done.
  - intros p Hp Hp'. by rewrite !lookup_insert_ne.
  - intros Hlen. unfold PIL.getbands in Hi. rewrite Hmode in Hi.
    injection Hi as <-. by apply take_3_nth_3.
Qed.

End Images.


Lemma alpha_split_loses_no_band_witness :
  let w :=
    with_file Demo.world "C:/tex/leaf.png" (FileImage Demo.leaf_rgba) in
  let w1 :=
    snd (extract_alpha_channel (H:=Demo.host) "C:/tex/leaf.png"
           "C:/tex/leaf_alpha.png" w) in
  let w2 := snd (remove_alpha_channel (H:=Demo.host) "C:/tex/leaf.png" w1) in
  ∃ alpha rest,
    fs w2 !! "C:/tex/leaf_alpha.png" = Some (FileImage alpha)
    ∧ fs w2 !! "C:/tex/leaf.png" = Some (FileImage rest)
    ∧ PIL.mode alpha = PIL.L
    ∧ PIL.size alpha = PIL.size Demo.leaf_rgba
    ∧ PIL.size rest = PIL.size Demo.leaf_rgba
    ∧ (∀ p, p ≠ "C:/tex/leaf.png" → p ≠ "C:/tex/leaf_alpha.png" →
            fs w2 !! p = fs w !! p)
    ∧ PIL.mode rest = PIL.RGB
    ∧ (length (PIL.bands Demo.leaf_rgba) = 4%nat →
       PIL.bands rest ++ PIL.bands alpha = PIL.bands Demo.leaf_rgba).
Proof.
  intros w w1 w2.
  apply (alpha_split_loses_no_band (H:=Demo.host) "C:/tex/leaf.png"
           "C:/tex/leaf_alpha.png" Demo.leaf_rgba w w1 w2);
    [vm_compute; reflexivity | discriminate | vm_compute; reflexivity..].
Defined.

(** ** The conversion of one file, end to end *)

Section Pipeline.
Context `{Host}.

Lemma convert_runs exe f w0 cp files :
  subprocess_run
    (with_events w0
       [EvPrint ("Running texconv command: "
                 +:+ Str.join " " (texconv_command exe f))])
    (texconv_command exe f) = inr (cp, files) →
  returncode cp = 0 →
  convert_dds_to_png exe f (output_png f) w0 =
    (Ok tt,
     {| fs := files; config := config w0;
        trace := (trace w0
                  ++ [EvPrint ("Running texconv command: "
                               +:+ Str.join " " (texconv_command exe f))])
                 ++ [EvSubprocess (texconv_command exe f)] |}).
Proof.
  intros Hrun Hcode.
  unfold convert_dds_to_png, try_except, bind, emit, run_subprocess.
  fold (texconv_command exe f). unfold with_events in Hrun.
  cbn [fs config trace]. rewrite Hrun. cbn [fs config trace].
  by rewrite Hcode.
Qed.

Lemma import_line_shelf w p : shelf_line p (import_line w p).
Proof.
  unfold shelf_line, import_line.
  destruct (import_session_resource w p (OsPath.basename p)); eauto.
Qed.

Lemma lines_quiet t evs :
  Forall (λ ev, match ev with EvLogWindow _ => False | _ => True end) evs →
  log_lines (t ++ evs) = log_lines t.
Proof.
  intros Hall. unfold log_lines. rewrite omap_app.
  assert (omap (λ ev, match ev with EvLogWindow m => Some m | _ => None end)
            evs = []) as ->; [|by rewrite app_nil_r].
  induction Hall as [|ev l Hev _ IH]; [done|].
  destruct ev; simpl in *; try done.
Qed.

(** The rest of the pipeline once the PNG and, for [extracted], the
    alpha PNG are in place. *)
Lemma pipeline_tail f (w : World) :
  ∃ line1 line2,
    shelf_line (output_png f) line1
    ∧ shelf_line (output_alpha_png f) line2
    ∧ (log ("Converted to: " +:+ output_png f) >>>
       import_to_shelf (output_png f) >>>
       let* w := get_world in
       if path_exists w (output_alpha_png f)
       then import_to_shelf (output_alpha_png f)
       else ret tt) w =
      (Ok tt,
       with_events w
         (logged ("Converted to: " +:+ output_png f)
          ++ EvImportResource (output_png f) (OsPath.basename (output_png f))
             :: logged line1
          ++ if path_exists w (output_alpha_png f)
             then EvImportResource (output_alpha_png f)
                    (OsPath.basename (output_alpha_png f))
                  :: logged line2
             else [])).
Proof.
  set (wa := with_events w (logged ("Converted to: " +:+ output_png f))).
  set (wb := with_events wa
               (EvImportResource (output_png f)
                  (OsPath.basename (output_png f))
                :: logged (import_line wa (output_png f)))).
  exists (import_line wa (output_png f)),
         (import_line wb (output_alpha_png f)).
  split; [apply import_line_shelf|]. split; [apply import_line_shelf|].
  unfold bind at 1. rewrite log_runs. fold wa.
  unfold bind at 1. rewrite import_to_shelf_runs. fold wb.
  unfold bind at 1, get_world.
  change (path_exists wb (output_alpha_png f))
    with (path_exists w (output_alpha_png f)).
  destruct (path_exists w (output_alpha_png f)).
  - rewrite import_to_shelf_runs. subst wb wa.
    rewrite !with_events_app. unfold logged. by rewrite <- ?app_assoc.
  - subst wb wa. unfold ret.
    rewrite !with_events_app, ?app_nil_r. unfold logged.
    by rewrite <- ?app_assoc.
Qed.

(** X18.  When texconv exits with code 0 and leaves an RGBA image at the
    derived PNG path, and the two derived paths can be written, the
    pipeline of the file returns normally and turns the file into two
    resources: the PNG holds the RGB image, the alpha PNG the alpha band,
    no other file is changed by the plugin, both are handed to the host,
    the PNG first, and the log shows the conversion, the extraction, the
    converted path and one line for each import.  texconv was run
    once. *)
Theorem dds_with_alpha_becomes_two_resources
    (exe f : string) (w : World) (cp : CompletedProcess)
    (files : gmap string Node) (img : PIL.Image) :
  subprocess_run (at_conversion exe f w) (texconv_command exe f)
  = inr (cp, files) →
  returncode cp = 0 →
  files !! output_png f = Some (FileImage img) →
  PIL.mode img = PIL.RGBA →
  writable (converted exe f w files) (output_alpha_png f) = true →
  writable
    (with_file (converted exe f w files) (output_alpha_png f)
       (FileImage (alpha_of 3 img)))
    (output_png f) = true →
  ∃ w' line1 line2,
    dds_pipeline exe f w = (Ok tt, w')
    ∧ fs w' =
        <[output_png f := FileImage (PIL.convert_RGB img)]>
          (<[output_alpha_png f := FileImage (alpha_of 3 img)]> files)
    ∧ config w' = config w
    ∧ subprocess_calls (trace w') =
        subprocess_calls (trace w) ++ [texconv_command exe f]
    ∧ imported_paths (trace w') =
        imported_paths (trace w) ++ [output_png f; output_alpha_png f]
    ∧ log_lines (trace w') =
        log_lines (trace w)
        ++ ["Converting " +:+ f +:+ " to PNG directly using texconv...";
            "Alpha channel extracted to: " +:+ output_alpha_png f;
            "Converted to: " +:+ output_png f; line1; line2]
    ∧ shelf_line (output_png f) line1
    ∧ shelf_line (output_alpha_png f) line2.
Proof.
  intros Hrun Hcode Hpng Hmode Hw1 Hw2.
  set (w1 := converted exe f w files) in *.
  set (w2 := with_file w1 (output_alpha_png f) (FileImage (alpha_of 3 img)))
    in *.
  set (w3 := with_file w2 (output_png f) (FileImage (PIL.convert_RGB img))).
  set (w4 := with_events w3
               (logged ("Alpha channel extracted to: "
                        +:+ output_alpha_png f))).
  destruct (pipeline_tail f w4) as (line1 & line2 & Hl1 & Hl2 & Htail).
  assert (path_exists w4 (output_alpha_png f) = true) as Hex.
  { unfold path_exists. subst w4 w3 w2. unfold with_events, with_file.
    cbn [fs].
    rewrite lookup_insert_ne
      by (intros E; by apply (derived_paths_differ f)).
    by rewrite lookup_insert_eq. }
  rewrite Hex in Htail.
  eexists _, line1, line2. split.
  { unfold dds_pipeline. fold (output_png f) (output_alpha_png f).
    unfold bind at 1. rewrite log_runs.
    unfold bind at 1. rewrite (convert_runs _ _ _ cp files Hrun Hcode).
    change {| fs := files; config := _; trace := _ |} with w1.
    unfold bind at 1.
    rewrite (extract_on_image _ _ img) by exact Hpng.
    unfold PIL.getbands. rewrite Hmode.
    change (PIL.index_of "A" (PIL.mode_bands PIL.RGBA)) with (Some 3%nat).
    cbv iota beta. rewrite (write_file_ok _ _ _ Hw1). fold w2.
    unfold bind at 1. unfold bind at 1.
    rewrite (remove_on_image _ img).
    2:{ subst w2. unfold with_file. cbn [fs].
        rewrite lookup_insert_ne; [exact Hpng|].
        apply derived_paths_differ. }
    rewrite Hmode. cbn [PIL.Mode_eqb].
    rewrite (write_file_ok _ _ _ Hw2). fold w3.
    rewrite log_runs. fold w4. exact Htail. }
  subst w4 w3 w2 w1.
  unfold converted, at_conversion, with_events, with_file, logged.
  cbn [fs config trace].
  split; [done|]. split; [done|].
  rewrite <- !app_assoc.
  split; [|split; [|split; [|done]]].
  - unfold subprocess_calls. rewrite !omap_app. simpl.
    by rewrite ?app_nil_r.
  - unfold imported_paths. rewrite !omap_app. simpl.
    by rewrite ?app_nil_r.
  - unfold log_lines. rewrite !omap_app. simpl.
    by rewrite ?app_nil_r.
Qed.

(** X19.  When texconv exits with code 0 and leaves at the derived PNG
    path an image without a band named A, the pipeline of the file
    returns normally, writes no file, logs that no alpha channel was
    found, and hands the PNG to the host; a file that is at the derived
    alpha path is handed over after it, and nothing else is. *)
Theorem dds_without_alpha_becomes_one_resource
    (exe f : string) (w : World) (cp : CompletedProcess)
    (files : gmap string Node) (img : PIL.Image) :
  subprocess_run (at_conversion exe f w) (texconv_command exe f)
  = inr (cp, files) →
  returncode cp = 0 →
  files !! output_png f = Some (FileImage img) →
  PIL.has_band "A" img = false →
  ∃ w' line1 line2,
    dds_pipeline exe f w = (Ok tt, w')
    ∧ fs w' = files
    ∧ config w' = config w
    ∧ subprocess_calls (trace w') =
        subprocess_calls (trace w) ++ [texconv_command exe f]
    ∧ imported_paths (trace w') =
        imported_paths (trace w)
        ++ output_png f
           :: match files !! output_alpha_png f with
              | Some _ => [output_alpha_png f]
              | None => []
              end
    ∧ log_lines (trace w') =
        log_lines (trace w)
        ++ ["Converting " +:+ f +:+ " to PNG directly using texconv...";
            "No alpha channel found in: " +:+ f;
            "Converted to: " +:+ output_png f; line1]
        ++ match files !! output_alpha_png f with
           | Some _ => [line2]
           | None => []
           end
    ∧ shelf_line (output_png f) line1
    ∧ shelf_line (output_alpha_png f) line2.
Proof.
  intros Hrun Hcode Hpng Hband.
  set (w1 := converted exe f w files).
  set (w4 := with_events w1 (logged ("No alpha channel found in: " +:+ f))).
  destruct (pipeline_tail f w4) as (line1 & line2 & Hl1 & Hl2 & Htail).
  eexists _, line1, line2. split.
  { unfold dds_pipeline. fold (output_png f) (output_alpha_png f).
    unfold bind at 1. rewrite log_runs.
    unfold bind at 1. rewrite (convert_runs _ _ _ cp files Hrun Hcode).
    change {| fs := files; config := _; trace := _ |} with w1.
    unfold bind at 1.
    rewrite (extract_on_image _ _ img) by exact Hpng.
    unfold PIL.has_band in Hband.
    destruct (PIL.index_of "A" (PIL.getbands img)); [done|].
    unfold bind at 1. rewrite log_runs. fold w4. exact Htail. }
  unfold path_exists. subst w4 w1.
  unfold converted, at_conversion, with_events, with_file, logged.
  cbn [fs config trace].
  split; [done|]. split; [done|].
  rewrite <- !app_assoc.
  destruct (files !! output_alpha_png f);
    (split; [|split; [|split; [|done]]]).
  - unfold subprocess_calls. rewrite !omap_app. simpl.
    by rewrite ?app_nil_r.
  - unfold imported_paths. rewrite !omap_app. simpl.
    by rewrite ?app_nil_r.
  - unfold log_lines. rewrite !omap_app. simpl.
    by rewrite ?app_nil_r.
  - unfold subprocess_calls. rewrite !omap_app. simpl.
    by rewrite ?app_nil_r.
  - unfold imported_paths. rewrite !omap_app. simpl.
    by rewrite ?app_nil_r.
  - unfold log_lines. rewrite !omap_app. simpl.
    by rewrite ?app_nil_r.
Qed.

End Pipeline.

(** [leaf.dds] converts to an RGBA image. *)
Lemma dds_with_alpha_becomes_two_resources_witness :
  let f := "C:/tex/leaf.dds" in
  let exe := "C:/tools/texconv.exe" in
  let files := <["C:/tex/leaf.png" := FileImage Demo.leaf_rgba]> Demo.files in
  ∃ w' line1 line2,
    dds_pipeline (H:=Demo.host) exe f Demo.world = (Ok tt, w')
    ∧ fs w' =
        <[output_png f := FileImage (PIL.convert_RGB Demo.leaf_rgba)]>
          (<[output_alpha_png f := FileImage (alpha_of 3 Demo.leaf_rgba)]>
             files)
    ∧ config w' = config Demo.world
    ∧ subprocess_calls (trace w') =
        subprocess_calls (trace Demo.world) ++ [texconv_command exe f]
    ∧ imported_paths (trace w') =
        imported_paths (trace Demo.world)
        ++ [output_png f; output_alpha_png f]
    ∧ log_lines (trace w') =
        log_lines (trace Demo.world)
        ++ ["Converting " +:+ f +:+ " to PNG directly using texconv...";
            "Alpha channel extracted to: " +:+ output_alpha_png f;
            "Converted to: " +:+ output_png f; line1; line2]
    ∧ shelf_line (output_png f) line1
    ∧ shelf_line (output_alpha_png f) line2.
Proof.
  intros f exe files.
  apply (dds_with_alpha_becomes_two_resources (H:=Demo.host) exe f Demo.world
           {| returncode := 0; stdout := "writing leaf.png"; stderr := "" |}
           files Demo.leaf_rgba);
    vm_compute; reflexivity.
Defined.

(** [wall.dds] converts to an RGB image; an older [wall_alpha.png] is on
    the disk. *)
Lemma dds_without_alpha_becomes_one_resource_witness :
  let f := "C:/tex/wall.dds" in
  let exe := "C:/tools/texconv.exe" in
  let files := <["C:/tex/wall.png" := FileImage Demo.wall_rgb]> Demo.files in
  ∃ w' line1 line2,
    dds_pipeline (H:=Demo.host) exe f Demo.world = (Ok tt, w')
    ∧ fs w' = files
    ∧ config w' = config Demo.world
    ∧ subprocess_calls (trace w') =
        subprocess_calls (trace Demo.world) ++ [texconv_command exe f]
    ∧ imported_paths (trace w') =
        imported_paths (trace Demo.world)
        ++ output_png f
           :: match files !! output_alpha_png f with
              | Some _ => [output_alpha_png f]
              | None => []
              end
    ∧ log_lines (trace w') =
        log_lines (trace Demo.world)
        ++ ["Converting " +:+ f +:+ " to PNG directly using texconv...";
            "No alpha channel found in: " +:+ f;
            "Converted to: " +:+ output_png f; line1]
        ++ match files !! output_alpha_png f with
           | Some _ => [line2]
           | None => []
           end
    ∧ shelf_line (output_png f) line1
    ∧ shelf_line (output_alpha_png f) line2.
Proof.
  intros f exe files.
  apply (dds_without_alpha_becomes_one_resource (H:=Demo.host) exe f
           Demo.world {| returncode := 0; stdout := ""; stderr := "" |}
           files Demo.wall_rgb);
    vm_compute; reflexivity.
Defined.

(** ** What a batch may show and change *)

Global Instance keeps_config_preorder : PreOrder keeps_config.
Proof.
  split.
  - by intros w.
  - intros w1 w2 w3 H12 H23. unfold keeps_config in *. congruence.
Qed.

Section Batches.
Context `{Host}.

Lemma keeps_emit ev : preserves keeps_config (emit ev).
Proof. intros w r w' Hm. by inversion Hm. Qed.

Lemma keeps_run_subprocess cmd : preserves keeps_config (run_subprocess cmd).
Proof.
  intros w r w' Hm. unfold run_subprocess in Hm.
  destruct (subprocess_run w cmd) as [e|[cp files]]; by inversion Hm.
Qed.

Lemma keeps_import_resource p n :
  preserves keeps_config (import_resource p n).
Proof.
  intros w r w' Hm. unfold import_resource in Hm.
  destruct (import_session_resource w p n); by inversion Hm.
Qed.

Lemma keeps_write_file path n : preserves keeps_config (write_file path n).
Proof.
  intros w r w' Hm.
  destruct (write_file_inv _ _ _ _ _ Hm) as [(_ & _ & ->) | (_ & -> & _)];
    done.
Qed.

Lemma grows_by_weaken (φ ψ : Event → Prop) w w' :
  (∀ ev, φ ev → ψ ev) → grows_by φ w w' → grows_by ψ w w'.
Proof.
  intros Himp (added & Htr & Hall). exists added. split; [done|].
  eapply Forall_impl; eauto.
Qed.

Lemma batch_event_mono l files ev :
  (∀ f, In f l → In f files) → batch_event l ev → batch_event files ev.
Proof.
  intros Hsub. destruct ev; simpl; try done.
  - intros (exe & f & Hf & ->). eauto.
  - intros (-> & f & Hf & Hp). eauto.
Qed.

End Batches.

(** Decomposes a goal [preserves keeps_config m] along the structure of
    [m]. *)
Ltac keep_config :=
  autounfold with plugin;
  repeat first
    [ apply preserves_ret; tc_solve
    | apply preserves_raise; tc_solve
    | apply preserves_lift; tc_solve
    | apply preserves_get_world; tc_solve
    | apply preserves_Image_open; tc_solve
    | apply keeps_emit
    | apply keeps_run_subprocess
    | apply keeps_import_resource
    | apply keeps_write_file
    | apply preserves_bind; [tc_solve | | intros ?]
    | apply preserves_try_except; [tc_solve | | intros ?]
    | apply preserves_for_each; [tc_solve | intros ?]
    | match goal with
      | |- preserves _ (if ?b then _ else _) => destruct b
      | |- preserves _ (match ?x with _ => _ end) => destruct x
      end ].

Section BatchInvariants.
Context `{Host}.

Lemma import_one_events exe f :
  preserves (grows_by (batch_event [f])) (import_one_dds exe f).
Proof.
  preserve.
  - apply grows_run_subprocess. exists exe, f. split; [by left | done].
  - apply grows_import_resource. split; [done|].
    exists f. split; [by left | by left].
  - apply grows_import_resource. split; [done|].
    exists f. split; [by left | by right].
Qed.

Lemma batch_events exe l files :
  (∀ f, In f l → In f files) →
  preserves (grows_by (batch_event files)) (for_each l (import_one_dds exe)).
Proof.
  intros Hsub. induction l as [|f l IH]; simpl.
  - apply preserves_ret; tc_solve.
  - apply preserves_bind; [tc_solve | |].
    + intros w r w' Hm. apply (grows_by_weaken (batch_event [f])).
      * intros ev. apply batch_event_mono.
        intros g [<-|[]]. apply Hsub. by left.
      * by apply (import_one_events exe f w r).
    + intros _. apply IH. intros g Hg. apply Hsub. by right.
Qed.

(** X20.  Whatever the tools and the host do, a DDS import leaves the
    configuration in memory as it was and shows no message box; each
    subprocess it runs is the conversion of a selected file, and each
    resource it hands to the host is a PNG derived from a selected file,
    under its base name. *)
Theorem dds_import_shows_only_its_own_files
    (dds_files : list string) (w : World) :
  let w' := snd (on_import_dds dds_files w) in
  config w' = config w
  ∧ message_boxes (trace w') = message_boxes (trace w)
  ∧ ∃ added,
      trace w' = trace w ++ added
      ∧ Forall (batch_event dds_files) added.
Proof.
  intros w'.
  assert (preserves keeps_config (on_import_dds dds_files)) as Hkeep.
  { unfold on_import_dds. keep_config. }
  assert (preserves (grows_by (batch_event dds_files))
            (on_import_dds dds_files)) as Hgrow.
  { unfold on_import_dds. destruct dds_files as [|f l]; [preserve|].
    unfold config_paths_get.
    apply preserves_bind; [tc_solve | preserve | intros v].
    apply preserves_bind; [tc_solve | preserve | intros w0].
    destruct (falsy v || negb (path_isfile w0 (default "" v)));
      [preserve|].
    by apply batch_events. }
  split; [|split].
  - by apply (Hkeep w (fst (on_import_dds dds_files w))), surjective_pairing.
  - destruct (Hgrow w _ _ (surjective_pairing _)) as (added & Htr & Hall).
    fold w' in Htr. rewrite Htr. apply boxes_quiet.
    eapply Forall_impl; [exact Hall|]. by intros [].
  - by apply (Hgrow w (fst (on_import_dds dds_files w))), surjective_pairing.
Qed.

End BatchInvariants.

(** ** Percent signs in a tool path, and the path a batch runs *)

Section Percent.
Context `{Host}.

Lemma interpolate_escaped fuel map a b :
  Str.contains "%" a = false →
  Str.contains "%" b = false →
  Cfg.interpolate_some (S fuel) map (a +:+ "%%" +:+ b)
  = Ok (a +:+ "%" +:+ b).
Proof.
  intros Ha Hb.
  pose proof (interpolate_plain fuel map b Hb) as Hplain.
  unfold Cfg.interpolate_some in *.
  induction a as [|x a IH].
  - change ("" +:+ "%%" +:+ b) with (String "%" (String "%" b)).
    change ("" +:+ "%" +:+ b) with (String "%" b).
    cbn -[Str.eqc]. change (Str.eqc "%" "%") with true. cbv iota.
    cbn -[Str.eqc] in Hplain. by rewrite Hplain.
  - destruct (plain_head _ _ Ha) as [Hx Ha'].
    change (String x a +:+ "%%" +:+ b) with (String x (a +:+ "%%" +:+ b)).
    change (String x a +:+ "%" +:+ b) with (String x (a +:+ "%" +:+ b)).
    cbn -[Str.eqc String.append]. rewrite Hx.
    by rewrite (IH Ha').
Qed.

Lemma interpolate_single fuel map a b :
  Str.contains "%" a = false →
  Str.contains "%" b = false →
  Str.startswith "(" b = false →
  ∃ e, exn_class e = ConfigParserError
       ∧ Cfg.interpolate_some (S fuel) map (a +:+ "%" +:+ b) = Raise e.
Proof.
  intros Ha Hb Hparen. unfold Cfg.interpolate_some.
  induction a as [|x a IH].
  - change ("" +:+ "%" +:+ b) with (String "%" b).
    cbn -[Str.eqc]. change (Str.eqc "%" "%") with true. cbv iota.
    destruct b as [|y b'].
    + eexists. split; [|reflexivity]. reflexivity.
    + destruct (plain_head _ _ Hb) as [Hy _]. rewrite Hy.
      assert (Str.eqc y "(" = false) as ->.
      { unfold Str.startswith in Hparen. rewrite andb_true_r in Hparen.
        unfold Str.eqc in *. by rewrite Ascii.eqb_sym. }
      eexists. split; [|reflexivity]. reflexivity.
  - destruct (plain_head _ _ Ha) as [Hx Ha'].
    destruct (IH Ha') as (e & He & Hrun).
    exists e. split; [done|].
    change (String x a +:+ "%" +:+ b) with (String x (a +:+ "%" +:+ b)).
    cbn -[Str.eqc String.append]. rewrite Hx. by rewrite Hrun.
Qed.

Lemma drop_escaped_pair a b :
  Str.contains "%" a = false →
  Str.contains "%" b = false →
  Str.drop_escaped_percent (a +:+ "%%" +:+ b) = a +:+ b.
Proof.
  intros Ha Hb. induction a as [|x a IH].
  - change ("" +:+ "%%" +:+ b) with (String "%" (String "%" b)).
    rewrite drop_escaped_step. change (Str.eqc "%" "%") with true.
    cbn [andb]. by rewrite (drop_escaped_plain _ Hb).
  - destruct (plain_head _ _ Ha) as [Hx Ha'].
    specialize (IH Ha').
    change (String x a +:+ "%%" +:+ b) with (String x (a +:+ "%%" +:+ b)).
    destruct (a +:+ "%%" +:+ b) as [|y r] eqn:Hr.
    { by destruct a. }
    by rewrite drop_escaped_step, Hx, IH.
Qed.

Lemma before_set_escaped a b :
  Str.contains "%" a = false →
  Str.contains "%" b = false →
  Cfg.before_set (a +:+ "%%" +:+ b) = Ok (a +:+ "%%" +:+ b).
Proof.
  intros Ha Hb. unfold Cfg.before_set.
  assert (Str.contains "%" (a +:+ b) = false) as Hab
    by (by rewrite contains_app, Ha, Hb).
  by rewrite drop_escaped_pair, keycre_sub_plain, Hab.
Qed.

Lemma proxy_setitem_accepted c opt value :
  Cfg.has_section c "Paths" = true →
  Cfg.before_set value = Ok value →
  Cfg.proxy_setitem c "Paths" opt value
  = Ok (paths_updated c (Str.lower opt) value).
Proof.
  intros Hs Hb. unfold Cfg.proxy_setitem, Cfg.getitem. rewrite Hs.
  cbn [negb andb]. unfold Cfg.set.
  assert ((if Str.truthy value then Cfg.before_set value else Ok value)
          = Ok value) as ->.
  { by destruct (Str.truthy value). }
  change (negb (Str.truthy "Paths") || String.eqb "Paths" Cfg.DEFAULT)
    with false. cbv iota.
  unfold paths_updated. unfold Cfg.has_section, Cfg.dict_has in Hs.
  by destruct (Cfg.dict_get "Paths" (Cfg.sections c)).
Qed.

Lemma store_accepted opt P line w :
  Cfg.has_section (config w) "Paths" = true →
  Cfg.before_set P = Ok P →
  ∃ w',
    (config_paths_set opt P >>> save_config >>> log line) w = (Ok tt, w')
    ∧ config w' = paths_updated (config w) (Str.lower opt) P.
Proof.
  intros Hs Hb. unfold bind at 1.
  rewrite config_paths_set_runs, proxy_setitem_accepted by done.
  unfold bind at 1.
  destruct (save_config_frame
              (with_settings w (paths_updated (config w) (Str.lower opt) P)))
    as (w1 & -> & Hcfg & _).
  rewrite log_runs. eexists. split; [done|]. exact Hcfg.
Qed.

Lemma stored_after_update c opt P (w : World) :
  Cfg.has_section c "Paths" = true →
  config w = paths_updated c opt P →
  stored opt w = Some P.
Proof.
  intros Hs Hc. unfold stored. rewrite Hc. unfold paths_updated.
  unfold Cfg.has_section, Cfg.dict_has in Hs.
  destruct (Cfg.dict_get "Paths" (Cfg.sections c)) as [sect|]; [|done].
  cbn [Cfg.sections]. by rewrite !dict_get_set.
Qed.

(** X21.  The texconv path set through the panel is the program the next
    DDS import runs: after [set_texconv_location] with a path that is
    not empty and has no percent sign, whether the settings file could be
    written or not, an import of selected files in a world where the path
    names a file runs that path once for each selected file, in order,
    and returns normally. *)
Theorem new_texconv_path_is_the_program_run
    (P f : string) (files : list string) (w : World) :
  Cfg.has_section (config w) "Paths" = true →
  Str.truthy P = true →
  Str.contains "%" P = false →
  let w1 := snd (set_texconv_location P w) in
  path_isfile w1 P = true →
  fst (set_texconv_location P w) = Ok tt
  ∧ ∃ w2,
      on_import_dds (f :: files) w1 = (Ok tt, w2)
      ∧ subprocess_calls (trace w2) =
          subprocess_calls (trace w1)
          ++ map (texconv_command P) (f :: files).
Proof.
  intros Hs Ht Hp w1 Hfile.
  destruct (store_accepted "texconv" P ("texconv location set to: " +:+ P)
              w Hs (before_set_plain _ Hp)) as (w' & Hrun & Hcfg).
  assert (set_texconv_location P w = (Ok tt, w')) as Hset.
  { unfold set_texconv_location. by rewrite Ht. }
  subst w1. rewrite Hset in *. cbn [fst snd] in *. split; [done|].
  pose proof (get_after_update (config w) "texconv" P w' Hs Hp Hcfg) as Hget.
  destruct (batch_runs P (f :: files) w') as (w2 & Hbatch & Hcalls).
  exists w2. split; [|exact Hcalls].
  unfold on_import_dds. unfold bind at 1. rewrite Hget.
  unfold bind at 1, get_world. unfold falsy. rewrite Ht.
  change (default "" (Some P)) with P. cbn [negb orb].
  rewrite Hfile. exact Hbatch.
Qed.

(** X22.  A percent sign is stored doubled: a path with one doubled
    percent sign and no other is accepted by the setter and stored as
    given, and every lookup gives it with a single percent sign. *)
Theorem escaped_percent_is_read_as_one (a b : string) (w : World) :
  Cfg.has_section (config w) "Paths" = true →
  Str.contains "%" a = false →
  Str.contains "%" b = false →
  ∃ w',
    set_texconv_location (a +:+ "%%" +:+ b) w = (Ok tt, w')
    ∧ stored "texconv" w' = Some (a +:+ "%%" +:+ b)
    ∧ config_paths_get "texconv" w' = (Ok (Some (a +:+ "%" +:+ b)), w').
Proof.
  intros Hs Ha Hb.
  destruct (store_accepted "texconv" (a +:+ "%%" +:+ b)
              ("texconv location set to: " +:+ a +:+ "%%" +:+ b)
              w Hs (before_set_escaped _ _ Ha Hb)) as (w' & Hrun & Hcfg).
  exists w'. split; [|split].
  - unfold set_texconv_location.
    assert (Str.truthy (a +:+ "%%" +:+ b) = true) as ->; [|exact Hrun].
    by destruct a.
  - by apply (stored_after_update (config w)).
  - unfold config_paths_get, bind, get_world, lift.
    unfold Cfg.getitem, Cfg.has_section, Cfg.dict_has, Cfg.proxy_get.
    rewrite Hcfg. unfold paths_updated.
    unfold Cfg.has_section, Cfg.dict_has in Hs.
    destruct (Cfg.dict_get "Paths" (Cfg.sections (config w))) as [sect|];
      [|done].
    cbn [Cfg.sections Cfg.defaults]. rewrite dict_get_set. cbn [negb andb].
    unfold Cfg.chain.
    change (Str.lower "texconv") with "texconv". rewrite dict_get_set.
    change Cfg.MAX_INTERPOLATION_DEPTH with (S 9).
    by rewrite interpolate_escaped.
Qed.

(** X23.  A settings file written from ordinary settings in which the
    texconv path holds a single percent sign that is not followed by an
    opening parenthesis is loaded, but stops the plugin: the first lookup
    raises a [configparser] error, so the constructor does not return,
    and with this configuration in memory a DDS import of selected files
    raises the same error before doing anything. *)
Theorem lone_percent_in_the_settings_stops_the_plugin
    (cfg : Cfg.ConfigParser) (sect : Cfg.Options) (a b f : string)
    (files : list string) (w : World) :
  fs w !! CONFIG_FILE = Some (FileText (Cfg.write cfg)) →
  Clean.config cfg = true →
  Cfg.dict_get "Paths" (Cfg.sections cfg) = Some sect →
  Cfg.dict_get "texconv" sect = Some (a +:+ "%" +:+ b) →
  Str.contains "%" a = false →
  Str.contains "%" b = false →
  Str.startswith "(" b = false →
  ∃ e,
    exn_class e = ConfigParserError
    ∧ init w = (Raise e, with_settings w cfg)
    ∧ on_import_dds (f :: files) (with_settings w cfg)
      = (Raise e, with_settings w cfg).
Proof.
  intros Hfile Hclean Hsect Hval Ha Hb Hparen.
  destruct (interpolate_single 9 (Cfg.chain sect (Cfg.defaults cfg)) a b
              Ha Hb Hparen) as (e & He & Hint).
  assert (∀ w0 : World, config w0 = cfg →
            config_paths_get "texconv" w0 = (Raise e, w0)) as Hget.
  { intros w0 Hc.
    unfold config_paths_get, bind, get_world, lift.
    unfold Cfg.getitem, Cfg.has_section, Cfg.dict_has, Cfg.proxy_get.
    rewrite Hc, Hsect. cbn [negb andb].
    change (Str.lower "texconv") with "texconv".
    unfold Cfg.chain at 1. rewrite Hval.
    change Cfg.MAX_INTERPOLATION_DEPTH with (S 9). by rewrite Hint. }
  exists e. split; [done|]. split.
  - rewrite init_after_load, (load_existing _ _ Hfile).
    rewrite (read_write_round_trip _ Hclean). cbn [fst snd].
    unfold display_initial_info. unfold bind at 1 2.
    by rewrite Hget.
  - unfold on_import_dds. unfold bind at 1. by rewrite Hget.
Qed.

End Percent.

(** The path is set while the settings file cannot be written. *)
Lemma new_texconv_path_is_the_program_run_witness :
  let P := "C:/tools/bcdecode.exe" in
  let w1 := snd (set_texconv_location (H:=Demo.locked_host) P Demo.world) in
  fst (set_texconv_location (H:=Demo.locked_host) P Demo.world) = Ok tt
  ∧ ∃ w2,
      on_import_dds (H:=Demo.locked_host) ("C:/tex/wall.dds" :: []) w1
      = (Ok tt, w2)
      ∧ subprocess_calls (trace w2) =
          subprocess_calls (trace w1)
          ++ map (texconv_command P) ("C:/tex/wall.dds" :: []).
Proof.
  apply (new_texconv_path_is_the_program_run (H:=Demo.locked_host)
           "C:/tools/bcdecode.exe" "C:/tex/wall.dds" [] Demo.world);
    vm_compute; reflexivity.
Defined.

Lemma escaped_percent_is_read_as_one_witness :
  ∃ w',
    set_texconv_location (H:=Demo.host)
      ("C:/tools/50" +:+ "%%" +:+ "/texconv.exe") Demo.world = (Ok tt, w')
    ∧ stored "texconv" w' = Some ("C:/tools/50" +:+ "%%" +:+ "/texconv.exe")
    ∧ config_paths_get "texconv" w'
      = (Ok (Some ("C:/tools/50" +:+ "%" +:+ "/texconv.exe")), w').
Proof.
  apply (escaped_percent_is_read_as_one (H:=Demo.host) "C:/tools/50"
           "/texconv.exe" Demo.world);
    vm_compute; reflexivity.
Defined.

(** A settings file edited by hand. *)
Lemma lone_percent_in_the_settings_stops_the_plugin_witness :
  let cfg :=
    {| Cfg.defaults := [];
       Cfg.sections :=
         [("Paths", [("texconv", "C:/tools/100" +:+ "%" +:+ "/texconv.exe");
                     ("bcdecode", "C:/tools/bcdecode.exe")])] |} in
  let w := Saved.start (Cfg.write cfg) in
  ∃ e,
    exn_class e = ConfigParserError
    ∧ init (H:=Demo.host) w = (Raise e, with_settings w cfg)
    ∧ on_import_dds (H:=Demo.host) ("C:/tex/leaf.dds" :: [])
        (with_settings w cfg)
      = (Raise e, with_settings w cfg).
Proof.
  intros cfg w.
  apply (lone_percent_in_the_settings_stops_the_plugin (H:=Demo.host) cfg
           [("texconv", "C:/tools/100" +:+ "%" +:+ "/texconv.exe");
            ("bcdecode", "C:/tools/bcdecode.exe")]
           "C:/tools/100" "/texconv.exe" "C:/tex/leaf.dds" [] w);
    vm_compute; reflexivity.
Defined.
